(** * fmn.web: the preference API of [fmn/web/app.py]

    A shallow embedding of the request handlers of [fmn/web/app.py]
    ([handle_confirmation], [handle_filter], [int_or_none],
    [handle_details], [handle_rule] and the decorators [login_required]
    and [api_method]) together with a model of the [fmn.lib] objects they
    drive, and the properties of the preference store that follow.

    The handlers are written as programs over the calls they make into
    [fmn.lib] (a free monad with exceptions), so that what a handler asks of
    the library is kept apart from what the library answers.  The answers
    are given by [sem], an executable model of the [fmn.lib.models] tables. *)

From Stdlib Require Import ZArith String Ascii.
From stdpp Require Import base option list gmap strings.

Local Open Scope string_scope.
Local Open Scope Z_scope.
Local Open Scope list_scope.

(** ** Python values *)

(** Truth value of a form field that holds [None] or a string. *)
Definition truthy (v : option string) : bool :=
  match v with
  | Some s => negb (bool_decide (s = ""))
  | None => false
  end.

(** [a or b] where [a] is [None] or a string and [b] a string. *)
Definition py_or (a : option string) (b : string) : string :=
  match a with
  | Some s => if bool_decide (s = "") then b else s
  | None => b
  end.

Definition upper_ascii (c : ascii) : ascii :=
  let n := nat_of_ascii c in
  if ((97 <=? n) && (n <=? 122))%nat then ascii_of_nat (n - 32) else c.

(** [.upper()] on text of characters below 128, where it changes the
    letters a-z and nothing else.  A form value is unicode text, and
    [.upper()] also maps characters from 128 on (U+017F to S, for one):
    what the handlers do with a method that has such a character is not
    modelled, and statements that would depend on it take [isascii] as a
    hypothesis. *)
Fixpoint upper (s : string) : string :=
  match s with
  | EmptyString => EmptyString
  | String c s' => String (upper_ascii c) (upper s')
  end.

(** White space as the builtin [int] sees it in text of printable
    characters: the six characters of [string.whitespace]. *)
Definition is_space (c : ascii) : bool :=
  let n := nat_of_ascii c in
  ((n =? 32) || ((9 <=? n) && (n <=? 13)))%nat.

Definition digit_of (c : ascii) : option Z :=
  let n := Z.of_nat (nat_of_ascii c) in
  if (48 <=? n) && (n <=? 57) then Some (n - 48) else None.

Fixpoint digits_value (acc : Z) (l : list ascii) : option Z :=
  match l with
  | [] => Some acc
  | c :: l' =>
      match digit_of c with
      | Some d => digits_value (10 * acc + d) l'
      | None => None
      end
  end.

Definition unsigned_literal (l : list ascii) : option Z :=
  match l with
  | [] => None
  | _ => digits_value 0 l
  end.

Fixpoint lstrip (l : list ascii) : list ascii :=
  match l with
  | c :: l' => if is_space c then lstrip l' else l
  | [] => []
  end.

Definition strip (l : list ascii) : list ascii :=
  rev (lstrip (rev (lstrip l))).

(** The builtin [int] on text of printable characters: optional
    surrounding white space, an optional sign and at least one decimal
    digit.  [None] stands for the [ValueError] of the builtin.  On unicode
    text the builtin also takes the decimal digits and the white space of
    other scripts, and from Python 3.6 on an underscore between digits; a
    literal accepted here is accepted by the builtin with the same value,
    and statements about the text refused here are about [printable] text
    without an underscore. *)
Definition int_literal (s : string) : option Z :=
  match strip (list_ascii_of_string s) with
  | "+"%char :: ds => unsigned_literal ds
  | "-"%char :: ds => Z.opp <$> unsigned_literal ds
  | ds => unsigned_literal ds
  end.

(** ** Exceptions and responses *)

(** A string built by a handler: a literal, [template % args] with every
    argument shown by [%r], or the result of [flask.url_for]. *)
Inductive Str :=
| Lit (s : string)
| Fmt (template : string) (args : list string)
| url_for (endpoint : string) (values : list (string * string)).

Inductive ErrVal :=
| EStr (t : Str)
| EList (l : list string).

(** The [errors] dict of an [APIError]. *)
Definition Errors : Type := list (string * ErrVal).

Inductive Exn :=
| APIError (status_code : Z) (errors : Errors)
| HTTPException (code : Z)
| TypeError (msg : string)
| ValueError (msg : string)
| KeyError (msg : string)
| AttributeError (msg : string)
| NotImplementedError (msg : string)
| OtherError (msg : string).

(** [str(e)] for the exceptions the handlers convert. *)
Definition exn_str (e : Exn) : string :=
  match e with
  | APIError _ _ => ""
  | HTTPException _ => ""
  | TypeError m | ValueError m | KeyError m | AttributeError m
  | NotImplementedError m | OtherError m => m
  end.

(** The dict a handler hands to [api_method]. *)
Definition Result : Type := list (string * Str).

Inductive Response :=
| jsonify_errors (errors : Errors) (status_code : Z)
| jsonify (result : Result) (status_code : Z)
| redirect (location : Str).

(** ** The objects of [fmn.lib.models] *)

Inductive Status := pending | accepted | rejected | expired.

#[global] Instance Status_eq_dec : EqDecision Status.
Proof. solve_decision. Defined.

(** Row identities: a Preference is keyed by its (openid, context) pair,
    Filters and Confirmations by their row number. *)
Abbreviation pref_id := (string * string)%type (only parsing).
Abbreviation filter_id := nat (only parsing).
Abbreviation confirmation_id := nat (only parsing).

(** What a handler asks of [fmn.lib] (and of [flask.flash]). *)
Inductive call :=
| User_by_openid (openid : string)
| User_get_or_create (openid openid_url : string)
| Context_by_name (name : string)
| Preference_get_or_create (openid context : string)
| Pref_detail_value (pref : pref_id)
| Pref_enabled (pref : pref_id)
| Pref_has_filter (pref : pref_id) (filter_name : string)
| Pref_get_filter (pref : pref_id) (filter_name : string)
| Pref_add_filter (pref : pref_id) (filter : filter_id)
| Pref_update_details (pref : pref_id) (value : string)
| Pref_set_batch_values (pref : pref_id) (delta count : option Z)
| Pref_set_enabled (pref : pref_id) (enabled : bool)
| Filter_create (name : string)
| Filter_add_rule (filter : filter_id) (code_path : string)
    (arguments : list (string * string))
| Filter_remove_filter (filter : filter_id) (code_path : string)
| SESSION_delete (filter : filter_id)
| SESSION_commit
| validate_detail_value (context : string) (value : string)
| Confirmation_by_secret (secret : string)
| Confirmation_get_or_create (openid context : string)
| Con_openid (con : confirmation_id)
| Con_context_name (con : confirmation_id)
| Con_set_value (con : confirmation_id) (value : string)
| Con_set_status (con : confirmation_id) (status : Status)
| flash (message category : string).

(** The type of the answer; a call that may raise answers with a sum. *)
Definition reply (c : call) : Type :=
  match c with
  | User_by_openid _ => option string
  | User_get_or_create _ _ => string
  | Context_by_name _ => option string
  | Preference_get_or_create _ _ => pref_id
  | Pref_detail_value _ => option string
  | Pref_enabled _ => bool
  | Pref_has_filter _ _ => bool
  | Pref_get_filter _ _ => Exn + filter_id
  | Filter_create _ => filter_id
  | Filter_add_rule _ _ _ => Exn + unit
  | Filter_remove_filter _ _ => Exn + unit
  | validate_detail_value _ _ => Exn + unit
  | Confirmation_by_secret _ => option confirmation_id
  | Confirmation_get_or_create _ _ => confirmation_id
  | Con_openid _ => string
  | Con_context_name _ => string
  | Pref_add_filter _ _ | Pref_update_details _ _
  | Pref_set_batch_values _ _ _ | Pref_set_enabled _ _
  | SESSION_delete _ | SESSION_commit
  | Con_set_value _ _ | Con_set_status _ _ | flash _ _ => unit
  end.

(** ** Handler programs *)

Inductive Prog (A : Type) : Type :=
| Ret (a : A)
| Raise (e : Exn)
| Call (c : call) (k : reply c → Prog A).

Arguments Ret {A} a.
Arguments Raise {A} e.
Arguments Call {A} c k.

Fixpoint bind {A B} (p : Prog A) (f : A → Prog B) : Prog B :=
  match p with
  | Ret a => f a
  | Raise e => Raise e
  | Call c k => Call c (fun r => bind (k r) f)
  end.

Notation "x <- p ;; q" := (bind p (fun x => q))
  (at level 100, p at next level, right associativity).
Notation "p ;;; q" := (bind p (fun _ => q))
  (at level 100, right associativity).

Definition ask (c : call) : Prog (reply c) := Call c Ret.

(** A call that raises the exception it answers with. *)
Definition ask_raising {R} (c : call) (cast : reply c → Exn + R) : Prog R :=
  Call c (fun r => match cast r with inl e => Raise e | inr v => Ret v end).

(** [try: p  except ...: h e]; [h] answers [None] for an exception the
    clause does not name. *)
Fixpoint try_except {A} (p : Prog A) (h : Exn → option (Prog A)) : Prog A :=
  match p with
  | Ret a => Ret a
  | Raise e => match h e with Some q => q | None => Raise e end
  | Call c k => Call c (fun r => try_except (k r) h)
  end.

(** ** The request environment *)

(** [flask.g.auth] after [check_auth]: the attributes [openid] and
    [openid_url] exist exactly when [logged_in] is set. *)
Record Identity := { openid : string; openid_url : string }.

Record Env := {
  g_auth : option Identity;
  FMN_ADMINS : list string;                    (* app.config *)
  fmn_verify_delivery_details : option bool;   (* fedmsg_config *)
  request_method : string;
  request_url : string;
  request_form : list (string * string);
  wants_html : bool                            (* request_wants_html() *)
}.

Definition logged_in (env : Env) : bool := bool_decide (is_Some (g_auth env)).

(** [flask.g.auth.openid]: the attribute is missing for an anonymous caller. *)
Definition g_auth_openid (env : Env) : Prog string :=
  match g_auth env with
  | Some i => Ret (openid i)
  | None => Raise (AttributeError "openid")
  end.

Definition g_auth_openid_url (env : Env) : Prog string :=
  match g_auth env with
  | Some i => Ret (openid_url i)
  | None => Raise (AttributeError "openid_url")
  end.

Definition admin (env : Env) (user : string) : bool :=
  bool_decide (user ∈ FMN_ADMINS env).

(** The forms of [fmn.web.forms], as the handlers read them: the outcome of
    [validate()], [errors], and the [data] of each field. *)
Record FilterForm := {
  ff_validate : bool;
  ff_errors : Errors;
  ff_openid : string;
  ff_context : string;
  ff_filter_name : string;
  ff_method : option string
}.

Record DetailsForm := {
  df_validate : bool;
  df_errors : Errors;
  df_openid : string;
  df_context : string;
  df_detail_value : option string;
  df_batch_delta : option string;
  df_batch_count : option string;
  df_toggle_enable : option string
}.

Record RuleForm := {
  rf_validate : bool;
  rf_errors : Errors;
  rf_openid : string;
  rf_context : string;
  rf_filter_name : string;
  rf_rule_name : string;
  rf_method : option string
}.

(** ** [fmn/web/app.py] *)

Definition reason (t : Str) : Errors := [("reason", EStr t)].

(** [login_required]: anonymous callers are sent to the login page;
    otherwise the caller's User row is ensured before the view runs. *)
Definition login_required (env : Env) (function : Prog Response)
  : Prog Response :=
  if negb (logged_in env) then
    ask (flash "Login required" "errors") ;;;
    Ret (redirect (url_for "login" [("next", request_url env)]))
  else
    o <- g_auth_openid env ;;
    u <- g_auth_openid_url env ;;
    ask (User_get_or_create o u) ;;;
    function.

Fixpoint dict_get {V} (k : string) (d : list (string * V)) : option V :=
  match d with
  | [] => None
  | (k', v) :: d' => if bool_decide (k' = k) then Some v else dict_get k d'
  end.

(** [api_method]: an [APIError] becomes a JSON body with its status code (it
    is also logged); any other exception passes through.  A result is a
    redirect for browsers and JSON otherwise. *)
Definition api_method (env : Env) (function : Prog Result) : Prog Response :=
  try_except
    (result <- function ;;
     match dict_get "url" result with
     | Some url =>
         if wants_html env then Ret (redirect url)
         else Ret (jsonify result 200)
     | None => Ret (jsonify result 200)
     end)
    (fun e =>
       match e with
       | APIError status_code errors =>
           Some (Ret (jsonify_errors errors status_code))
       | _ => None
       end).

Definition handle_confirmation (env : Env) (action secret : string)
  : Prog Response :=
  if negb (bool_decide (action ∈ ["accept"; "reject"])) then
    Raise (HTTPException 404)
  else
    confirmation <- ask (Confirmation_by_secret secret) ;;
    match confirmation with
    | None => Raise (HTTPException 404)
    | Some confirmation =>
        caller <- g_auth_openid env ;;
        owner <- ask (Con_openid confirmation) ;;
        if bool_decide (caller ≠ owner) then Raise (HTTPException 403)
        else
          (if bool_decide (action = "accept")
           then ask (Con_set_status confirmation accepted)
           else ask (Con_set_status confirmation rejected)) ;;;
          o <- ask (Con_openid confirmation) ;;
          c <- ask (Con_context_name confirmation) ;;
          Ret (redirect (url_for "context" [("openid", o); ("context", c)]))
    end.

(** [except (ValueError, KeyError) as e: raise APIError(403, ...)]. *)
Definition except_value_key_error {A} (e : Exn) : option (Prog A) :=
  match e with
  | ValueError _ | KeyError _ =>
      Some (Raise (APIError 403 (reason (Lit (exn_str e)))))
  | _ => None
  end.

Definition handle_filter (env : Env) (form : FilterForm) : Prog Result :=
  if negb (ff_validate form) then Raise (APIError 400 (ff_errors form))
  else
    let openid := ff_openid form in
    let context := ff_context form in
    let filter_name := ff_filter_name form in
    let method := upper (py_or (ff_method form) (request_method env)) in
    caller <- g_auth_openid env ;;
    if bool_decide (caller ≠ openid) && negb (admin env caller) then
      Raise (APIError 403 (reason (Fmt "%r is not %r" [caller; openid])))
    else if negb (bool_decide (method ∈ ["POST"; "DELETE"])) then
      Raise (APIError 405 (reason (Lit "Only POST and DELETE accepted")))
    else
      user <- ask (User_by_openid openid) ;;
      if negb (bool_decide (is_Some user)) then
        Raise (APIError 403 (reason (Fmt "%r is not a user" [openid])))
      else
        ctx <- ask (Context_by_name context) ;;
        match ctx with
        | None =>
            Raise (APIError 403 (reason (Fmt "%r is not a context" [context])))
        | Some ctx =>
            pref <- ask (Preference_get_or_create openid ctx) ;;
            next_url <-
              try_except
                (if bool_decide (method = "POST") then
                   has <- ask (Pref_has_filter pref filter_name) ;;
                   if has then
                     Raise (APIError 404
                              (reason (Fmt "%r already exists" [filter_name])))
                   else
                     filter <- ask (Filter_create filter_name) ;;
                     ask (Pref_add_filter pref filter) ;;;
                     Ret (url_for "filter"
                            [("openid", openid); ("context", context);
                             ("filter_name", filter_name)])
                 else if bool_decide (method = "DELETE") then
                   filter <-
                     ask_raising (Pref_get_filter pref filter_name) id ;;
                   ask (SESSION_delete filter) ;;;
                   ask SESSION_commit ;;;
                   Ret (url_for "context"
                          [("openid", openid); ("context", context)])
                 else Raise (NotImplementedError "This is impossible."))
                except_value_key_error ;;
            Ret [("message", Lit "ok"); ("url", next_url)]
        end.

(** The builtin [int] on a form value: [None] is a [TypeError], text that
    is not an integer literal a [ValueError]. *)
Definition py_int (value : option string) : Prog Z :=
  match value with
  | None => Raise (TypeError "int() argument must be a string or a number")
  | Some s =>
      match int_literal s with
      | Some z => Ret z
      | None => Raise (ValueError "invalid literal for int() with base 10")
      end
  end.

(** [dict(batch_delta=["Not a valid integer value"])]. *)
Definition not_an_integer : Errors :=
  [("batch_delta", EList ["Not a valid integer value"])].

Definition int_or_none (value : option string) : Prog (option Z) :=
  if bool_decide (value = Some "<disabled>") then Ret None
  else
    try_except (z <- py_int value ;; Ret (Some z))
      (fun e =>
         match e with
         | TypeError _ => Some (Raise (APIError 400 not_an_integer))
         | _ => None
         end).

(** The three blocks of [handle_details], in the order they run. *)

(** "Are they changing a delivery detail?" *)
Definition change_detail (env : Env) (openid ctx : string) (pref : pref_id)
    (detail_value : option string) : Prog unit :=
  match detail_value with
  | Some value =>
      if bool_decide (value = "") then Ret tt
      else
        current <- ask (Pref_detail_value pref) ;;
        if bool_decide (Some value ≠ current) then
          (* Do some validation on the specifics of the value. *)
          try_except
            (ask_raising (validate_detail_value ctx value) id)
            (fun e =>
               Some (Raise (APIError 403 (reason (Lit (exn_str e)))))) ;;;
          if default true (fmn_verify_delivery_details env) then
            con <- ask (Confirmation_get_or_create openid ctx) ;;
            ask (Con_set_value con value) ;;;
            ask (Con_set_status con pending)
          else
            (* Otherwise, just change the details right away. *)
            ask (Pref_update_details pref value)
        else Ret tt
  | None => Ret tt
  end.

(** "Let them change batch_delta and batch_count as they please." *)
Definition change_batch (pref : pref_id) (batch_delta batch_count : option string)
  : Prog unit :=
  if truthy batch_delta || truthy batch_count then
    batch_delta <- int_or_none batch_delta ;;
    batch_count <- int_or_none batch_count ;;
    ask (Pref_set_batch_values pref batch_delta batch_count)
  else Ret tt.

(** "Also, let them enable or disable as they please." *)
Definition change_enabled (pref : pref_id) (toggle_enable : option string)
  : Prog unit :=
  if truthy toggle_enable then
    enabled <- ask (Pref_enabled pref) ;;
    ask (Pref_set_enabled pref (negb enabled))
  else Ret tt.

Definition handle_details (env : Env) (form : DetailsForm) : Prog Result :=
  if negb (df_validate form) then Raise (APIError 400 (df_errors form))
  else
    let openid := df_openid form in
    let context := df_context form in
    let detail_value := df_detail_value form in
    let batch_delta := df_batch_delta form in
    let batch_count := df_batch_count form in
    let toggle_enable := df_toggle_enable form in
    caller <- g_auth_openid env ;;
    if bool_decide (caller ≠ openid) && negb (admin env caller) then
      Raise (APIError 403 (reason (Fmt "%r is not %r" [caller; openid])))
    else
      user <- ask (User_by_openid openid) ;;
      if negb (bool_decide (is_Some user)) then
        Raise (APIError 403 (reason (Fmt "%r is not a user" [openid])))
      else
        ctx <- ask (Context_by_name context) ;;
        match ctx with
        | None =>
            Raise (APIError 403 (reason (Fmt "%r is not a context" [context])))
        | Some ctx =>
            pref <- ask (Preference_get_or_create openid ctx) ;;
            change_detail env openid ctx pref detail_value ;;;
            change_batch pref batch_delta batch_count ;;;
            change_enabled pref toggle_enable ;;;
            Ret [("message", Lit "ok");
                 ("url", url_for "context"
                           [("openid", openid); ("context", context)])]
        end.

Definition known_args : list string :=
  ["openid"; "filter_name"; "context"; "rule_name"].

(** The [arguments] dict of [handle_rule]: every key of the posted form
    that is not a known argument, with the form's value for it. *)
Definition rule_arguments (form : list (string * string))
  : list (string * string) :=
  omap (fun k => if bool_decide (k ∈ known_args) then None
                 else pair k <$> dict_get k form)
       (remove_dups (form.*1)).

Definition handle_rule (env : Env) (form : RuleForm) : Prog Result :=
  if negb (rf_validate form) then Raise (APIError 400 (rf_errors form))
  else
    let openid := rf_openid form in
    let context := rf_context form in
    let filter_name := rf_filter_name form in
    let code_path := rf_rule_name form in
    let method := upper (py_or (rf_method form) (request_method env)) in
    let arguments := rule_arguments (request_form env) in
    caller <- g_auth_openid env ;;
    if bool_decide (caller ≠ openid) && negb (admin env caller) then
      Raise (APIError 403 (reason (Fmt "%r is not %r" [caller; openid])))
    else if negb (bool_decide (method ∈ ["POST"; "DELETE"])) then
      Raise (APIError 405 (reason (Lit "Only POST and DELETE accepted")))
    else
      user <- ask (User_by_openid openid) ;;
      if negb (bool_decide (is_Some user)) then
        Raise (APIError 403 (reason (Fmt "%r is not a user" [openid])))
      else
        ctx <- ask (Context_by_name context) ;;
        match ctx with
        | None =>
            Raise (APIError 403 (reason (Fmt "%r is not a context" [context])))
        | Some ctx =>
            pref <- ask (Preference_get_or_create openid ctx) ;;
            has <- ask (Pref_has_filter pref filter_name) ;;
            if negb has then
              Raise (APIError 403
                       (reason (Fmt "%r is not a filter" [filter_name])))
            else
              filter <- ask_raising (Pref_get_filter pref filter_name) id ;;
              try_except
                (if bool_decide (method = "POST") then
                   ask_raising (Filter_add_rule filter code_path arguments) id
                 else if bool_decide (method = "DELETE") then
                   ask_raising (Filter_remove_filter filter code_path) id
                 else Raise (NotImplementedError "This is impossible."))
                except_value_key_error ;;;
              Ret [("message", Lit "ok");
                   ("url", url_for "filter"
                             [("openid", openid); ("context", context);
                              ("filter_name", filter_name)])]
        end.

(** ** The tables behind [fmn.lib.models] *)

Record Preference := {
  detail_value : option string;
  enabled : bool;
  batch_delta : option Z;
  batch_count : option Z
}.

Record Rule := {
  code_path : string;
  arguments : list (string * string)
}.

(** A Filter row; [preference] is unset between [Filter.create] and
    [add_filter]. *)
Record Filter := {
  name : string;
  preference : option pref_id;
  rules : list Rule
}.

Record Confirmation := {
  secret : string;
  con_openid : string;
  con_context_name : string;
  con_detail_value : option string;
  status : Status
}.

(** Modelled from the spec: the persisted state of [fmn.lib.models], which
    is not part of this repository's sources.  Preferences are keyed by
    (openid, context name); Filters and Confirmations are rows numbered in
    order of creation, a deleted Filter row leaving a hole. *)
Record Store := {
  users : gset string;
  contexts : gset string;
  preferences : gmap pref_id Preference;
  filters : list (option Filter);
  confirmations : list Confirmation
}.

(** What the handlers need from outside the store: the detail validator of
    each context, the rule catalog ([valid_paths] and the argument check of
    [add_rule]), the generator of secrets, and the column default of
    [enabled]. *)
Record Library := {
  detail_validator : string → string → option Exn;
  rule_catalog : string → list (string * string) → option Exn;
  hash_producer : list Confirmation → string;
  default_enabled : bool
}.

Definition with_preferences (s : Store) (m : gmap pref_id Preference) : Store :=
  {| users := users s; contexts := contexts s; preferences := m;
     filters := filters s; confirmations := confirmations s |}.

Definition with_filters (s : Store) (l : list (option Filter)) : Store :=
  {| users := users s; contexts := contexts s; preferences := preferences s;
     filters := l; confirmations := confirmations s |}.

Definition with_confirmations (s : Store) (l : list Confirmation) : Store :=
  {| users := users s; contexts := contexts s; preferences := preferences s;
     filters := filters s; confirmations := l |}.

Definition with_users (s : Store) (u : gset string) : Store :=
  {| users := u; contexts := contexts s; preferences := preferences s;
     filters := filters s; confirmations := confirmations s |}.

Definition set_detail_value (v : option string) (p : Preference) : Preference :=
  {| detail_value := v; enabled := enabled p;
     batch_delta := batch_delta p; batch_count := batch_count p |}.

Definition set_batch (d c : option Z) (p : Preference) : Preference :=
  {| detail_value := detail_value p; enabled := enabled p;
     batch_delta := d; batch_count := c |}.

Definition set_enabled (b : bool) (p : Preference) : Preference :=
  {| detail_value := detail_value p; enabled := b;
     batch_delta := batch_delta p; batch_count := batch_count p |}.

Definition set_owner (p : pref_id) (f : Filter) : Filter :=
  {| name := name f; preference := Some p; rules := rules f |}.

Definition set_rules (r : list Rule) (f : Filter) : Filter :=
  {| name := name f; preference := preference f; rules := r |}.

Definition set_con_value (v : option string) (c : Confirmation) : Confirmation :=
  {| secret := secret c; con_openid := con_openid c;
     con_context_name := con_context_name c;
     con_detail_value := v; status := status c |}.

Definition set_con_status (st : Status) (c : Confirmation) : Confirmation :=
  {| secret := secret c; con_openid := con_openid c;
     con_context_name := con_context_name c;
     con_detail_value := con_detail_value c; status := st |}.

(** Modelled from the spec: [Preference.get_or_create], "exactly one
    Preference per pair, created on first access". *)
Definition preference_get_or_create (L : Library) (o c : string) (s : Store)
  : Store :=
  match preferences s !! (o, c) with
  | Some _ => s
  | None =>
      with_preferences s
        (<[(o, c) := {| detail_value := None; enabled := default_enabled L;
                        batch_delta := None; batch_count := None |}]>
           (preferences s))
  end.

(** The detail value, enabled flag and batch values a Preference row shows. *)
Definition current_detail (s : Store) (p : pref_id) : option string :=
  preferences s !! p ≫= detail_value.

Definition current_enabled (s : Store) (p : pref_id) : bool :=
  from_option enabled false (preferences s !! p).

Definition current_batch (s : Store) (p : pref_id) : option Z * option Z :=
  from_option (fun r => (batch_delta r, batch_count r)) (None, None)
    (preferences s !! p).

(** A live Filter row named [n] that belongs to Preference [p]. *)
Definition is_filter_of (p : pref_id) (n : string) (row : option Filter) : Prop :=
  match row with
  | Some f => preference f = Some p ∧ name f = n
  | None => False
  end.

#[global] Instance is_filter_of_dec p n row : Decision (is_filter_of p n row).
Proof. destruct row; simpl; apply _. Defined.

(** Modelled from the spec: [Preference.has_filter], "a Filter with that
    name already exists in the Preference". *)
Definition pref_has_filter (p : pref_id) (n : string) (s : Store) : bool :=
  bool_decide (Exists (is_filter_of p n) (filters s)).

(** Modelled from the spec: [Preference.get_filter]; the missing Filter is
    the [ValueError] the handlers catch. *)
Definition pref_get_filter (p : pref_id) (n : string) (s : Store)
  : Exn + filter_id :=
  match list_find (is_filter_of p n) (filters s) with
  | Some (i, _) => inr i
  | None => inl (ValueError "No such filter")
  end.

(** Modelled from the spec: [Filter.create], a new row not yet owned. *)
Definition filter_create (n : string) (s : Store) : filter_id * Store :=
  (length (filters s),
   with_filters s
     (filters s ++ [Some {| name := n; preference := None; rules := [] |}])).

(** Modelled from the spec: [Preference.add_filter], the row joins the
    Preference. *)
Definition pref_add_filter (p : pref_id) (i : filter_id) (s : Store) : Store :=
  with_filters s (alter (fmap (set_owner p)) i (filters s)).

(** Modelled from the spec: [SESSION.delete(filter)], "deleting a Filter
    deletes its Rules". *)
Definition session_delete (i : filter_id) (s : Store) : Store :=
  with_filters s (<[i := None]> (filters s)).

(** Modelled from the spec: [Filter.add_rule], "fails with InvalidRule if
    codePath is not present in the Rule Catalog ... Rule is appended,
    preserving insertion order". *)
Definition filter_add_rule (L : Library) (i : filter_id) (cp : string)
    (args : list (string * string)) (s : Store) : (Exn + unit) * Store :=
  match rule_catalog L cp args with
  | Some e => (inl e, s)
  | None =>
      (inr tt,
       with_filters s
         (alter (fmap (fun f =>
                   set_rules (rules f ++ [{| code_path := cp;
                                             arguments := args |}]) f))
            i (filters s)))
  end.

Fixpoint remove_first_rule (cp : string) (l : list Rule) : option (list Rule) :=
  match l with
  | [] => None
  | r :: l' =>
      if bool_decide (code_path r = cp) then Some l'
      else cons r <$> remove_first_rule cp l'
  end.

(** Modelled from the spec: [Filter.remove_filter(code_path)], the
    "detachRule → success/NotFound" of the spec. *)
Definition filter_remove_filter (i : filter_id) (cp : string) (s : Store)
  : (Exn + unit) * Store :=
  match filters s !! i with
  | Some (Some f) =>
      match remove_first_rule cp (rules f) with
      | Some l => (inr tt, with_filters s (<[i := Some (set_rules l f)]> (filters s)))
      | None => (inl (ValueError "No such rule"), s)
      end
  | _ => (inl (ValueError "No such rule"), s)
  end.

(** The Confirmation of a (user, context) pair. *)
Definition is_confirmation_of (o c : string) (x : Confirmation) : Prop :=
  con_openid x = o ∧ con_context_name x = c.

#[global] Instance is_confirmation_of_dec o c x : Decision (is_confirmation_of o c x).
Proof. unfold is_confirmation_of; apply _. Defined.

(** A Confirmation that holds the token and is still pending. *)
Definition holds_pending (sec : string) (x : Confirmation) : Prop :=
  status x = pending ∧ secret x = sec.

#[global] Instance holds_pending_dec sec x : Decision (holds_pending sec x).
Proof. unfold holds_pending; apply _. Defined.

(** Modelled from the spec: [Confirmation.by_secret], "looks up the
    Confirmation by secret. Fails with NotFound if no Confirmation holds
    that token, or it is not in pending state". *)
Definition confirmation_by_secret (sec : string) (s : Store)
  : option confirmation_id :=
  fst <$> list_find (holds_pending sec) (confirmations s).

(** Modelled from the spec: [Confirmation.get_or_create], "overwrite in
    place, keep the existing token"; a new row is pending, with a fresh
    secret and no proposed value. *)
Definition confirmation_get_or_create (L : Library) (o c : string) (s : Store)
  : confirmation_id * Store :=
  match list_find (is_confirmation_of o c) (confirmations s) with
  | Some (i, _) => (i, s)
  | None =>
      (length (confirmations s),
       with_confirmations s
         (confirmations s ++
            [{| secret := hash_producer L (confirmations s);
                con_openid := o; con_context_name := c;
                con_detail_value := None; status := pending |}]))
  end.

(** Modelled from the spec: [Confirmation.set_status], "sets status
    accordingly; on accept, additionally commits proposedValue into the
    owning Preference's detail_value". *)
Definition con_set_status (i : confirmation_id) (st : Status) (s : Store)
  : Store :=
  let s' := with_confirmations s (alter (set_con_status st) i (confirmations s)) in
  match st, confirmations s !! i with
  | accepted, Some x =>
      with_preferences s'
        (alter (set_detail_value (con_detail_value x))
           (con_openid x, con_context_name x) (preferences s))
  | _, _ => s'
  end.

(** Modelled from the spec: the answer of [fmn.lib] to each call and the
    store it leaves. *)
Definition sem (L : Library) (c : call) (s : Store) : reply c * Store :=
  match c return reply c * Store with
  | User_by_openid o =>
      (if bool_decide (o ∈ users s) then Some o else None, s)
  | User_get_or_create o _ => (o, with_users s ({[o]} ∪ users s))
  | Context_by_name n =>
      (if bool_decide (n ∈ contexts s) then Some n else None, s)
  | Preference_get_or_create o c => ((o, c), preference_get_or_create L o c s)
  | Pref_detail_value p => (current_detail s p, s)
  | Pref_enabled p => (current_enabled s p, s)
  | Pref_has_filter p n => (pref_has_filter p n s, s)
  | Pref_get_filter p n => (pref_get_filter p n s, s)
  | Pref_add_filter p i => (tt, pref_add_filter p i s)
  | Pref_update_details p v =>
      (tt, with_preferences s (alter (set_detail_value (Some v)) p (preferences s)))
  | Pref_set_batch_values p d c =>
      (tt, with_preferences s (alter (set_batch d c) p (preferences s)))
  | Pref_set_enabled p b =>
      (tt, with_preferences s (alter (set_enabled b) p (preferences s)))
  | Filter_create n => filter_create n s
  | Filter_add_rule i cp args => filter_add_rule L i cp args s
  | Filter_remove_filter i cp => filter_remove_filter i cp s
  | SESSION_delete i => (tt, session_delete i s)
  | SESSION_commit => (tt, s)
  | validate_detail_value c v =>
      (match detail_validator L c v with Some e => inl e | None => inr tt end, s)
  | Confirmation_by_secret sec => (confirmation_by_secret sec s, s)
  | Confirmation_get_or_create o c => confirmation_get_or_create L o c s
  | Con_openid i => (from_option con_openid "" (confirmations s !! i), s)
  | Con_context_name i =>
      (from_option con_context_name "" (confirmations s !! i), s)
  | Con_set_value i v =>
      (tt, with_confirmations s (alter (set_con_value (Some v)) i (confirmations s)))
  | Con_set_status i st => (tt, con_set_status i st s)
  | flash _ _ => (tt, s)
  end.

Arguments preference_get_or_create : simpl never.
Arguments pref_has_filter : simpl never.
Arguments pref_get_filter : simpl never.
Arguments filter_create : simpl never.
Arguments pref_add_filter : simpl never.
Arguments session_delete : simpl never.
Arguments filter_add_rule : simpl never.
Arguments filter_remove_filter : simpl never.
Arguments confirmation_by_secret : simpl never.
Arguments confirmation_get_or_create : simpl never.
Arguments con_set_status : simpl never.
Arguments current_detail : simpl never.
Arguments current_enabled : simpl never.
Arguments current_batch : simpl never.

(** ** Running a handler *)

Inductive Outcome (A : Type) : Type :=
| Returned (a : A)
| Raised (e : Exn).

Arguments Returned {A} a.
Arguments Raised {A} e.

Fixpoint run {A} (L : Library) (p : Prog A) (s : Store) : Outcome A * Store :=
  match p with
  | Ret a => (Returned a, s)
  | Raise e => (Raised e, s)
  | Call c k => run L (k (sem L c s).1) (sem L c s).2
  end.

(** The calls a handler makes, in order. *)
Fixpoint trace {A} (L : Library) (p : Prog A) (s : Store) : list call :=
  match p with
  | Ret _ | Raise _ => []
  | Call c k => c :: trace L (k (sem L c s).1) (sem L c s).2
  end.

(** ** A small world to run the handlers in *)

Definition lib0 : Library := {|
  detail_validator := fun _ v =>
    if bool_decide (v = "nobody") then Some (ValueError "Invalid detail")
    else None;
  rule_catalog := fun cp _ =>
    if bool_decide (cp = "fmn.rules:user_filter") then None
    else Some (ValueError "Not a valid path");
  hash_producer := fun cs => String.concat "" (replicate (S (length cs)) "k");
  default_enabled := false
|}.

Definition alice : Identity :=
  {| openid := "alice"; openid_url := "http://alice.example.org/" |}.

Definition mallory : Identity :=
  {| openid := "mallory"; openid_url := "http://mallory.example.org/" |}.

Definition env_for (who : Identity) : Env := {|
  g_auth := Some who;
  FMN_ADMINS := ["root"];
  fmn_verify_delivery_details := None;
  request_method := "POST";
  request_url := "http://localhost:5000/";
  request_form := [];
  wants_html := false
|}.

Definition store0 : Store := {|
  users := {["alice"; "mallory"]};
  contexts := {["email"; "irc"]};
  preferences :=
    {[ ("alice", "email") :=
         {| detail_value := None; enabled := false;
            batch_delta := None; batch_count := None |} ]};
  filters :=
    [Some {| name := "mine"; preference := Some ("alice", "email");
             rules := [] |}];
  confirmations := []
|}.

Definition details_form (o c : string)
    (detail delta count toggle : option string) : DetailsForm := {|
  df_validate := true; df_errors := [];
  df_openid := o; df_context := c;
  df_detail_value := detail;
  df_batch_delta := delta; df_batch_count := count;
  df_toggle_enable := toggle
|}.

Definition filter_form (o c n : string) (m : option string) : FilterForm := {|
  ff_validate := true; ff_errors := [];
  ff_openid := o; ff_context := c; ff_filter_name := n; ff_method := m
|}.

Definition rule_form (o c n r : string) (m : option string) : RuleForm := {|
  rf_validate := true; rf_errors := [];
  rf_openid := o; rf_context := c; rf_filter_name := n;
  rf_rule_name := r; rf_method := m
|}.

(** [store0] after alice asked for a new email address ... *)
Definition store1 : Store :=
  (run lib0
     (handle_details (env_for alice)
        (details_form "alice" "email" (Some "alice@example.com")
           None None None))
     store0).2.

(** ... and after she accepted it with the secret she was sent. *)
Definition store2 : Store :=
  (run lib0 (handle_confirmation (env_for alice) "accept" "k") store1).2.

(** The store after the three Confirmation calls of [handle_details]:
    [get_or_create], [set_value], [set_status('pending')]. *)
Definition request_confirmation (L : Library) (o c value : string) (s : Store)
  : Store :=
  let k := (confirmation_get_or_create L o c s).1 in
  let sa := (confirmation_get_or_create L o c s).2 in
  con_set_status k pending
    (with_confirmations sa
       (alter (set_con_value (Some value)) k (confirmations sa))).

(** The store after the enable block ran on Preference [q]. *)
Definition toggled (q : pref_id) (s : Store) : Store :=
  with_preferences s
    (alter (set_enabled (negb (current_enabled s q))) q (preferences s)).

(** ** Predicates used in the statements *)

(** The caller may act on [target]: the authenticated caller is [target]
    or is listed in [FMN_ADMINS]. *)
Definition may_act (env : Env) (target : string) : Prop :=
  ∃ who, g_auth env = Some who ∧
         (openid who = target ∨ admin env (openid who) = true).

(** Every call a program can make, whatever the answers, satisfies [P]. *)
Fixpoint all_calls {A} (P : call → Prop) (p : Prog A) : Prop :=
  match p with
  | Ret _ | Raise _ => True
  | Call c k => P c ∧ ∀ r, all_calls P (k r)
  end.

(** Calls that create, read or change a Confirmation. *)
Definition is_confirmation_call (c : call) : bool :=
  match c with
  | Confirmation_by_secret _ | Confirmation_get_or_create _ _
  | Con_openid _ | Con_context_name _
  | Con_set_value _ _ | Con_set_status _ _ => true
  | _ => false
  end.

(** Calls that leave every table but [users] as it is. *)
Definition is_lookup (c : call) : Prop :=
  match c with
  | User_by_openid _ | User_get_or_create _ _ | Context_by_name _
  | Pref_detail_value _ | Pref_enabled _ | Pref_has_filter _ _
  | Pref_get_filter _ _ | SESSION_commit | validate_detail_value _ _
  | Confirmation_by_secret _ | Con_openid _ | Con_context_name _
  | flash _ _ => True
  | _ => False
  end.

(** The calls of [handle_details] that touch nothing but the batch values
    and the enabled flag of Preference [q] (creating the row if need be). *)
Definition quiet_call (q : pref_id) (c : call) : Prop :=
  match c with
  | User_by_openid _ | Context_by_name _
  | Pref_detail_value _ | Pref_enabled _ => True
  | Preference_get_or_create o c => (o, c) = q
  | Pref_set_batch_values p _ _ | Pref_set_enabled p _ => p = q
  | _ => False
  end.

(** [s'] differs from [s] at most in the batch values and the enabled flag
    of Preference [q]: the other tables and Preferences are the same and
    every Preference shows the detail value it showed. *)
Definition details_frame (q : pref_id) (s s' : Store) : Prop :=
  users s' = users s ∧ contexts s' = contexts s ∧ filters s' = filters s ∧
  confirmations s' = confirmations s ∧
  (∀ p, current_detail s' p = current_detail s p) ∧
  (∀ p, p ≠ q → preferences s' !! p = preferences s !! p).

(** The request passes the checks that come before the Preference is
    fetched: the form validates, the caller may act on the target user, and
    the user and the context exist. *)
Definition details_ready (env : Env) (form : DetailsForm) (s : Store) : Prop :=
  df_validate form = true ∧ may_act env (df_openid form) ∧
  df_openid form ∈ users s ∧ df_context form ∈ contexts s.

(** What [handle_details] runs once the Preference is in hand. *)
Definition details_blocks (env : Env) (form : DetailsForm) : Prog Result :=
  let openid := df_openid form in
  let context := df_context form in
  change_detail env openid context (openid, context) (df_detail_value form) ;;;
  change_batch (openid, context) (df_batch_delta form) (df_batch_count form) ;;;
  change_enabled (openid, context) (df_toggle_enable form) ;;;
  Ret [("message", Lit "ok");
       ("url", url_for "context" [("openid", openid); ("context", context)])].

(** Calls that leave the enabled flag of every existing Preference alone. *)
Definition keeps_enabled (c : call) : Prop :=
  match c with
  | Pref_set_enabled _ _ | Preference_get_or_create _ _ => False
  | _ => True
  end.

(** No two live Filters of one Preference share a name. *)
Definition unique_names (l : list (option Filter)) : Prop :=
  ∀ i j f g p,
    l !! i = Some (Some f) → l !! j = Some (Some g) →
    preference f = Some p → preference g = Some p → name f = name g →
    i = j.

Definition unique_filter_names (s : Store) : Prop := unique_names (filters s).

(** Every owned row of [l'] is a row of [l], at the same place and with the
    same owner and name. *)
Definition owned_rows_from (l l' : list (option Filter)) : Prop :=
  ∀ i f', l' !! i = Some (Some f') → is_Some (preference f') →
    ∃ f, l !! i = Some (Some f) ∧ name f = name f' ∧
         preference f = preference f'.

(** Every call but [add_filter] gives no Filter a new owner or name. *)
Definition keeps_filter_names (c : call) : Prop :=
  match c with
  | Pref_add_filter _ _ => False
  | _ => True
  end.

(** The request passes the checks of [handle_filter] that come before the
    Preference is fetched. *)
Definition filter_ready (env : Env) (form : FilterForm) (s : Store) : Prop :=
  ff_validate form = true ∧ may_act env (ff_openid form) ∧
  ff_openid form ∈ users s ∧ ff_context form ∈ contexts s.

(** The Filters named [n] in Preference [p]. *)
Definition filters_named (p : pref_id) (n : string) (s : Store)
  : list (option Filter) :=
  filter (is_filter_of p n) (filters s).

(** The Confirmations of a (user, context) pair. *)
Definition confirmations_of (o c : string) (s : Store) : list Confirmation :=
  filter (is_confirmation_of o c) (confirmations s).

(** ** Strings: [in], [partition], [split], [replace] *)

Fixpoint drop_chars (n : nat) (s : string) : string :=
  match n, s with
  | O, _ => s
  | S n', String _ s' => drop_chars n' s'
  | S _, EmptyString => EmptyString
  end.

(** [s.partition(sep)]: the text before and after the first occurrence of
    a non-empty [sep], if there is one. *)
Fixpoint partition (sep s : string) : option (string * string) :=
  if String.prefix sep s then Some (EmptyString, drop_chars (String.length sep) s)
  else
    match s with
    | EmptyString => None
    | String c s' =>
        match partition sep s' with
        | Some (a, b) => Some (String c a, b)
        | None => None
        end
    end.

(** [sep in s]. *)
Definition contains (sep s : string) : bool :=
  match partition sep s with Some _ => true | None => false end.

(** [s.split(sep)] by repeated partition; every cut consumes a character, so
    [String.length s] cuts are enough ([split_fuel_enough]). *)
Fixpoint split_fuel (fuel : nat) (sep s : string) : list string :=
  match fuel with
  | O => [s]
  | S fuel' =>
      match partition sep s with
      | None => [s]
      | Some (a, rest) => a :: split_fuel fuel' sep rest
      end
  end.

Definition split (sep s : string) : list string :=
  split_fuel (String.length s) sep s.

(** [s.replace(old, new)] for a non-empty [old]. *)
Definition replace (old new s : string) : string :=
  String.concat new (split old s).

(** [s.endswith(suffix)]. *)
Definition endswith (suffix s : string) : bool :=
  bool_decide (list_ascii_of_string suffix `suffix_of` list_ascii_of_string s).

(** [s[:-1]]. *)
Definition drop_last (s : string) : string :=
  string_of_list_ascii (removelast (list_ascii_of_string s)).

(** [l[1]]; the [IndexError] is an [OtherError]. *)
Definition IndexError : Exn := OtherError "list index out of range".

Definition index1 (l : list string) : Prog string :=
  match l !! 1%nat with
  | Some x => Ret x
  | None => Raise IndexError
  end.

(** ** Identities and sessions *)

Definition extract_openid_identifier (openid_url : string) : Prog string :=
  openid <- index1 (split "://" openid_url) ;;
  let openid := if endswith "/" openid then drop_last openid else openid in
  openid <- (if contains "id?id=" openid
             then index1 (split "id?id=" openid) else Ret openid) ;;
  openid <- (if contains "me.yahoo.com/a/" openid
             then index1 (split "me.yahoo.com/a/" openid) else Ret openid) ;;
  Ret (replace "/" "_" openid).

(** [flask.session]: keys to strings or [None]. *)
Abbreviation Session := (gmap string (option string)) (only parsing).

(** [session.get(key)], [None] when the key is missing. *)
Definition session_get (key : string) (session : Session) : option string :=
  mjoin (session !! key).

(** The [Bunch] that [check_auth] leaves in [flask.g.auth]; [b_identity]
    holds the attributes [openid] and [openid_url], which exist only for a
    caller who is logged in. *)
Record Bunch := {
  b_logged_in : bool;
  b_method : option string;
  b_id : option string;
  b_identity : option Identity;
  b_fullname : option string;
  b_nickname : option string;
  b_email : option string
}.

Definition anonymous : Bunch := {|
  b_logged_in := false; b_method := None; b_id := None;
  b_identity := None;
  b_fullname := None; b_nickname := None; b_email := None
|}.

Definition check_auth (session : Session) : Prog Bunch :=
  if bool_decide (is_Some (session !! "openid")) then
    openid <-
      match session_get "openid" session with
      | Some url => extract_openid_identifier url
      | None => Raise (AttributeError "split")
      end ;;
    Ret {| b_logged_in := true; b_method := Some "openid"; b_id := None;
           b_identity :=
             Some {| openid := openid;
                     openid_url := default "" (session_get "openid" session) |};
           b_fullname := session_get "fullname" session;
           b_nickname := session_get "nickname" session;
           b_email := session_get "email" session |}
  else Ret anonymous.

(** The reply of the OpenID provider, as [after_openid_login] reads it. *)
Record OpenIDResponse := {
  identity_url : option string;
  resp_fullname : option string;
  resp_nickname : option string;
  resp_email : option string
}.

(** [a or b] on values that are strings or [None]. *)
Definition py_or_opt (a b : option string) : option string :=
  if truthy a then a else b.

(** [after_openid_login]; [next] is [request.args.get('next')]. *)
Definition after_openid_login (resp : OpenIDResponse) (next : option string)
    (session : Session) : Response * Session :=
  let default_url := url_for "index" [] in
  if truthy (identity_url resp) then
    let session := <["openid" := identity_url resp]> session in
    let session := <["fullname" := resp_fullname resp]> session in
    let session :=
      <["nickname" := py_or_opt (resp_nickname resp) (resp_fullname resp)]>
        session in
    let session := <["email" := resp_email resp]> session in
    (redirect (from_option Lit default_url next), session)
  else (redirect default_url, session).

Definition logout (session : Session) : Response * Session :=
  (redirect (url_for "index" []),
   if bool_decide (is_Some (session !! "openid"))
   then delete "openid" session else session).

(** The part of the request environment that [check_auth] decides. *)
Definition env_with_auth (auth : Bunch) (env : Env) : Env := {|
  g_auth := b_identity auth;
  FMN_ADMINS := FMN_ADMINS env;
  fmn_verify_delivery_details := fmn_verify_delivery_details env;
  request_method := request_method env;
  request_url := request_url env;
  request_form := request_form env;
  wants_html := wants_html env
|}.

(** ** What a program may raise *)

(** An outcome [api_method] turns into a response: a result or an
    [APIError]. *)
Definition is_typed {A} (o : Outcome A) : Prop :=
  match o with
  | Returned _ | Raised (APIError _ _) => True
  | Raised _ => False
  end.

(** The request passes the checks of [handle_rule] that come before the
    Preference is fetched. *)
Definition rule_ready (env : Env) (form : RuleForm) (s : Store) : Prop :=
  rf_validate form = true ∧ may_act env (rf_openid form) ∧
  rf_openid form ∈ users s ∧ rf_context form ∈ contexts s.

(** The same request with another posted form. *)
Definition with_request_form (form : list (string * string)) (env : Env)
  : Env := {|
  g_auth := g_auth env;
  FMN_ADMINS := FMN_ADMINS env;
  fmn_verify_delivery_details := fmn_verify_delivery_details env;
  request_method := request_method env;
  request_url := request_url env;
  request_form := form;
  wants_html := wants_html env
|}.

(** The details form with only its batch fields, and with only its toggle. *)
Definition batch_only (form : DetailsForm) : DetailsForm :=
  details_form (df_openid form) (df_context form) None
    (df_batch_delta form) (df_batch_count form) None.

Definition toggle_only (form : DetailsForm) : DetailsForm :=
  details_form (df_openid form) (df_context form) None None None
    (df_toggle_enable form).

(** ** Plain text *)

(** [all(ord(c) < 128 for c in s)]. *)
Definition isascii (s : string) : bool :=
  forallb (fun c => (nat_of_ascii c <? 128)%nat) (list_ascii_of_string s).

(** A character of [string.printable]: the printable characters 32 to 126
    and the white space 9 to 13. *)
Definition printable_char (c : ascii) : bool :=
  let n := nat_of_ascii c in
  (((32 <=? n) && (n <=? 126)) || ((9 <=? n) && (n <=? 13)))%nat.

(** [all(c in string.printable for c in s)]. *)
Definition printable (s : string) : bool :=
  forallb printable_char (list_ascii_of_string s).

(** ** Decimal literals *)

Definition is_digit (c : ascii) : bool :=
  let n := nat_of_ascii c in ((48 <=? n) && (n <=? 57))%nat.

(** The number a run of decimal digits denotes. *)
Definition decimal_value (ds : list ascii) : Z :=
  foldl (fun acc c => 10 * acc + (Z.of_nat (nat_of_ascii c) - 48)) 0 ds.

(** [t] reads as the integer [z]: white space, an optional sign, one or
    more decimal digits, white space. *)
Definition decimal_literal (t : string) (z : Z) : Prop :=
  ∃ a sign ds b,
    list_ascii_of_string t = a ++ sign ++ ds ++ b ∧
    Forall (fun c => is_space c = true) a ∧
    Forall (fun c => is_space c = true) b ∧
    ds ≠ [] ∧ Forall (fun c => is_digit c = true) ds ∧
    (sign = [] ∧ z = decimal_value ds ∨
     sign = ["+"%char] ∧ z = decimal_value ds ∨
     sign = ["-"%char] ∧ z = - decimal_value ds).

(** ** Requests, one after the other *)









(** ** Proof steps *)

(** Case analysis on a call, with fixed names for its arguments. *)
Ltac destruct_call c :=
  destruct c as
    [xo|xo xu|xn|xo xc|xp|xp|xp xn|xp xn|xp xk|xp xv|xp xd xc|xp xb|xn
    |xk xcp xargs|xk xcp|xk| |xc xv|xsec|xo xc|xk|xk|xk xv|xk xst|xm xcat].

(** ** The handlers at work *)

Example int_literal_examples :
  int_literal "3600" = Some 3600 ∧ int_literal " -42 " = Some (-42) ∧
  int_literal "+7" = Some 7 ∧ int_literal "abc" = None ∧
  int_literal "" = None ∧ int_literal "1 0" = None.
Proof. by vm_compute. Qed.

Example upper_example : upper "delete" = "DELETE".
Proof. reflexivity. Qed.

Example rule_arguments_example :
  rule_arguments
    [("openid", "alice"); ("fasnick", "bob"); ("context", "email");
     ("fasnick", "carol")]
  = [("fasnick", "bob")].
Proof. by vm_compute. Qed.

(** alice asks for a new address, accepts it, and the address is hers. *)
Example accepted_detail :
  confirmations store1
  = [{| secret := "k"; con_openid := "alice"; con_context_name := "email";
        con_detail_value := Some "alice@example.com"; status := pending |}] ∧
  current_detail store1 ("alice", "email") = None ∧
  current_detail store2 ("alice", "email") = Some "alice@example.com" ∧
  status <$> confirmations store2 = [accepted].
Proof. by vm_compute. Qed.

Example attach_rule :
  let attach :=
    api_method (env_for alice)
      (handle_rule (env_for alice)
         (rule_form "alice" "email" "mine" "fmn.rules:user_filter" None)) in
  filters (run lib0 attach store0).2
  = [Some {| name := "mine"; preference := Some ("alice", "email");
             rules := [{| code_path := "fmn.rules:user_filter";
                          arguments := [] |}] |}] ∧
  trace lib0 attach store0
  = [User_by_openid "alice"; Context_by_name "email";
     Preference_get_or_create "alice" "email";
     Pref_has_filter ("alice", "email") "mine";
     Pref_get_filter ("alice", "email") "mine";
     Filter_add_rule 0 "fmn.rules:user_filter" []].
Proof. by vm_compute. Qed.

Example unknown_rule_refused :
  run lib0
    (api_method (env_for alice)
       (handle_rule (env_for alice)
          (rule_form "alice" "email" "mine" "fmn.rules:nope" None)))
    store0
  = (Returned (jsonify_errors (reason (Lit "Not a valid path")) 403), store0).
Proof. by vm_compute. Qed.

(** ** Running binds and handlers *)

Lemma run_bind {A B} L (p : Prog A) (f : A → Prog B) s :
  run L (bind p f) s =
    match run L p s with
    | (Returned a, s1) => run L (f a) s1
    | (Raised e, s1) => (Raised e, s1)
    end.
Proof.
  revert s; induction p as [a|e|c k IH]; intros s; simpl; auto.
Qed.

Lemma trace_bind {A B} L (p : Prog A) (f : A → Prog B) s :
  trace L (bind p f) s =
    trace L p s ++
    match run L p s with
    | (Returned a, s1) => trace L (f a) s1
    | (Raised _, _) => []
    end.
Proof.
  revert s; induction p as [a|e|c k IH]; intros s; simpl; auto.
  by rewrite IH.
Qed.

Lemma run_try_except {A} L (p : Prog A) h s :
  run L (try_except p h) s =
    match run L p s with
    | (Returned a, s1) => (Returned a, s1)
    | (Raised e, s1) =>
        match h e with Some q => run L q s1 | None => (Raised e, s1) end
    end.
Proof.
  revert s; induction p as [a|e|c k IH]; intros s; simpl; auto.
  by destruct (h e).
Qed.

Lemma trace_try_except {A} L (p : Prog A) h s :
  trace L (try_except p h) s =
    trace L p s ++
    match run L p s with
    | (Returned _, _) => []
    | (Raised e, s1) =>
        match h e with Some q => trace L q s1 | None => [] end
    end.
Proof.
  revert s; induction p as [a|e|c k IH]; intros s; simpl; auto.
  - by destruct (h e).
  - by rewrite IH.
Qed.

Lemma all_calls_bind {A B} P (p : Prog A) (f : A → Prog B) :
  all_calls P p → (∀ a, all_calls P (f a)) → all_calls P (bind p f).
Proof.
  induction p as [a|e|c k IH]; simpl; auto.
  intros [Hc Hk] Hf; split; auto.
Qed.

Lemma all_calls_try_except {A} P (p : Prog A) h :
  all_calls P p → (∀ e q, h e = Some q → all_calls P q) →
  all_calls P (try_except p h).
Proof.
  induction p as [a|e|c k IH]; simpl; auto.
  - intros _ Hh. destruct (h e) eqn:E; simpl; eauto.
  - intros [Hc Hk] Hh; split; auto.
Qed.

Lemma all_calls_trace {A} L P (p : Prog A) s :
  all_calls P p → Forall P (trace L p s).
Proof.
  revert s; induction p as [a|e|c k IH]; intros s; simpl; auto.
  intros [Hc Hk]. constructor; auto.
Qed.

(** A relation that every call of the trace respects holds between the
    store a program starts in and the one it leaves. *)
Lemma run_respects {A} L (P : call → Prop) (R : Store → Store → Prop) :
  (∀ s, R s s) → (∀ s1 s2 s3, R s1 s2 → R s2 s3 → R s1 s3) →
  (∀ c s, P c → R s (sem L c s).2) →
  ∀ (p : Prog A) s, Forall P (trace L p s) → R s (run L p s).2.
Proof.
  intros Hrefl Htrans Hstep p.
  induction p as [a|e|c k IH]; intros s; simpl; auto.
  intros Hall. apply Forall_cons in Hall as [Hc Hk]. eauto.
Qed.

(** [api_method] adds no call and no store change of its own. *)
Lemma trace_api_method L env (p : Prog Result) s :
  trace L (api_method env p) s = trace L p s.
Proof.
  unfold api_method. rewrite trace_try_except, run_bind, trace_bind.
  destruct (run L p s) as [[r|e] s1]; simpl.
  - destruct (dict_get "url" r); [destruct (wants_html env)|]; simpl;
      by rewrite ?app_nil_r.
  - rewrite ?app_nil_r. destruct e; simpl; by rewrite ?app_nil_r.
Qed.

Lemma store_api_method L env (p : Prog Result) s :
  (run L (api_method env p) s).2 = (run L p s).2.
Proof.
  unfold api_method. rewrite run_try_except, run_bind.
  destruct (run L p s) as [[r|e] s1]; simpl.
  - by destruct (dict_get "url" r); [destruct (wants_html env)|].
  - by destruct e.
Qed.

(** ** Authorization *)

Lemma run_api_error L env (p : Prog Result) code errs s :
  p = Raise (APIError code errs) →
  run L (api_method env p) s = (Returned (jsonify_errors errs code), s) ∧
  trace L (api_method env p) s = [].
Proof. by intros ->. Qed.

(** C3. A caller who is neither the target user nor an administrator is
    refused by every mutating operation: [handle_filter] (create and
    delete), [handle_details] (detail, batch and enable updates) and
    [handle_rule] (attach and detach) raise [APIError(403)] before they ask
    anything of the library, so the response is the 403 error, no call is
    made and the store is the one the request started in.  (The form is
    validated first: one that does not validate is answered with 400, also
    without any call.) *)
Theorem forbidden_without_mutation L env who s :
  g_auth env = Some who →
  admin env (openid who) = false →
  (∀ form, ff_validate form = true → ff_openid form ≠ openid who →
     let refusal := reason (Fmt "%r is not %r" [openid who; ff_openid form]) in
     handle_filter env form = Raise (APIError 403 refusal) ∧
     run L (api_method env (handle_filter env form)) s
       = (Returned (jsonify_errors refusal 403), s) ∧
     trace L (api_method env (handle_filter env form)) s = []) ∧
  (∀ form, df_validate form = true → df_openid form ≠ openid who →
     let refusal := reason (Fmt "%r is not %r" [openid who; df_openid form]) in
     handle_details env form = Raise (APIError 403 refusal) ∧
     run L (api_method env (handle_details env form)) s
       = (Returned (jsonify_errors refusal 403), s) ∧
     trace L (api_method env (handle_details env form)) s = []) ∧
  (∀ form, rf_validate form = true → rf_openid form ≠ openid who →
     let refusal := reason (Fmt "%r is not %r" [openid who; rf_openid form]) in
     handle_rule env form = Raise (APIError 403 refusal) ∧
     run L (api_method env (handle_rule env form)) s
       = (Returned (jsonify_errors refusal 403), s) ∧
     trace L (api_method env (handle_rule env form)) s = []) ∧
  (∀ ff df rf,
     (ff_validate ff = false →
      run L (api_method env (handle_filter env ff)) s
        = (Returned (jsonify_errors (ff_errors ff) 400), s) ∧
      trace L (api_method env (handle_filter env ff)) s = []) ∧
     (df_validate df = false →
      run L (api_method env (handle_details env df)) s
        = (Returned (jsonify_errors (df_errors df) 400), s) ∧
      trace L (api_method env (handle_details env df)) s = []) ∧
     (rf_validate rf = false →
      run L (api_method env (handle_rule env rf)) s
        = (Returned (jsonify_errors (rf_errors rf) 400), s) ∧
      trace L (api_method env (handle_rule env rf)) s = [])).
Proof.
  intros Hauth Hadmin.
  split; [|split; [|split]];
    [| | |intros ff df rf; split; [|split]; intros Hinvalid;
          apply run_api_error;
          unfold handle_filter, handle_details, handle_rule;
          by rewrite Hinvalid];
    intros form Hvalid Hother refusal.
  - assert (handle_filter env form = Raise (APIError 403 refusal)) as E.
    { unfold handle_filter, g_auth_openid. rewrite Hvalid, Hauth. simpl.
      rewrite bool_decide_true by congruence. by rewrite Hadmin. }
    split; [exact E | by apply run_api_error].
  - assert (handle_details env form = Raise (APIError 403 refusal)) as E.
    { unfold handle_details, g_auth_openid. rewrite Hvalid, Hauth. simpl.
      rewrite bool_decide_true by congruence. by rewrite Hadmin. }
    split; [exact E | by apply run_api_error].
  - assert (handle_rule env form = Raise (APIError 403 refusal)) as E.
    { unfold handle_rule, g_auth_openid. rewrite Hvalid, Hauth. simpl.
      rewrite bool_decide_true by congruence. by rewrite Hadmin. }
    split; [exact E | by apply run_api_error].
Qed.

Lemma forbidden_without_mutation_witness :
  run lib0
    (api_method (env_for mallory)
       (handle_filter (env_for mallory)
          (filter_form "alice" "email" "mine" (Some "DELETE")))) store0
  = (Returned
       (jsonify_errors (reason (Fmt "%r is not %r" ["mallory"; "alice"])) 403),
     store0).
Proof.
  assert (g_auth (env_for mallory) = Some mallory) as Hauth by reflexivity.
  assert (admin (env_for mallory) (openid mallory) = false) as Hadmin
    by (vm_compute; reflexivity).
  destruct (forbidden_without_mutation lib0 (env_for mallory) mallory store0
              Hauth Hadmin) as [Hfilter _].
  apply (Hfilter (filter_form "alice" "email" "mine" (Some "DELETE"))).
  - reflexivity.
  - discriminate.
Defined.

(** ** Resolving a confirmation *)

(** C8. An action other than "accept" and "reject" is answered with 404
    before [Confirmation.by_secret] is called: the view makes no call at
    all, and under [login_required] the only call is the one that ensures
    the caller's User row, so no Confirmation is read or changed whatever
    the secret. *)
Theorem unknown_action_not_found L env action sec s :
  action ≠ "accept" → action ≠ "reject" →
  handle_confirmation env action sec = Raise (HTTPException 404) ∧
  run L (handle_confirmation env action sec) s = (Raised (HTTPException 404), s) ∧
  trace L (handle_confirmation env action sec) s = [] ∧
  ∀ who, g_auth env = Some who →
    let decorated := login_required env (handle_confirmation env action sec) in
    (run L decorated s).1 = Raised (HTTPException 404) ∧
    confirmations (run L decorated s).2 = confirmations s ∧
    preferences (run L decorated s).2 = preferences s ∧
    trace L decorated s = [User_get_or_create (openid who) (openid_url who)].
Proof.
  intros Ha Hr.
  assert (handle_confirmation env action sec = Raise (HTTPException 404)) as E.
  { unfold handle_confirmation. rewrite bool_decide_false; [done|].
    intros Hin. apply list_elem_of_In in Hin. simpl in Hin. intuition. }
  rewrite E. split; [done|]. split; [done|]. split; [done|].
  intros who Hwho decorated. subst decorated.
  unfold login_required, logged_in, g_auth_openid, g_auth_openid_url.
  rewrite Hwho, bool_decide_true by eauto. done.
Qed.

Lemma unknown_action_not_found_witness :
  run lib0 (handle_confirmation (env_for alice) "approve" "k") store0
  = (Raised (HTTPException 404), store0).
Proof.
  apply (unknown_action_not_found lib0 (env_for alice) "approve" "k" store0);
    discriminate.
Defined.



Lemma action_is_known (action : string) :
  action = "accept" ∨ action = "reject" →
  bool_decide (action ∈ ["accept"; "reject"]) = true.
Proof. intros [-> | ->]; by vm_compute. Qed.

(** C6. Holding the secret is not enough: when the caller is not the user
    the pending Confirmation belongs to, [handle_confirmation] aborts with
    403 after reading the Confirmation's owner and before any
    [set_status]; the store is unchanged (under [login_required], but for
    the caller's User row). Administrators get no exception here. *)
Theorem resolve_by_other_user_forbidden L env action sec s who k x :
  action = "accept" ∨ action = "reject" →
  g_auth env = Some who →
  confirmation_by_secret sec s = Some k →
  confirmations s !! k = Some x →
  con_openid x ≠ openid who →
  run L (handle_confirmation env action sec) s = (Raised (HTTPException 403), s) ∧
  trace L (handle_confirmation env action sec) s
    = [Confirmation_by_secret sec; Con_openid k] ∧
  let decorated := login_required env (handle_confirmation env action sec) in
  (run L decorated s).1 = Raised (HTTPException 403) ∧
  confirmations (run L decorated s).2 = confirmations s ∧
  preferences (run L decorated s).2 = preferences s ∧
  trace L decorated s
    = [User_get_or_create (openid who) (openid_url who);
       Confirmation_by_secret sec; Con_openid k].
Proof.
  intros Haction Hauth Hfound Hrow Hother.
  unfold login_required, logged_in, handle_confirmation, g_auth_openid,
    g_auth_openid_url.
  rewrite (action_is_known _ Haction), Hauth.
  rewrite (bool_decide_true (is_Some (Some who))) by eauto.
  simpl.
  change (confirmation_by_secret sec (with_users s _))
    with (confirmation_by_secret sec s).
  rewrite Hfound. simpl. rewrite Hrow. simpl.
  rewrite bool_decide_true by congruence. done.
Qed.

Lemma confirmations_con_set_status k st s :
  confirmations (con_set_status k st s)
  = alter (set_con_status st) k (confirmations s).
Proof.
  unfold con_set_status. by destruct st, (confirmations s !! k).
Qed.


Lemma resolve_by_other_user_forbidden_witness :
  run lib0 (handle_confirmation (env_for mallory) "accept" "k") store1
  = (Raised (HTTPException 403), store1).
Proof.
  apply (resolve_by_other_user_forbidden lib0 (env_for mallory) "accept" "k"
           store1 mallory 0%nat
           {| secret := "k"; con_openid := "alice";
              con_context_name := "email";
              con_detail_value := Some "alice@example.com";
              status := pending |}).
  - by left.
  - reflexivity.
  - vm_compute; reflexivity.
  - vm_compute; reflexivity.
  - discriminate.
Defined.

(** ** The details update *)

Lemma may_act_check env who target :
  g_auth env = Some who →
  (bool_decide (openid who ≠ target) && negb (admin env (openid who)) = false
   ↔ may_act env target).
Proof.
  intros Hauth. unfold may_act. rewrite andb_false_iff, negb_false_iff.
  rewrite bool_decide_eq_false. split.
  - intros [H|H]; exists who; split; auto.
    left. by destruct (decide (openid who = target)).
  - intros (w & Hw & H). assert (w = who) as -> by congruence.
    destruct H; auto.
Qed.

(** Before the Preference is fetched [handle_details] either gives up,
    having asked at most for the user and the context, or goes on with the
    three blocks on the store [Preference.get_or_create] leaves. *)
Lemma handle_details_cases L env form s :
  (∃ e, run L (handle_details env form) s = (Raised e, s) ∧
        Forall is_lookup (trace L (handle_details env form) s) ∧
        ∀ q, Forall (quiet_call q) (trace L (handle_details env form) s)) ∨
  (details_ready env form s ∧
   let s0 := preference_get_or_create L (df_openid form) (df_context form) s in
   run L (handle_details env form) s = run L (details_blocks env form) s0 ∧
   trace L (handle_details env form) s
   = [User_by_openid (df_openid form); Context_by_name (df_context form);
      Preference_get_or_create (df_openid form) (df_context form)]
     ++ trace L (details_blocks env form) s0).
Proof.
  unfold handle_details, details_ready, g_auth_openid.
  destruct (df_validate form) eqn:Hvalid; simpl;
    [|left; eexists; split; [done|split; [constructor|intros; constructor]]].
  destruct (g_auth env) as [who|] eqn:Hauth; simpl;
    [|left; eexists; split; [done|split; [constructor|intros; constructor]]].
  destruct (bool_decide (openid who ≠ df_openid form)
            && negb (admin env (openid who))) eqn:Hcheck; simpl;
    [left; eexists; split; [done|split; [constructor|intros; constructor]]|].
  apply (may_act_check _ _ _ Hauth) in Hcheck.
  destruct (bool_decide (df_openid form ∈ users s)) eqn:Huser; simpl;
    [|left; eexists; split; [done|split; [|intros]; by repeat constructor]].
  apply bool_decide_eq_true in Huser.
  destruct (bool_decide (df_context form ∈ contexts s)) eqn:Hctx; simpl;
    [|left; eexists; split; [done|split; [|intros]; by repeat constructor]].
  apply bool_decide_eq_true in Hctx.
  right. done.
Qed.

Lemma details_frame_refl q s : details_frame q s s.
Proof. by repeat split. Qed.

Lemma details_frame_trans q s1 s2 s3 :
  details_frame q s1 s2 → details_frame q s2 s3 → details_frame q s1 s3.
Proof.
  intros (Hu & Hc & Hf & Hn & Hd & Ho) (Hu' & Hc' & Hf' & Hn' & Hd' & Ho').
  split; [congruence|]. split; [congruence|]. split; [congruence|].
  split; [congruence|]. split.
  - intros p. by rewrite Hd', Hd.
  - intros p Hp. by rewrite Ho', Ho.
Qed.

Lemma current_detail_alter f q s p :
  (∀ r, detail_value (f r) = detail_value r) →
  current_detail (with_preferences s (alter f q (preferences s))) p
  = current_detail s p.
Proof.
  intros Hf. unfold current_detail. simpl.
  destruct (decide (q = p)) as [->|Hne].
  - rewrite lookup_alter_eq. destruct (preferences s !! p); simpl; auto.
  - by rewrite lookup_alter_ne.
Qed.

Lemma current_detail_get_or_create L o c s p :
  current_detail (preference_get_or_create L o c s) p = current_detail s p.
Proof.
  unfold preference_get_or_create, current_detail.
  destruct (preferences s !! (o, c)) eqn:E; [done|]. simpl.
  destruct (decide ((o, c) = p)) as [<-|Hne].
  - by rewrite lookup_insert_eq, E.
  - by rewrite lookup_insert_ne.
Qed.

Lemma quiet_call_frame L q c s :
  quiet_call q c → details_frame q s (sem L c s).2.
Proof.
  destruct_call c; simpl; try done; intros Hq;
    try apply details_frame_refl; subst.
  - (* Preference.get_or_create *)
    assert (∀ T (f : Store → T),
              (∀ m, f (with_preferences s m) = f s) →
              f (preference_get_or_create L xo xc s) = f s) as Hsame.
    { intros T f Hf. unfold preference_get_or_create.
      by destruct (preferences s !! _). }
    split; [by apply (Hsame _ users)|]. split; [by apply (Hsame _ contexts)|].
    split; [by apply (Hsame _ filters)|].
    split; [by apply (Hsame _ confirmations)|]. split.
    + apply current_detail_get_or_create.
    + intros p Hp. unfold preference_get_or_create.
      destruct (preferences s !! _); [done|]. simpl.
      by rewrite lookup_insert_ne.
  - (* set_batch_values *)
    do 4 (split; [done|]). split.
    + intros p. by apply current_detail_alter.
    + intros p Hp. simpl. by rewrite lookup_alter_ne.
  - (* set_enabled *)
    do 4 (split; [done|]). split.
    + intros p. by apply current_detail_alter.
    + intros p Hp. simpl. by rewrite lookup_alter_ne.
Qed.

Lemma quiet_trace_frame {A} L q (p : Prog A) s :
  Forall (quiet_call q) (trace L p s) → details_frame q s (run L p s).2.
Proof.
  apply (run_respects L (quiet_call q) (details_frame q)).
  - apply details_frame_refl.
  - apply details_frame_trans.
  - intros. by apply quiet_call_frame.
Qed.

Lemma quiet_no_confirmation_call q l :
  Forall (quiet_call q) l → List.filter is_confirmation_call l = [].
Proof.
  induction 1 as [|c l Hc _ IH]; simpl; [done|].
  rewrite IH. by destruct c.
Qed.

(** [int_or_none] asks nothing of the library. *)
Lemma int_or_none_pure v :
  (∃ z, int_or_none v = Ret z) ∨ (∃ e, int_or_none v = Raise e).
Proof.
  unfold int_or_none, py_int.
  destruct (bool_decide (v = Some "<disabled>")); [by left; eexists|].
  destruct v as [t|]; simpl; [|by right; eexists].
  destruct (int_literal t); simpl; [left|right]; by eexists.
Qed.

Lemma change_batch_quiet q bd bc : all_calls (quiet_call q) (change_batch q bd bc).
Proof.
  unfold change_batch. destruct (truthy bd || truthy bc); [|done].
  destruct (int_or_none_pure bd) as [[d ->]|[e ->]]; simpl; [|done].
  destruct (int_or_none_pure bc) as [[c ->]|[e ->]]; simpl; done.
Qed.

Lemma change_enabled_quiet q te : all_calls (quiet_call q) (change_enabled q te).
Proof. unfold change_enabled. by destruct (truthy te). Qed.

(** The batch and enable blocks together. *)
Lemma batch_enabled_quiet {A} q bd bc te (r : A) :
  all_calls (quiet_call q)
    (change_batch q bd bc ;;; change_enabled q te ;;; Ret r).
Proof.
  apply all_calls_bind; [apply change_batch_quiet|intros _].
  apply all_calls_bind; [apply change_enabled_quiet|done].
Qed.

Lemma change_detail_noop L env o c dv s :
  truthy dv = false ∨ dv = current_detail s (o, c) →
  run L (change_detail env o c (o, c) dv) s = (Returned tt, s) ∧
  Forall (quiet_call (o, c)) (trace L (change_detail env o c (o, c) dv) s).
Proof.
  intros Hnoop. unfold change_detail.
  destruct dv as [value|]; [|by split].
  destruct (bool_decide (value = "")) eqn:Hempty; [by split|].
  destruct Hnoop as [Hfalsy|Hsame].
  { simpl in Hfalsy. by rewrite Hempty in Hfalsy. }
  simpl. rewrite bool_decide_false by (by intros ?). simpl.
  split; [done|]. by repeat constructor.
Qed.

Lemma quiet_not_in q (t : list call) c :
  Forall (quiet_call q) t → ¬ quiet_call q c → c ∉ t.
Proof. rewrite Forall_forall. intros H Hc Hin. by apply Hc, H. Qed.

(** C10. When the posted detail value is empty, or is the value the
    Preference already has, the detail block does nothing: no call is made
    to the validator, none creates or changes a Confirmation, and
    [update_details] is not called; the Confirmations are the ones the
    request found, every Preference shows the detail value it showed, and
    the store differs at most in the batch values and the enabled flag of
    the target Preference. *)
Theorem detail_path_noop L env form s :
  truthy (df_detail_value form) = false ∨
  df_detail_value form = current_detail s (df_openid form, df_context form) →
  let q := (df_openid form, df_context form) in
  let t := trace L (api_method env (handle_details env form)) s in
  let s' := (run L (api_method env (handle_details env form)) s).2 in
  (∀ ctx v, validate_detail_value ctx v ∉ t) ∧
  List.filter is_confirmation_call t = [] ∧
  (∀ p v, Pref_update_details p v ∉ t) ∧
  Forall (quiet_call q) t ∧
  confirmations s' = confirmations s ∧
  (∀ p, current_detail s' p = current_detail s p) ∧
  details_frame q s s'.
Proof.
  intros Hnoop q t s'.
  assert (Forall (quiet_call q) t) as Hquiet.
  { subst t. rewrite trace_api_method.
    destruct (handle_details_cases L env form s)
      as [(e & _ & _ & Hq)|(_ & _ & ->)]; [apply Hq|].
    apply Forall_app. split; [by repeat constructor|].
    unfold details_blocks. rewrite trace_bind. apply Forall_app.
    assert (truthy (df_detail_value form) = false ∨
            df_detail_value form
            = current_detail
                (preference_get_or_create L (df_openid form) (df_context form) s)
                (df_openid form, df_context form)) as Hnoop'.
    { destruct Hnoop; [by left|right].
      by rewrite current_detail_get_or_create. }
    destruct (change_detail_noop L env _ _ _ _ Hnoop') as [-> Hd].
    split; [exact Hd|]. apply all_calls_trace, batch_enabled_quiet. }
  assert (details_frame q s s') as Hframe.
  { subst s'. rewrite store_api_method. apply quiet_trace_frame.
    subst t. by rewrite trace_api_method in Hquiet. }
  split; [intros; apply (quiet_not_in q); [done|by intros []]|].
  split; [by apply (quiet_no_confirmation_call q)|].
  split; [intros; apply (quiet_not_in q); [done|by intros []]|].
  split; [done|].
  split; [apply Hframe|]. split; [apply Hframe|done].
Qed.

Lemma detail_path_noop_witness :
  confirmations
    (run lib0
       (api_method (env_for alice)
          (handle_details (env_for alice)
             (details_form "alice" "email" (Some "") (Some "60") (Some "5")
                (Some "on"))))
       store0).2
  = confirmations store0.
Proof.
  apply (detail_path_noop lib0 (env_for alice)
           (details_form "alice" "email" (Some "") (Some "60") (Some "5")
              (Some "on")) store0).
  left. reflexivity.
Defined.

(** ** A detail change under verification *)

Lemma change_detail_confirm L env o c value s :
  value ≠ "" →
  current_detail s (o, c) ≠ Some value →
  detail_validator L c value = None →
  default true (fmn_verify_delivery_details env) = true →
  let k := (confirmation_get_or_create L o c s).1 in
  run L (change_detail env o c (o, c) (Some value)) s
    = (Returned tt, request_confirmation L o c value s) ∧
  trace L (change_detail env o c (o, c) (Some value)) s
    = [Pref_detail_value (o, c); validate_detail_value c value;
       Confirmation_get_or_create o c; Con_set_value k value;
       Con_set_status k pending].
Proof.
  intros Hne Hchange Hok Hverify k. unfold change_detail.
  rewrite bool_decide_false by done. simpl.
  rewrite bool_decide_true by (by intros ?). simpl.
  rewrite Hok. simpl. rewrite Hverify. simpl. done.
Qed.

Lemma length_filter_alter {A} (P : A → Prop) `{∀ x, Decision (P x)}
    (f : A → A) i (l : list A) :
  (∀ x, P (f x) ↔ P x) →
  length (filter P (alter f i l)) = length (filter P l).
Proof.
  intros Hf. revert i. induction l as [|x l IH]; intros [|i]; simpl; auto.
  - rewrite !filter_cons.
    destruct (decide (P (f x))) as [Hy|Hn], (decide (P x)) as [Hy'|Hn'];
      simpl; auto; exfalso.
    + by apply Hn', Hf.
    + by apply Hn, Hf.
  - rewrite !filter_cons. specialize (IH i).
    change (list_alter f i l) with (alter f i l).
    destruct (decide (P x)); simpl; auto.
Qed.

Lemma filter_none {A} (P : A → Prop) `{∀ x, Decision (P x)} (l : list A) :
  Forall (fun x => ¬ P x) l → filter P l = [].
Proof.
  induction 1 as [|x l Hx _ IH]; [done|]. by rewrite filter_cons_False.
Qed.

Lemma request_confirmation_frame L o c value s :
  users (request_confirmation L o c value s) = users s ∧
  contexts (request_confirmation L o c value s) = contexts s ∧
  preferences (request_confirmation L o c value s) = preferences s ∧
  filters (request_confirmation L o c value s) = filters s.
Proof.
  unfold request_confirmation, confirmation_get_or_create, con_set_status.
  by destruct (list_find _ _) as [[i x]|].
Qed.

(** After the request the pair's Confirmation proposes the new value and is
    pending. *)
Lemma request_confirmation_row L o c value s :
  let k := (confirmation_get_or_create L o c s).1 in
  ∃ x, confirmations (request_confirmation L o c value s) !! k = Some x ∧
       is_confirmation_of o c x ∧
       con_detail_value x = Some value ∧ status x = pending.
Proof.
  unfold request_confirmation, confirmation_get_or_create.
  destruct (list_find _ _) as [[i x]|] eqn:E; simpl;
    rewrite ?confirmations_con_set_status; simpl.
  - apply list_find_Some in E as (Hx & Hof & _).
    rewrite !list_lookup_alter_eq, Hx. simpl. eexists; split; [done|].
    by destruct Hof.
  - rewrite !list_lookup_alter_eq.
    rewrite lookup_app_r, Nat.sub_diag by done. simpl.
    eexists; split; [done|]. done.
Qed.

(** The request adds a Confirmation for the pair only when it has none. *)
Lemma request_confirmation_count L o c value s :
  length (confirmations_of o c (request_confirmation L o c value s))
  = Nat.max 1 (length (confirmations_of o c s)).
Proof.
  unfold confirmations_of, request_confirmation, confirmation_get_or_create.
  destruct (list_find _ _) as [[i x]|] eqn:E; simpl;
    rewrite ?confirmations_con_set_status; simpl;
    rewrite !length_filter_alter by done.
  - apply list_find_Some in E as (Hx & Hof & _).
    assert (x ∈ filter (is_confirmation_of o c) (confirmations s)) as Hin.
    { apply list_elem_of_filter. split; [done|].
      by apply list_elem_of_lookup_2 in Hx. }
    destruct (filter _ _); [by apply not_elem_of_nil in Hin|]. simpl. lia.
  - apply list_find_None in E.
    rewrite filter_app, (filter_none _ _ E).
    rewrite filter_cons_True by done. done.
Qed.

Lemma handle_details_ready L env form s :
  details_ready env form s →
  let s0 := preference_get_or_create L (df_openid form) (df_context form) s in
  run L (handle_details env form) s = run L (details_blocks env form) s0 ∧
  trace L (handle_details env form) s
  = [User_by_openid (df_openid form); Context_by_name (df_context form);
     Preference_get_or_create (df_openid form) (df_context form)]
    ++ trace L (details_blocks env form) s0.
Proof.
  intros (Hvalid & Hmay & Huser & Hctx).
  pose proof Hmay as (who & Hauth & _).
  apply (may_act_check _ _ _ Hauth) in Hmay.
  unfold handle_details, g_auth_openid.
  rewrite Hvalid, Hauth. simpl. rewrite Hmay. simpl.
  rewrite (bool_decide_true (df_openid form ∈ users s)) by done. simpl.
  rewrite (bool_decide_true (df_context form ∈ contexts s)) by done. done.
Qed.

Lemma confirmations_preference_get_or_create L o c s :
  confirmations (preference_get_or_create L o c s) = confirmations s.
Proof.
  unfold preference_get_or_create. by destruct (preferences s !! _).
Qed.

(** C1. Under the verification policy a detail change is never written to
    the Preference.  When the request passes the checks of
    [handle_details], the posted value is non-empty, differs from the
    Preference's current value and passes the validator, then every
    Preference shows the detail value it showed before, [update_details]
    is not called, and the Confirmation calls of the request are exactly
    [get_or_create] for the (user, context) pair, [set_value] with the new
    value and [set_status('pending')] on the row it answered; afterwards
    that row proposes the new value and is pending, and the pair has as
    many Confirmations as before, or one if it had none. *)
Theorem detail_change_awaits_confirmation L env form s value :
  details_ready env form s →
  default true (fmn_verify_delivery_details env) = true →
  df_detail_value form = Some value →
  value ≠ "" →
  current_detail s (df_openid form, df_context form) ≠ Some value →
  detail_validator L (df_context form) value = None →
  let o := df_openid form in
  let c := df_context form in
  let t := trace L (api_method env (handle_details env form)) s in
  let s' := (run L (api_method env (handle_details env form)) s).2 in
  let k := (confirmation_get_or_create L o c s).1 in
  (∀ p, current_detail s' p = current_detail s p) ∧
  (∀ p v, Pref_update_details p v ∉ t) ∧
  List.filter is_confirmation_call t
    = [Confirmation_get_or_create o c; Con_set_value k value;
       Con_set_status k pending] ∧
  (∃ x, confirmations s' !! k = Some x ∧ is_confirmation_of o c x ∧
        con_detail_value x = Some value ∧ status x = pending) ∧
  length (confirmations_of o c s')
    = Nat.max 1 (length (confirmations_of o c s)) ∧
  (length (confirmations_of o c s) ≤ 1 →
   length (confirmations_of o c s') = 1)%nat.
Proof.
  intros Hready Hverify Hvalue Hne Hchange Hok o c t s' k.
  destruct (handle_details_ready L env form s Hready) as [Hrun Htrace].
  subst o c.
  set (o := df_openid form) in *. set (c := df_context form) in *.
  set (s0 := preference_get_or_create L o c s) in *.
  assert (confirmations s0 = confirmations s) as Hconf0
    by apply confirmations_preference_get_or_create.
  assert ((confirmation_get_or_create L o c s0).1 = k) as Hk.
  { subst k. unfold confirmation_get_or_create. rewrite Hconf0.
    by destruct (list_find _ _) as [[??]|]. }
  assert (current_detail s0 (o, c) ≠ Some value) as Hchange0.
  { subst s0. by rewrite current_detail_get_or_create. }
  destruct (change_detail_confirm L env o c value s0 Hne Hchange0 Hok Hverify)
    as [Hd Hdt].
  rewrite Hk in Hdt.
  set (s1 := request_confirmation L o c value s0) in *.
  set (rest := change_batch (o, c) (df_batch_delta form) (df_batch_count form) ;;;
               change_enabled (o, c) (df_toggle_enable form) ;;;
               Ret [("message", Lit "ok");
                    ("url", url_for "context" [("openid", o); ("context", c)])]).
  assert (Forall (quiet_call (o, c)) (trace L rest s1)) as Hquiet
    by apply all_calls_trace, batch_enabled_quiet.
  assert (run L (details_blocks env form) s0 = run L rest s1) as Hblocks.
  { unfold details_blocks. fold o c. rewrite Hvalue, run_bind, Hd. done. }
  assert (t = [User_by_openid o; Context_by_name c;
               Preference_get_or_create o c]
              ++ [Pref_detail_value (o, c); validate_detail_value c value;
                  Confirmation_get_or_create o c; Con_set_value k value;
                  Con_set_status k pending]
              ++ trace L rest s1) as Ht.
  { subst t. rewrite trace_api_method, Htrace. f_equal.
    unfold details_blocks. fold o c.
    rewrite Hvalue, trace_bind, Hd, Hdt. done. }
  assert (details_frame (o, c) s1 s') as (_ & _ & _ & Hconf & Hdet & _).
  { subst s'. rewrite store_api_method, Hrun, Hblocks.
    by apply quiet_trace_frame. }
  destruct (request_confirmation_frame L o c value s0) as (_ & _ & Hprefs & _).
  fold s1 in Hprefs.
  split.
  { intros p. rewrite Hdet. unfold current_detail at 1. rewrite Hprefs.
    apply current_detail_get_or_create. }
  split.
  { intros p v. rewrite Ht, !elem_of_app. intros [Hin|[Hin|Hin]].
    - repeat (apply elem_of_cons in Hin as [?|Hin]; [done|]).
      by apply not_elem_of_nil in Hin.
    - repeat (apply elem_of_cons in Hin as [?|Hin]; [done|]).
      by apply not_elem_of_nil in Hin.
    - revert Hin. apply (quiet_not_in (o, c)); [done|by intros []]. }
  split.
  { rewrite Ht, !List.filter_app, (quiet_no_confirmation_call _ _ Hquiet).
    done. }
  assert (confirmations_of o c s0 = confirmations_of o c s) as Hof0
    by (unfold confirmations_of; by rewrite Hconf0).
  split.
  { rewrite Hconf, <- Hk. apply request_confirmation_row. }
  assert (length (confirmations_of o c s')
          = Nat.max 1 (length (confirmations_of o c s))) as Hcount.
  { unfold confirmations_of at 1. rewrite Hconf, <- Hof0.
    apply request_confirmation_count. }
  split; [done|]. lia.
Qed.

Lemma details_ready_alice d bd bc te :
  details_ready (env_for alice) (details_form "alice" "email" d bd bc te) store0.
Proof.
  split; [done|]. split; [exists alice; split; [done|by left]|].
  split; simpl; set_solver.
Qed.

Lemma detail_change_awaits_confirmation_witness :
  length
    (confirmations_of "alice" "email"
       (run lib0
          (api_method (env_for alice)
             (handle_details (env_for alice)
                (details_form "alice" "email" (Some "alice@example.com")
                   (Some "60") (Some "<disabled>") None)))
          store0).2)
  = 1%nat.
Proof.
  apply (detail_change_awaits_confirmation lib0 (env_for alice)
           (details_form "alice" "email" (Some "alice@example.com")
              (Some "60") (Some "<disabled>") None)
           store0 "alice@example.com").
  - apply details_ready_alice.
  - reflexivity.
  - reflexivity.
  - discriminate.
  - vm_compute. discriminate.
  - reflexivity.
  - vm_compute. lia.
Defined.

(** ** The enable toggle *)

Lemma current_enabled_alter f q s p :
  (∀ r, enabled (f r) = enabled r) →
  current_enabled (with_preferences s (alter f q (preferences s))) p
  = current_enabled s p.
Proof.
  intros Hf. unfold current_enabled. simpl.
  destruct (decide (q = p)) as [->|Hne].
  - rewrite lookup_alter_eq. destruct (preferences s !! p); simpl; auto.
  - by rewrite lookup_alter_ne.
Qed.

Lemma keeps_enabled_sem L c s p :
  keeps_enabled c → current_enabled (sem L c s).2 p = current_enabled s p.
Proof.
  destruct_call c; simpl; try done; intros _;
    unfold pref_add_filter, filter_create, filter_add_rule,
      filter_remove_filter, session_delete, confirmation_get_or_create,
      con_set_status;
    repeat case_match; try done;
    try (by apply current_enabled_alter);
    by apply (current_enabled_alter _ _ (with_confirmations s _)).
Qed.

Lemma keeps_enabled_run {A} L (p : Prog A) s q :
  Forall keeps_enabled (trace L p s) →
  current_enabled (run L p s).2 q = current_enabled s q.
Proof.
  apply (run_respects L keeps_enabled
           (fun s s' => current_enabled s' q = current_enabled s q)).
  - done.
  - intros s1 s2 s3 H12 H23. by rewrite H23.
  - intros. by apply keeps_enabled_sem.
Qed.

Lemma change_detail_keeps_enabled env o c q dv :
  all_calls keeps_enabled (change_detail env o c q dv).
Proof.
  unfold change_detail. destruct dv as [value|]; [|done].
  destruct (bool_decide (value = "")); [done|].
  simpl. split; [done|]. intros current.
  destruct (bool_decide (Some value ≠ current)); [|done].
  simpl. split; [done|]. intros [e|[]]; simpl; [done|].
  by destruct (default true (fmn_verify_delivery_details env)).
Qed.

Lemma change_batch_keeps_enabled q bd bc :
  all_calls keeps_enabled (change_batch q bd bc).
Proof.
  unfold change_batch. destruct (truthy bd || truthy bc); [|done].
  destruct (int_or_none_pure bd) as [[d ->]|[e ->]]; simpl; [|done].
  destruct (int_or_none_pure bc) as [[c ->]|[e ->]]; simpl; done.
Qed.

(** The enable block sets the flag to the negation of what it reads. *)
Lemma change_enabled_toggles L q te s :
  truthy te = true →
  run L (change_enabled q te) s = (Returned tt, toggled q s) ∧
  trace L (change_enabled q te) s
  = [Pref_enabled q; Pref_set_enabled q (negb (current_enabled s q))].
Proof. intros Hte. unfold change_enabled. by rewrite Hte. Qed.

Lemma current_enabled_set b q s :
  is_Some (preferences s !! q) →
  current_enabled
    (with_preferences s (alter (set_enabled b) q (preferences s))) q = b.
Proof.
  intros [r Hr]. unfold current_enabled. simpl.
  by rewrite lookup_alter_eq, Hr.
Qed.

Lemma preference_created L o c s :
  is_Some (preferences (preference_get_or_create L o c s) !! (o, c)).
Proof.
  unfold preference_get_or_create.
  destruct (preferences s !! (o, c)) eqn:E; simpl; [by rewrite E|].
  by rewrite lookup_insert_eq.
Qed.

Lemma preference_get_or_create_id L o c s :
  is_Some (preferences s !! (o, c)) → preference_get_or_create L o c s = s.
Proof. intros [r Hr]. unfold preference_get_or_create. by rewrite Hr. Qed.

Lemma is_Some_alter {V} (f : V → V) (p q : string * string)
    (m : gmap (string * string) V) :
  is_Some (alter f p m !! q) ↔ is_Some (m !! q).
Proof.
  destruct (decide (p = q)) as [->|Hne].
  - by rewrite lookup_alter_eq, fmap_is_Some.
  - by rewrite lookup_alter_ne.
Qed.

(** No call removes a Preference. *)
Lemma preference_stays L c s q :
  is_Some (preferences s !! q) → is_Some (preferences (sem L c s).2 !! q).
Proof.
  intros Hq.
  destruct_call c; simpl; try done;
    unfold preference_get_or_create, pref_add_filter, filter_create,
      filter_add_rule, filter_remove_filter, session_delete,
      confirmation_get_or_create, con_set_status;
    repeat case_match; simpl; try done;
    try (by apply is_Some_alter).
  destruct (decide ((xo, xc) = q)) as [<-|Hne].
  - by rewrite lookup_insert_eq.
  - by rewrite lookup_insert_ne.
Qed.

Lemma preference_stays_run {A} L (p : Prog A) s q :
  is_Some (preferences s !! q) → is_Some (preferences (run L p s).2 !! q).
Proof.
  intros Hq.
  apply (run_respects L (fun _ => True)
           (fun s s' => is_Some (preferences s !! q) →
                        is_Some (preferences s' !! q))); auto.
  - intros. by apply preference_stays.
  - by apply Forall_true.
Qed.

Lemma toggled_enabled q s :
  is_Some (preferences s !! q) →
  current_enabled (toggled q s) q = negb (current_enabled s q).
Proof. apply current_enabled_set. Qed.

Lemma toggled_twice q s :
  is_Some (preferences s !! q) → toggled q (toggled q s) = s.
Proof.
  intros Hq. rewrite (surjective_pairing q) in *.
  unfold toggled at 1. rewrite toggled_enabled by done.
  unfold toggled, current_enabled. destruct Hq as [r Hr]. rewrite Hr.
  destruct s as [u c m f n]. unfold with_preferences. simpl in *. f_equal.
  apply map_eq. intros i. destruct (decide (i = (q.1, q.2))) as [->|Hne].
  - rewrite !lookup_alter_eq, Hr. simpl. f_equal.
    destruct r. unfold set_enabled. simpl. by rewrite negb_involutive.
  - by rewrite !lookup_alter_ne.
Qed.

(** With nothing but the toggle posted, the blocks only run the toggle. *)
Lemma toggle_only_blocks L env form s :
  truthy (df_toggle_enable form) = true →
  truthy (df_detail_value form) = false →
  truthy (df_batch_delta form) = false →
  truthy (df_batch_count form) = false →
  run L (details_blocks env form) s
  = (Returned
       [("message", Lit "ok");
        ("url", url_for "context" [("openid", df_openid form);
                                   ("context", df_context form)])],
     toggled (df_openid form, df_context form) s).
Proof.
  intros Hte Hdv Hbd Hbc. unfold details_blocks.
  rewrite run_bind.
  destruct (change_detail_noop L env (df_openid form) (df_context form)
              (df_detail_value form) s) as [-> _]; [by left|].
  unfold change_batch. rewrite Hbd, Hbc. simpl.
  rewrite run_bind.
  destruct (change_enabled_toggles L (df_openid form, df_context form)
              (df_toggle_enable form) s Hte) as [-> _].
  done.
Qed.

(** C9. The enable toggle is an involution.  A details update that posts
    [toggle_enable] and completes leaves the Preference's enabled flag at
    the negation of the value it had; and when nothing else is posted the
    update does complete, so that a second such update brings the flag,
    and the whole store, back to where the first one found them. *)
Theorem toggle_enable_involution L env form s :
  details_ready env form s →
  truthy (df_toggle_enable form) = true →
  let q := (df_openid form, df_context form) in
  let s0 := preference_get_or_create L (df_openid form) (df_context form) s in
  let s1 := (run L (handle_details env form) s).2 in
  let s2 := (run L (handle_details env form) s1).2 in
  (∀ r, (run L (handle_details env form) s).1 = Returned r →
        current_enabled s1 q = negb (current_enabled s0 q)) ∧
  (truthy (df_detail_value form) = false →
   truthy (df_batch_delta form) = false →
   truthy (df_batch_count form) = false →
   (∃ r, (run L (handle_details env form) s).1 = Returned r) ∧
   (∃ r, (run L (handle_details env form) s1).1 = Returned r) ∧
   current_enabled s1 q = negb (current_enabled s0 q) ∧
   current_enabled s2 q = current_enabled s0 q ∧
   s2 = s0 ∧
   (is_Some (preferences s !! q) → s2 = s)).
Proof.
  intros Hready Hte q s0 s1 s2.
  destruct (handle_details_ready L env form s Hready) as [Hrun _].
  fold s0 in Hrun.
  assert (is_Some (preferences s0 !! q)) as Hq by apply preference_created.
  split.
  - intros r Hr. subst s1. rewrite Hrun in *. revert Hr.
    unfold details_blocks. fold q. rewrite !run_bind.
    pose proof (keeps_enabled_run L
      (change_detail env (df_openid form) (df_context form) q
         (df_detail_value form)) s0 q
      (all_calls_trace _ _ _ _ (change_detail_keeps_enabled _ _ _ _ _))) as Ha.
    pose proof (preference_stays_run L
      (change_detail env (df_openid form) (df_context form) q
         (df_detail_value form)) s0 q Hq) as Hqa.
    destruct (run L (change_detail _ _ _ _ _) s0) as [[[]|e] sa]; [|done].
    simpl in Ha, Hqa. rewrite run_bind.
    pose proof (keeps_enabled_run L
      (change_batch q (df_batch_delta form) (df_batch_count form)) sa q
      (all_calls_trace _ _ _ _ (change_batch_keeps_enabled _ _ _))) as Hb.
    pose proof (preference_stays_run L
      (change_batch q (df_batch_delta form) (df_batch_count form)) sa q Hqa)
      as Hqb.
    destruct (run L (change_batch _ _ _) sa) as [[[]|e] sb]; [|done].
    simpl in Hb, Hqb. rewrite run_bind.
    destruct (change_enabled_toggles L q (df_toggle_enable form) sb Hte)
      as [-> _].
    simpl. intros _. rewrite toggled_enabled by done. by rewrite Hb, Ha.
  - intros Hdv Hbd Hbc.
    pose proof (toggle_only_blocks L env form s0 Hte Hdv Hbd Hbc) as Hfirst.
    fold q in Hfirst.
    assert (s1 = toggled q s0) as Hs1 by (subst s1; by rewrite Hrun, Hfirst).
    assert (details_ready env form s1) as Hready1.
    { destruct Hready as (? & ? & Hu & Hc). rewrite Hs1.
      repeat split; try done; simpl.
      - unfold s0, preference_get_or_create.
        by destruct (preferences s !! _).
      - unfold s0, preference_get_or_create.
        by destruct (preferences s !! _). }
    destruct (handle_details_ready L env form s1 Hready1) as [Hrun1 _].
    assert (is_Some (preferences s1 !! q)) as Hq1.
    { rewrite Hs1. simpl. by apply is_Some_alter. }
    rewrite (preference_get_or_create_id L _ _ s1 Hq1) in Hrun1.
    pose proof (toggle_only_blocks L env form s1 Hte Hdv Hbd Hbc) as Hsecond.
    fold q in Hsecond.
    assert (s2 = s0) as Hs2.
    { subst s2. rewrite Hrun1, Hsecond. simpl. rewrite Hs1.
      by apply toggled_twice. }
    split; [eexists; by rewrite Hrun, Hfirst|].
    split; [eexists; by rewrite Hrun1, Hsecond|].
    split; [rewrite Hs1; by apply toggled_enabled|].
    split; [by rewrite Hs2|]. split; [done|].
    intros Hexists. rewrite Hs2. by apply preference_get_or_create_id.
Qed.

Lemma toggle_enable_involution_witness :
  (run lib0
     (handle_details (env_for alice)
        (details_form "alice" "email" None None None (Some "y")))
     (run lib0
        (handle_details (env_for alice)
           (details_form "alice" "email" None None None (Some "y")))
        store0).2).2
  = store0.
Proof.
  apply (toggle_enable_involution lib0 (env_for alice)
           (details_form "alice" "email" None None None (Some "y")) store0
           (details_ready_alice _ _ _ _) eq_refl);
    try reflexivity.
  vm_compute. eauto.
Defined.

(** ** The batch values *)

Lemma run_api_method_raised L env (p : Prog Result) s code errs s1 :
  run L p s = (Raised (APIError code errs), s1) →
  run L (api_method env p) s = (Returned (jsonify_errors errs code), s1).
Proof.
  intros H. unfold api_method. by rewrite run_try_except, run_bind, H.
Qed.

Lemma int_or_none_disabled : int_or_none (Some "<disabled>") = Ret None.
Proof. reflexivity. Qed.

Lemma int_or_none_missing : int_or_none None = Raise (APIError 400 not_an_integer).
Proof. reflexivity. Qed.

Lemma int_or_none_literal t z :
  t ≠ "<disabled>" → int_literal t = Some z → int_or_none (Some t) = Ret (Some z).
Proof.
  intros Ht Hz. unfold int_or_none, py_int.
  rewrite bool_decide_false by congruence. by rewrite Hz.
Qed.

Lemma int_or_none_bad_literal t :
  t ≠ "<disabled>" → int_literal t = None →
  int_or_none (Some t)
  = Raise (ValueError "invalid literal for int() with base 10").
Proof.
  intros Ht Hz. unfold int_or_none, py_int.
  rewrite bool_decide_false by congruence. by rewrite Hz.
Qed.

Lemma int_or_none_truthy v z : int_or_none v = Ret z → truthy v = true.
Proof.
  unfold int_or_none, py_int.
  destruct (bool_decide (v = Some "<disabled>")) eqn:E.
  - apply bool_decide_eq_true in E as ->. done.
  - destruct v as [t|]; simpl; [|done].
    destruct (bool_decide (t = "")) eqn:Et; [|done].
    apply bool_decide_eq_true in Et as ->. done.
Qed.

Lemma change_batch_both L q bd bc d c s :
  int_or_none bd = Ret d → int_or_none bc = Ret c →
  run L (change_batch q bd bc) s
  = (Returned tt, with_preferences s (alter (set_batch d c) q (preferences s))).
Proof.
  intros Hd Hc. unfold change_batch.
  rewrite (int_or_none_truthy _ _ Hd), Hd, Hc. done.
Qed.

Lemma change_batch_one_missing L q bd bc s :
  (bd = None ∧ truthy bc = true) ∨
  ((∃ d, int_or_none bd = Ret d) ∧ bc = None) →
  run L (change_batch q bd bc) s = (Raised (APIError 400 not_an_integer), s).
Proof.
  unfold change_batch. intros [[-> Hbc]|[[d Hd] ->]].
  - by rewrite Hbc.
  - by rewrite (int_or_none_truthy _ _ Hd), Hd.
Qed.

Lemma change_batch_neither L q bd bc s :
  truthy bd = false → truthy bc = false →
  run L (change_batch q bd bc) s = (Returned tt, s).
Proof. intros Hbd Hbc. unfold change_batch. by rewrite Hbd, Hbc. Qed.

Lemma current_batch_set d c q s :
  is_Some (preferences s !! q) →
  current_batch (with_preferences s (alter (set_batch d c) q (preferences s))) q
  = (d, c).
Proof.
  intros [r Hr]. unfold current_batch. simpl. by rewrite lookup_alter_eq, Hr.
Qed.

Lemma current_batch_get_or_create L o c s p :
  current_batch (preference_get_or_create L o c s) p = current_batch s p.
Proof.
  unfold preference_get_or_create, current_batch.
  destruct (preferences s !! (o, c)) eqn:E; [done|]. simpl.
  destruct (decide ((o, c) = p)) as [<-|Hne].
  - by rewrite lookup_insert_eq, E.
  - by rewrite lookup_insert_ne.
Qed.

(** The enable block leaves the batch values alone. *)
Lemma change_enabled_keeps_batch L q te s p :
  current_batch (run L (change_enabled q te) s).2 p = current_batch s p.
Proof.
  unfold change_enabled. destruct (truthy te); [|done]. simpl.
  unfold current_batch. simpl.
  destruct (decide (q = p)) as [->|Hne].
  - rewrite lookup_alter_eq. by destruct (preferences s !! p).
  - by rewrite lookup_alter_ne.
Qed.

(** The amended C5. The two batch values are written together: the text
    "<disabled>" is read as null; when both fields are posted, each as
    "<disabled>" or as an integer literal, both stored values are
    overwritten by what the fields read as; when one is posted and the
    other is left out, the update is refused with the 400 error of
    [int_or_none] and both stored values stay; when neither is posted
    both stay. *)
Theorem batch_values_written_together L env form s :
  details_ready env form s →
  truthy (df_detail_value form) = false ∨
  df_detail_value form = current_detail s (df_openid form, df_context form) →
  let q := (df_openid form, df_context form) in
  let bd := df_batch_delta form in
  let bc := df_batch_count form in
  let out := (run L (api_method env (handle_details env form)) s).1 in
  let s' := (run L (api_method env (handle_details env form)) s).2 in
  int_or_none (Some "<disabled>") = Ret None ∧
  (∀ d c, int_or_none bd = Ret d → int_or_none bc = Ret c →
          current_batch s' q = (d, c)) ∧
  ((bd = None ∧ truthy bc = true) ∨ ((∃ d, int_or_none bd = Ret d) ∧ bc = None) →
   out = Returned (jsonify_errors not_an_integer 400) ∧
   current_batch s' q = current_batch s q) ∧
  (truthy bd = false → truthy bc = false →
   current_batch s' q = current_batch s q).
Proof.
  intros Hready Hnoop q bd bc out s'.
  destruct (handle_details_ready L env form s Hready) as [Hrun _].
  set (s0 := preference_get_or_create L (df_openid form) (df_context form) s)
    in *.
  assert (is_Some (preferences s0 !! q)) as Hq by apply preference_created.
  assert (current_batch s0 q = current_batch s q) as Hb0
    by apply current_batch_get_or_create.
  assert (run L (handle_details env form) s
          = run L (change_batch q bd bc ;;;
                   change_enabled q (df_toggle_enable form) ;;;
                   Ret [("message", Lit "ok");
                        ("url", url_for "context"
                                  [("openid", df_openid form);
                                   ("context", df_context form)])]) s0)
    as Hrest.
  { rewrite Hrun. unfold details_blocks. rewrite run_bind.
    destruct (change_detail_noop L env (df_openid form) (df_context form)
                (df_detail_value form) s0) as [-> _]; [|done].
    destruct Hnoop; [by left|right].
    unfold s0. by rewrite current_detail_get_or_create. }
  split; [done|]. split; [|split].
  - intros d c Hd Hc. subst s'. rewrite store_api_method, Hrest, run_bind.
    rewrite (change_batch_both L q bd bc d c s0 Hd Hc), run_bind.
    pose proof (change_enabled_keeps_batch L q (df_toggle_enable form)
                  (with_preferences s0
                     (alter (set_batch d c) q (preferences s0))) q) as Hke.
    destruct (run L (change_enabled _ _) _) as [[[]|e] sb]; simpl in *;
      rewrite Hke; by apply current_batch_set.
  - intros Hmissing.
    assert (run L (handle_details env form) s
            = (Raised (APIError 400 not_an_integer), s0)) as Hraised.
    { by rewrite Hrest, run_bind, (change_batch_one_missing L q bd bc s0). }
    subst out s'.
    by rewrite (run_api_method_raised _ _ _ _ _ _ _ Hraised).
  - intros Hbd Hbc. subst s'. rewrite store_api_method, Hrest, run_bind.
    rewrite (change_batch_neither L q bd bc s0 Hbd Hbc), run_bind.
    pose proof (change_enabled_keeps_batch L q (df_toggle_enable form) s0 q)
      as Hke.
    destruct (run L (change_enabled _ _) _) as [[[]|e] sb]; simpl in *;
      by rewrite Hke.
Qed.

Lemma batch_values_written_together_witness :
  (run lib0
     (api_method (env_for alice)
        (handle_details (env_for alice)
           (details_form "alice" "email" None (Some "3600") None None)))
     store0).1
  = Returned (jsonify_errors not_an_integer 400).
Proof.
  apply (batch_values_written_together lib0 (env_for alice)
           (details_form "alice" "email" None (Some "3600") None None) store0
           (details_ready_alice _ _ _ _)).
  - by left.
  - right. split; [|done]. exists (Some 3600). reflexivity.
Defined.

(** C5 as stated fails: posting delta=3600 without a count, then count=10
    without a delta, is refused twice, and the stored values are the ones
    from before the two requests, not (3600, 10).  With the omitted field
    read as [None] both requests get the 400 error of [int_or_none]; with
    it read as the empty string both raise [ValueError]. *)
Lemma batch_omission_counterexample :
  let env := env_for alice in
  let scenario (omitted : option string) :=
    let first :=
      details_form "alice" "email" None (Some "3600") omitted None in
    let second :=
      details_form "alice" "email" None omitted (Some "10") None in
    let after_first :=
      run lib0 (api_method env (handle_details env first)) store0 in
    let after_second :=
      run lib0 (api_method env (handle_details env second)) after_first.2 in
    (after_first.1, after_second.1,
     current_batch after_second.2 ("alice", "email")) in
  scenario None
  = (Returned (jsonify_errors not_an_integer 400),
     Returned (jsonify_errors not_an_integer 400), (None, None)) ∧
  scenario (Some "")
  = (Raised (ValueError "invalid literal for int() with base 10"),
     Raised (ValueError "invalid literal for int() with base 10"),
     (None, None)) ∧
  (scenario None).2 ≠ (Some 3600, Some 10) ∧
  (scenario (Some "")).2 ≠ (Some 3600, Some 10).
Proof. vm_compute. repeat split; discriminate. Qed.

(** ** Errors that are not typed *)

(** A batch field that is neither "<disabled>" nor an integer literal makes
    [int] raise [ValueError], which [int_or_none] does not catch and
    [api_method] does not convert. *)
Lemma bad_batch_delta_raises L env form s t :
  details_ready env form s →
  truthy (df_detail_value form) = false →
  df_batch_delta form = Some t → t ≠ "" → t ≠ "<disabled>" →
  int_literal t = None →
  (run L (api_method env (handle_details env form)) s).1
  = Raised (ValueError "invalid literal for int() with base 10").
Proof.
  intros Hready Hdv Hbd Hne Hdis Hlit.
  destruct (handle_details_ready L env form s Hready) as [Hrun _].
  unfold api_method. rewrite run_try_except, run_bind, Hrun.
  unfold details_blocks. rewrite run_bind.
  destruct (change_detail_noop L env (df_openid form) (df_context form)
              (df_detail_value form)
              (preference_get_or_create L (df_openid form) (df_context form) s))
    as [-> _]; [by left|].
  rewrite run_bind. unfold change_batch. rewrite Hbd.
  assert (truthy (Some t) = true) as ->
    by (simpl; by rewrite bool_decide_false).
  simpl. by rewrite (int_or_none_bad_literal t Hdis Hlit).
Qed.

(** C7 fails on the code: posting [batch_delta=abc] makes the decorated
    [handle_details] raise a bare [ValueError] instead of answering with a
    typed error. *)
Theorem non_integer_batch_value_escapes :
  run lib0
    (api_method (env_for alice)
       (handle_details (env_for alice)
          (details_form "alice" "email" None (Some "abc") None None)))
    store0
  = (Raised (ValueError "invalid literal for int() with base 10"), store0).
Proof.
  vm_compute. reflexivity.
Qed.

(** ** Filter names *)

Lemma owned_rows_from_refl l : owned_rows_from l l.
Proof. intros i f Hf _. eauto. Qed.

Lemma owned_rows_from_trans l1 l2 l3 :
  owned_rows_from l1 l2 → owned_rows_from l2 l3 → owned_rows_from l1 l3.
Proof.
  intros H12 H23 i f3 Hf3 Ho3.
  destruct (H23 i f3 Hf3 Ho3) as (f2 & Hf2 & Hn2 & Hp2).
  destruct (H12 i f2 Hf2) as (f1 & Hf1 & Hn1 & Hp1); [by rewrite Hp2|].
  exists f1. repeat split; congruence.
Qed.

Lemma unique_names_from l l' :
  unique_names l → owned_rows_from l l' → unique_names l'.
Proof.
  intros Hu Hfrom i j f g p Hi Hj Hf Hg Hn.
  destruct (Hfrom i f Hi) as (f0 & Hi0 & Hn0 & Hp0); [by rewrite Hf|].
  destruct (Hfrom j g Hj) as (g0 & Hj0 & Hn1 & Hp1); [by rewrite Hg|].
  apply (Hu i j f0 g0 p); congruence.
Qed.

(** Changing the rules of a row changes neither its owner nor its name. *)
Lemma owned_rows_from_alter (h : Filter → Filter) k l :
  (∀ f, name (h f) = name f ∧ preference (h f) = preference f) →
  owned_rows_from l (alter (fmap h) k l).
Proof.
  intros Hh i f' Hf' _.
  destruct (decide (k = i)) as [->|Hne].
  - rewrite list_lookup_alter_eq in Hf'.
    destruct (l !! i) as [[f|]|]; simplify_eq/=.
    exists f. split; [done|]. destruct (Hh f). by split.
  - rewrite list_lookup_alter_ne in Hf' by done. eauto.
Qed.

Lemma keeps_filter_names_sem L c s :
  keeps_filter_names c →
  owned_rows_from (filters s) (filters (sem L c s).2).
Proof.
  destruct_call c; simpl; try done; intros _;
    try apply owned_rows_from_refl.
  - (* Preference.get_or_create *)
    unfold preference_get_or_create.
    destruct (preferences s !! _); apply owned_rows_from_refl.
  - (* Filter.create *)
    intros i f' Hf' Ho. unfold filter_create in Hf'. simpl in Hf'.
    apply lookup_app_Some in Hf' as [Hold|[_ Hnew]]; [eauto|].
    destruct (i - length (filters s))%nat; simplify_eq/=.
    by destruct Ho.
  - (* Filter.add_rule *)
    unfold filter_add_rule. destruct (rule_catalog L _ _); simpl;
      [apply owned_rows_from_refl|].
    by apply owned_rows_from_alter.
  - (* Filter.remove_filter *)
    unfold filter_remove_filter.
    destruct (filters s !! xk) as [[f|]|] eqn:Hrow;
      try apply owned_rows_from_refl.
    destruct (remove_first_rule _ _); simpl; [|apply owned_rows_from_refl].
    intros i f' Hf' _.
    destruct (decide (xk = i)) as [->|Hne].
    + rewrite list_lookup_insert_eq in Hf' by (by eapply lookup_lt_Some).
      simplify_eq/=. eauto.
    + rewrite list_lookup_insert_ne in Hf' by done. eauto.
  - (* SESSION.delete *)
    intros i f' Hf' _. unfold session_delete in Hf'. simpl in Hf'.
    destruct (decide (xk = i)) as [->|Hne].
    + destruct (decide (i < length (filters s))%nat).
      * by rewrite list_lookup_insert_eq in Hf'.
      * rewrite list_insert_ge in Hf' by lia. eauto.
    + rewrite list_lookup_insert_ne in Hf' by done. eauto.
  - (* Confirmation.get_or_create *)
    unfold confirmation_get_or_create.
    destruct (list_find _ _) as [[??]|]; apply owned_rows_from_refl.
  - (* Confirmation.set_status *)
    unfold con_set_status.
    destruct xst, (confirmations s !! xk); apply owned_rows_from_refl.
Qed.

Lemma keeps_filter_names_run {A} L (p : Prog A) s :
  Forall keeps_filter_names (trace L p s) →
  unique_filter_names s → unique_filter_names (run L p s).2.
Proof.
  intros Hall Hu. apply (unique_names_from (filters s)); [done|].
  revert Hall.
  apply (run_respects L keeps_filter_names
           (fun s s' => owned_rows_from (filters s) (filters s'))).
  - intros. apply owned_rows_from_refl.
  - intros s1 s2 s3. apply owned_rows_from_trans.
  - intros. by apply keeps_filter_names_sem.
Qed.

(** Walks through a handler, one branch and one call at a time. *)
Ltac walk_calls :=
  repeat (simpl;
    match goal with
    | |- True => exact I
    | |- _ ∧ _ => split
    | |- ∀ _, _ => intro
    | H : Some _ = Some _ |- _ => injection H as <-
    | H : None = Some _ |- _ => discriminate H
    | H : match ?e with _ => _ end = Some _ |- _ => destruct e
    | |- all_calls _ (bind _ _) => apply all_calls_bind
    | |- all_calls _ (try_except _ _) => apply all_calls_try_except
    | |- all_calls _ (if ?b then _ else _) => destruct b
    | |- all_calls _ (match ?x with _ => _ end) => destruct x
    end).

Lemma handle_details_keeps_filter_names env form :
  all_calls keeps_filter_names (handle_details env form).
Proof.
  unfold handle_details, change_detail, change_batch, change_enabled,
    int_or_none, py_int, g_auth_openid, ask, ask_raising.
  walk_calls.
Qed.

Lemma handle_rule_keeps_filter_names env form :
  all_calls keeps_filter_names (handle_rule env form).
Proof.
  unfold handle_rule, except_value_key_error, g_auth_openid, ask, ask_raising.
  walk_calls.
Qed.

Lemma handle_confirmation_keeps_filter_names env action sec :
  all_calls keeps_filter_names
    (login_required env (handle_confirmation env action sec)).
Proof.
  unfold login_required, handle_confirmation, g_auth_openid,
    g_auth_openid_url, ask.
  walk_calls.
Qed.

Lemma filters_preference_get_or_create L o c s :
  filters (preference_get_or_create L o c s) = filters s.
Proof.
  unfold preference_get_or_create. by destruct (preferences s !! _).
Qed.

(** The store after [Filter.create] and [add_filter]. *)
Lemma created_filter_rows q n s :
  filters (pref_add_filter q (length (filters s)) (filter_create n s).2)
  = filters s ++ [Some {| name := n; preference := Some q; rules := [] |}].
Proof.
  unfold pref_add_filter, filter_create. simpl.
  induction (filters s) as [|x l IH]; simpl; [done|]. by f_equal.
Qed.

Lemma unique_names_snoc l q n :
  unique_names l → ¬ Exists (is_filter_of q n) l →
  unique_names (l ++ [Some {| name := n; preference := Some q; rules := [] |}]).
Proof.
  intros Hu Hnone.
  assert (∀ i f, (l ++ [Some {| name := n; preference := Some q;
                                rules := [] |}]) !! i = Some (Some f) →
                 (l !! i = Some (Some f)) ∨
                 (i = length l ∧ name f = n ∧ preference f = Some q)) as Hrow.
  { intros i f Hf. apply lookup_app_Some in Hf as [Hold|[Hge Hnew]]; [by left|].
    right. destruct (i - length l)%nat eqn:E; simplify_eq/=.
    split; [lia|done]. }
  assert (∀ i f p, l !! i = Some (Some f) → preference f = Some p →
                   name f = n → p ≠ q) as Hfresh.
  { intros i f p Hf Hp Hn ->. apply Hnone, Exists_exists.
    exists (Some f). split; [by eapply list_elem_of_lookup_2|done]. }
  intros i j f g p Hi Hj Hf Hg Hn.
  destruct (Hrow i f Hi) as [Hi'|(-> & Hfn & Hfp)],
           (Hrow j g Hj) as [Hj'|(-> & Hgn & Hgp)]; [by eapply Hu| | |done].
  - exfalso. apply (Hfresh i f p Hi' Hf); congruence.
  - exfalso. apply (Hfresh j g p Hj' Hg); congruence.
Qed.

Lemma unique_names_tail x l : unique_names (x :: l) → unique_names l.
Proof.
  intros Hu i j f g p Hi Hj Hf Hg Hn.
  assert (S i = S j) by (by eapply (Hu (S i) (S j))). lia.
Qed.

(** A name that exists in a Preference with unique names exists once. *)
Lemma unique_names_once q n l :
  unique_names l → Exists (is_filter_of q n) l →
  length (filter (is_filter_of q n) l) = 1%nat.
Proof.
  intros Hu Hex. induction l as [|x l IH]; [by apply Exists_nil in Hex|].
  rewrite filter_cons. destruct (decide (is_filter_of q n x)) as [Hx|Hx].
  - rewrite filter_none; [done|]. apply Forall_forall. intros y Hy Hyq.
    apply list_elem_of_lookup in Hy as [j Hj].
    destruct x as [f|], y as [g|]; try done.
    destruct Hx as [Hfp Hfn], Hyq as [Hgp Hgn].
    assert (0%nat = S j) as Habs.
    { apply (Hu 0%nat (S j) f g q); simpl; congruence. }
    discriminate Habs.
  - apply Exists_cons in Hex as [?|Hex]; [done|].
    apply IH; [by eapply unique_names_tail|done].
Qed.

Lemma handle_filter_create L env form s :
  filter_ready env form s →
  upper (py_or (ff_method form) (request_method env)) = "POST" →
  let q := (ff_openid form, ff_context form) in
  let n := ff_filter_name form in
  let s0 := preference_get_or_create L (ff_openid form) (ff_context form) s in
  run L (handle_filter env form) s
  = if pref_has_filter q n s0
    then (Raised (APIError 404 (reason (Fmt "%r already exists" [n]))), s0)
    else (Returned
            [("message", Lit "ok");
             ("url", url_for "filter"
                       [("openid", ff_openid form);
                        ("context", ff_context form); ("filter_name", n)])],
          pref_add_filter q (length (filters s0)) (filter_create n s0).2).
Proof.
  intros (Hvalid & Hmay & Huser & Hctx) Hpost q n s0.
  pose proof Hmay as (who & Hauth & _).
  apply (may_act_check _ _ _ Hauth) in Hmay.
  unfold handle_filter, g_auth_openid.
  rewrite Hvalid, Hauth, Hpost. simpl. rewrite Hmay. simpl.
  rewrite (bool_decide_true (ff_openid form ∈ users s)) by done. simpl.
  rewrite (bool_decide_true (ff_context form ∈ contexts s)) by done. simpl.
  fold q n s0. by destruct (pref_has_filter q n s0).
Qed.

(** Either [handle_filter] never calls [add_filter], or it created a Filter
    under a name the Preference did not have. *)
Lemma handle_filter_cases L env form s :
  Forall keeps_filter_names (trace L (handle_filter env form) s) ∨
  (let q := (ff_openid form, ff_context form) in
   let n := ff_filter_name form in
   let s0 := preference_get_or_create L (ff_openid form) (ff_context form) s in
   pref_has_filter q n s0 = false ∧
   (run L (handle_filter env form) s).2
   = pref_add_filter q (length (filters s0)) (filter_create n s0).2).
Proof.
  unfold handle_filter, g_auth_openid.
  destruct (ff_validate form); simpl; [|by left].
  destruct (g_auth env) as [who|]; simpl; [|by left].
  destruct (bool_decide (openid who ≠ ff_openid form)
            && negb (admin env (openid who))); simpl; [by left|].
  destruct (bool_decide (upper _ ∈ ["POST"; "DELETE"])); simpl; [|by left].
  destruct (bool_decide (ff_openid form ∈ users s)); simpl;
    [|left; by repeat constructor].
  destruct (bool_decide (ff_context form ∈ contexts s)); simpl;
    [|left; by repeat constructor].
  destruct (bool_decide (upper _ = "POST")); simpl.
  - destruct (pref_has_filter _ _ _) eqn:Hhas; simpl;
      [left; by repeat constructor|by right].
  - destruct (bool_decide (upper _ = "DELETE")); simpl;
      [|left; by repeat constructor].
    destruct (pref_get_filter _ _ _) as [[]|k]; simpl; left;
      by repeat constructor.
Qed.

Lemma handle_filter_unique L env form s :
  unique_filter_names s →
  unique_filter_names (run L (handle_filter env form) s).2.
Proof.
  intros Hu.
  destruct (handle_filter_cases L env form s) as [Hkeeps|[Hfresh ->]];
    [by apply keeps_filter_names_run|].
  unfold unique_filter_names. rewrite created_filter_rows.
  rewrite filters_preference_get_or_create. apply unique_names_snoc; [done|].
  unfold pref_has_filter in Hfresh. apply bool_decide_eq_false in Hfresh.
  by rewrite filters_preference_get_or_create in Hfresh.
Qed.

Lemma pref_has_filter_get_or_create L o c q n s :
  pref_has_filter q n (preference_get_or_create L o c s) = pref_has_filter q n s.
Proof.
  unfold pref_has_filter. by rewrite filters_preference_get_or_create.
Qed.

Lemma duplicate_refused L env form s :
  filter_ready env form s →
  upper (py_or (ff_method form) (request_method env)) = "POST" →
  pref_has_filter (ff_openid form, ff_context form) (ff_filter_name form) s
  = true →
  run L (api_method env (handle_filter env form)) s
  = (Returned
       (jsonify_errors
          (reason (Fmt "%r already exists" [ff_filter_name form])) 404),
     preference_get_or_create L (ff_openid form) (ff_context form) s).
Proof.
  intros Hready Hpost Hhas. apply run_api_method_raised.
  rewrite (handle_filter_create L env form s Hready Hpost).
  by rewrite pref_has_filter_get_or_create, Hhas.
Qed.

Lemma created_filter L env form s :
  filter_ready env form s →
  upper (py_or (ff_method form) (request_method env)) = "POST" →
  pref_has_filter (ff_openid form, ff_context form) (ff_filter_name form) s
  = false →
  let s' := (run L (api_method env (handle_filter env form)) s).2 in
  filter_ready env form s' ∧
  pref_has_filter (ff_openid form, ff_context form) (ff_filter_name form) s'
  = true.
Proof.
  intros Hready Hpost Hhas s'.
  assert (s' = pref_add_filter (ff_openid form, ff_context form)
                 (length (filters (preference_get_or_create L (ff_openid form)
                                     (ff_context form) s)))
                 (filter_create (ff_filter_name form)
                    (preference_get_or_create L (ff_openid form)
                       (ff_context form) s)).2) as Hs'.
  { subst s'. rewrite store_api_method.
    rewrite (handle_filter_create L env form s Hready Hpost).
    by rewrite pref_has_filter_get_or_create, Hhas. }
  split.
  - destruct Hready as (Hv & Hm & Hu & Hc). rewrite Hs'.
    repeat split; try done; simpl; unfold preference_get_or_create;
      by destruct (preferences s !! _).
  - unfold pref_has_filter. apply bool_decide_eq_true.
    rewrite Hs', created_filter_rows. apply Exists_app. right.
    by apply Exists_cons_hd.
Qed.

(** C4. A Filter name is never duplicated.  Creating a Filter under a name
    its Preference already has is refused with the "already exists" error
    (an [APIError] with code 404), the Filter rows are left as they were and
    exactly one Filter of that name remains; creating it under a new name
    makes the name exist once, so that creating it again is refused; and
    every operation ([handle_filter], [handle_details], [handle_rule],
    [handle_confirmation]) leaves a store in which names are unique. *)
Theorem duplicate_filter_name_refused L s :
  unique_filter_names s →
  (∀ env form,
     filter_ready env form s →
     upper (py_or (ff_method form) (request_method env)) = "POST" →
     let q := (ff_openid form, ff_context form) in
     let n := ff_filter_name form in
     let create := api_method env (handle_filter env form) in
     let refusal :=
       Returned (jsonify_errors (reason (Fmt "%r already exists" [n])) 404) in
     let s' := (run L create s).2 in
     (pref_has_filter q n s = true →
      (run L create s).1 = refusal ∧
      filters s' = filters s ∧
      length (filters_named q n s') = 1%nat) ∧
     (pref_has_filter q n s = false →
      length (filters_named q n s') = 1%nat ∧
      (run L create s').1 = refusal ∧
      filters (run L create s').2 = filters s')) ∧
  (∀ env form,
     unique_filter_names (run L (api_method env (handle_filter env form)) s).2) ∧
  (∀ env form,
     unique_filter_names (run L (api_method env (handle_details env form)) s).2) ∧
  (∀ env form,
     unique_filter_names (run L (api_method env (handle_rule env form)) s).2) ∧
  (∀ env action sec,
     unique_filter_names
       (run L (login_required env (handle_confirmation env action sec)) s).2).
Proof.
  intros Hu. split; [|split; [|split; [|split]]].
  - intros env form Hready Hpost q n create refusal s'.
    assert (unique_filter_names s') as Hu'.
    { subst s' create. rewrite store_api_method. by apply handle_filter_unique. }
    split.
    + intros Hhas.
      assert (run L create s = (refusal, preference_get_or_create L q.1 q.2 s))
        as Hrun by (by apply duplicate_refused).
      assert (filters s' = filters s) as Hsame.
      { subst s'. rewrite Hrun. apply filters_preference_get_or_create. }
      split; [by rewrite Hrun|]. split; [done|].
      unfold filters_named. rewrite Hsame.
      apply unique_names_once; [done|].
      by apply bool_decide_eq_true in Hhas.
    + intros Hnew.
      destruct (created_filter L env form s Hready Hpost Hnew)
        as [Hready' Hhas'].
      fold create s' q n in Hready', Hhas'.
      split.
      { apply unique_names_once; [done|].
        by apply bool_decide_eq_true in Hhas'. }
      pose proof (duplicate_refused L env form s' Hready' Hpost Hhas')
        as Hagain.
      fold create in Hagain. rewrite Hagain.
      split; [done|]. apply filters_preference_get_or_create.
  - intros env form. rewrite store_api_method. by apply handle_filter_unique.
  - intros env form. rewrite store_api_method.
    apply keeps_filter_names_run; [|done].
    apply all_calls_trace, handle_details_keeps_filter_names.
  - intros env form. rewrite store_api_method.
    apply keeps_filter_names_run; [|done].
    apply all_calls_trace, handle_rule_keeps_filter_names.
  - intros env action sec.
    apply keeps_filter_names_run; [|done].
    apply all_calls_trace, handle_confirmation_keeps_filter_names.
Qed.

Lemma unique_filter_names_store0 : unique_filter_names store0.
Proof.
  intros i j f g p Hi Hj _ _ _.
  destruct i as [|i], j as [|j]; simpl in *; try done.
Qed.

Lemma duplicate_filter_name_refused_witness :
  (run lib0
     (api_method (env_for alice)
        (handle_filter (env_for alice)
           (filter_form "alice" "email" "mine" None)))
     store0).1
  = Returned (jsonify_errors (reason (Fmt "%r already exists" ["mine"])) 404).
Proof.
  destruct (duplicate_filter_name_refused lib0 store0
              unique_filter_names_store0) as [Hdup _].
  assert (filter_ready (env_for alice)
            (filter_form "alice" "email" "mine" None) store0) as Hready.
  { split; [done|]. split; [exists alice; split; [done|by left]|].
    split; simpl; set_solver. }
  destruct (Hdup (env_for alice) (filter_form "alice" "email" "mine" None)
              Hready eq_refl) as [Hhas _].
  apply Hhas. vm_compute. reflexivity.
Defined.

(** ** A token, once resolved *)





















(** ** Identifiers from OpenID urls *)

Lemma prefix_drop_length sep s :
  String.prefix sep s = true →
  String.length s
  = (String.length sep + String.length (drop_chars (String.length sep) s))%nat.
Proof.
  revert s. induction sep as [|a sep IH]; intros s Hp; [done|].
  destruct s as [|b s]; simpl in *; [done|].
  destruct (ascii_dec a b); [|done]. by rewrite <- IH.
Qed.

Lemma partition_unfold sep s :
  partition sep s
  = if String.prefix sep s
    then Some (EmptyString, drop_chars (String.length sep) s)
    else match s with
         | EmptyString => None
         | String c s' =>
             match partition sep s' with
             | Some (a, b) => Some (String c a, b)
             | None => None
             end
         end.
Proof. by destruct s. Qed.

Lemma partition_length sep s a b :
  partition sep s = Some (a, b) →
  String.length s = (String.length a + String.length sep + String.length b)%nat.
Proof.
  revert a b. induction s as [|c s IH]; intros a b; rewrite partition_unfold.
  - destruct (String.prefix sep "") eqn:Hp; [|done].
    intros [= <- <-]. pose proof (prefix_drop_length sep "" Hp). simpl in *. lia.
  - destruct (String.prefix sep (String c s)) eqn:Hp.
    + intros [= <- <-]. pose proof (prefix_drop_length sep _ Hp) as Hl.
      change (String.length "") with 0%nat. lia.
    + destruct (partition sep s) as [[a' b']|]; [|done].
      intros [= <- <-]. simpl. by rewrite (IH a' b').
Qed.

Lemma partition_empty sep : sep ≠ EmptyString → partition sep "" = None.
Proof. by destruct sep. Qed.

(** [String.length s] cuts are enough: more fuel changes nothing. *)
Lemma split_fuel_enough sep n m s :
  sep ≠ EmptyString →
  (String.length s ≤ n)%nat → (String.length s ≤ m)%nat →
  split_fuel n sep s = split_fuel m sep s.
Proof.
  intros Hsep. revert m s. induction n as [|n IH]; intros m s Hn Hm.
  - destruct s; [|simpl in Hn; lia].
    destruct m; cbn [split_fuel]; by rewrite ?partition_empty.
  - destruct m as [|m].
    + destruct s; [|simpl in Hm; lia].
      cbn [split_fuel]. by rewrite partition_empty.
    + cbn [split_fuel].
      destruct (partition sep s) as [[a rest]|] eqn:Hp; [|done].
      apply partition_length in Hp.
      assert (String.length sep ≠ 0)%nat by (by destruct sep).
      f_equal. apply IH; lia.
Qed.

Lemma split_fuel_head n sep s : ∃ x l, split_fuel n sep s = x :: l.
Proof.
  destruct n; cbn [split_fuel]; [by eauto|].
  destruct (partition sep s) as [[a rest]|]; eauto.
Qed.

(** [s.split(sep)] has a second element exactly when [sep in s]. *)
Lemma split_second sep s :
  sep ≠ EmptyString →
  (contains sep s = true → ∃ x, split sep s !! 1%nat = Some x) ∧
  (contains sep s = false → split sep s = [s]).
Proof.
  intros Hsep. unfold contains, split.
  destruct (partition sep s) as [[a rest]|] eqn:Hp.
  - split; [intros _|done].
    pose proof (partition_length _ _ _ _ Hp) as Hlen.
    assert (String.length sep ≠ 0)%nat by (by destruct sep).
    destruct (String.length s) as [|n]; [lia|]. cbn [split_fuel]. rewrite Hp.
    destruct (split_fuel_head n sep rest) as (x & l & ->). by exists x.
  - split; [done|intros _].
    destruct (String.length s); cbn [split_fuel]; by rewrite ?Hp.
Qed.

Lemma index1_split sep s :
  sep ≠ EmptyString →
  (contains sep s = true → ∃ x, index1 (split sep s) = Ret x) ∧
  (contains sep s = false → index1 (split sep s) = Raise IndexError).
Proof.
  intros Hsep. destruct (split_second sep s Hsep) as [Hyes Hno].
  unfold index1. split.
  - intros Hc. destruct (Hyes Hc) as [x ->]. by exists x.
  - intros Hc. by rewrite (Hno Hc).
Qed.

Lemma chars_append s1 s2 :
  list_ascii_of_string (s1 +:+ s2)
  = list_ascii_of_string s1 ++ list_ascii_of_string s2.
Proof. induction s1 as [|c s1 IH]; simpl; [done|]. by rewrite IH. Qed.

Lemma chars_concat c sep l :
  c ∉ list_ascii_of_string sep →
  Forall (fun s => c ∉ list_ascii_of_string s) l →
  c ∉ list_ascii_of_string (String.concat sep l).
Proof.
  intros Hsep. induction 1 as [|x l Hx Hl IH]; simpl.
  - apply not_elem_of_nil.
  - destruct l as [|y l]; [done|].
    rewrite !chars_append, !elem_of_app. intros [?|[?|?]]; auto.
Qed.

Lemma partition_char c s :
  match partition (String c "") s with
  | Some (a, _) => c ∉ list_ascii_of_string a
  | None => c ∉ list_ascii_of_string s
  end.
Proof.
  induction s as [|d s IH]; simpl; [apply not_elem_of_nil|].
  destruct (ascii_dec c d) as [->|Hne]; simpl;
    [destruct s; simpl; apply not_elem_of_nil|].
  destruct (partition (String c "") s) as [[a b]|].
  - simpl. by apply not_elem_of_cons.
  - by apply not_elem_of_cons.
Qed.

Lemma split_fuel_char c n s :
  (String.length s ≤ n)%nat →
  Forall (fun x => c ∉ list_ascii_of_string x) (split_fuel n (String c "") s).
Proof.
  revert s. induction n as [|n IH]; intros s Hn.
  - destruct s; [|simpl in Hn; lia]. cbn [split_fuel].
    constructor; [apply not_elem_of_nil|done].
  - cbn [split_fuel]. pose proof (partition_char c s) as Hc.
    destruct (partition (String c "") s) as [[a rest]|] eqn:Hp.
    + apply partition_length in Hp. simpl in Hp.
      constructor; [done|]. apply IH. lia.
    + by constructor.
Qed.

(** Replacing a character leaves no occurrence of it. *)
Lemma replace_char c new s :
  c ∉ list_ascii_of_string new →
  c ∉ list_ascii_of_string (replace (String c "") new s).
Proof.
  intros Hnew. unfold replace, split.
  apply chars_concat; [done|]. by apply split_fuel_char.
Qed.

Lemma extract_openid_identifier_replaced url o :
  extract_openid_identifier url = Ret o → ∃ x, o = replace "/" "_" x.
Proof.
  unfold extract_openid_identifier, index1.
  destruct (split "://" url !! 1%nat) as [x|]; simpl; [|done].
  set (y := if endswith "/" x then drop_last x else x). clearbody y.
  destruct (contains "id?id=" y); simpl.
  - destruct (split "id?id=" y !! 1%nat) as [z|]; simpl; [|done].
    destruct (contains "me.yahoo.com/a/" z); simpl.
    + destruct (split "me.yahoo.com/a/" z !! 1%nat) as [w|]; simpl; [|done].
      intros [= <-]. eauto.
    + intros [= <-]. eauto.
  - destruct (contains "me.yahoo.com/a/" y); simpl.
    + destruct (split "me.yahoo.com/a/" y !! 1%nat) as [w|]; simpl; [|done].
      intros [= <-]. eauto.
    + intros [= <-]. eauto.
Qed.

(** X1. The identifier [extract_openid_identifier] returns never contains
    a slash, so it always fits in one segment of a url path. *)
Theorem extract_openid_identifier_no_slash url o :
  extract_openid_identifier url = Ret o →
  "/"%char ∉ list_ascii_of_string o.
Proof.
  intros H. apply extract_openid_identifier_replaced in H as [x ->].
  apply replace_char. vm_compute. by intros [|[]%elem_of_nil]%elem_of_cons.
Qed.

Lemma extract_openid_identifier_no_slash_witness :
  "/"%char ∉ list_ascii_of_string "kevin_o8_id".
Proof.
  apply (extract_openid_identifier_no_slash "https://kevin/o8/id/").
  reflexivity.
Defined.

(** X2. [extract_openid_identifier] fails exactly on a url without "://",
    and then with the [IndexError] of [split('://')[1]]; on every other url
    it returns an identifier (the later splits are guarded by [in]). *)
Theorem extract_openid_identifier_defined url :
  (contains "://" url = true → ∃ o, extract_openid_identifier url = Ret o) ∧
  (contains "://" url = false →
   extract_openid_identifier url = Raise IndexError).
Proof.
  unfold extract_openid_identifier.
  destruct (index1_split "://" url) as [Hyes Hno]; [done|]. split.
  - intros Hc. destruct (Hyes Hc) as [x ->]. simpl.
    set (y := if endswith "/" x then drop_last x else x). clearbody y.
    destruct (index1_split "id?id=" y) as [Hid _]; [done|].
    destruct (contains "id?id=" y).
    + destruct (Hid eq_refl) as [z ->]. simpl.
      destruct (index1_split "me.yahoo.com/a/" z) as [Hya _]; [done|].
      destruct (contains "me.yahoo.com/a/" z); [|simpl; eauto].
      destruct (Hya eq_refl) as [w ->]. simpl. eauto.
    + simpl.
      destruct (index1_split "me.yahoo.com/a/" y) as [Hya _]; [done|].
      destruct (contains "me.yahoo.com/a/" y); [|simpl; eauto].
      destruct (Hya eq_refl) as [w ->]. simpl. eauto.
  - intros Hc. by rewrite (Hno Hc).
Qed.

Lemma extract_openid_identifier_defined_witness :
  extract_openid_identifier "ralph.id.fedoraproject.org" = Raise IndexError.
Proof.
  apply (extract_openid_identifier_defined "ralph.id.fedoraproject.org").
  reflexivity.
Defined.

(** ** Sessions *)

(** X3. After [logout], [check_auth] finds an anonymous caller, whatever
    the session held: the [Bunch] has [logged_in] unset and no [openid]. *)
Theorem logout_is_anonymous (session : Session) :
  check_auth (logout session).2 = Ret anonymous.
Proof.
  unfold logout, check_auth. simpl.
  destruct (bool_decide (is_Some (session !! "openid"))) eqn:E.
  - rewrite lookup_delete_eq. by rewrite bool_decide_false by (by intros [? ?]).
  - by rewrite E.
Qed.

Lemma session_after_login resp next (session : Session) url :
  identity_url resp = Some url → url ≠ "" →
  let session' := (after_openid_login resp next session).2 in
  session' !! "openid" = Some (Some url) ∧
  session_get "fullname" session' = resp_fullname resp ∧
  session_get "nickname" session'
  = py_or_opt (resp_nickname resp) (resp_fullname resp) ∧
  session_get "email" session' = resp_email resp.
Proof.
  intros Hurl Hne. unfold after_openid_login, session_get.
  rewrite Hurl. simpl. rewrite bool_decide_false by done. simpl.
  by repeat first [rewrite lookup_insert_eq | rewrite lookup_insert_ne by done].
Qed.

(** X4. A successful OpenID login is what [check_auth] sees on the next
    request: when the provider returned a non-empty identity url from
    which an identifier can be extracted, the caller is logged in under
    that identifier, with the url, full name and e-mail of the reply and
    with the nickname falling back to the full name.  A reply without an
    identity url leaves the session as it was. *)
Theorem login_then_check_auth resp next (session : Session) url o :
  identity_url resp = Some url → url ≠ "" →
  extract_openid_identifier url = Ret o →
  check_auth (after_openid_login resp next session).2
  = Ret {| b_logged_in := true; b_method := Some "openid"; b_id := None;
           b_identity := Some {| openid := o; openid_url := url |};
           b_fullname := resp_fullname resp;
           b_nickname := py_or_opt (resp_nickname resp) (resp_fullname resp);
           b_email := resp_email resp |} ∧
  ∀ resp', truthy (identity_url resp') = false →
    (after_openid_login resp' next session).2 = session.
Proof.
  intros Hurl Hne Ho. split.
  - destruct (session_after_login resp next session url Hurl Hne)
      as (Hopenid & Hfull & Hnick & Hemail).
    unfold check_auth.
    set (session' := (after_openid_login resp next session).2) in *.
    rewrite bool_decide_true by (by rewrite Hopenid).
    unfold session_get at 1 2. rewrite Hopenid. simpl.
    rewrite Ho, Hfull, Hnick, Hemail. done.
  - intros resp' Hfalsy. unfold after_openid_login. by rewrite Hfalsy.
Qed.

Lemma login_then_check_auth_witness :
  check_auth
    (after_openid_login
       {| identity_url := Some "http://ralph.id.fedoraproject.org/";
          resp_fullname := Some "Ralph"; resp_nickname := None;
          resp_email := None |}
       None ∅).2
  = Ret {| b_logged_in := true; b_method := Some "openid"; b_id := None;
           b_identity :=
             Some {| openid := "ralph.id.fedoraproject.org";
                     openid_url := "http://ralph.id.fedoraproject.org/" |};
           b_fullname := Some "Ralph"; b_nickname := Some "Ralph";
           b_email := None |}.
Proof.
  apply (login_then_check_auth
           {| identity_url := Some "http://ralph.id.fedoraproject.org/";
              resp_fullname := Some "Ralph"; resp_nickname := None;
              resp_email := None |}
           None ∅ "http://ralph.id.fedoraproject.org/"
           "ralph.id.fedoraproject.org").
  - reflexivity.
  - discriminate.
  - reflexivity.
Defined.

(** X5. What [check_auth] leaves in [flask.g.auth]: the attribute [openid]
    exists exactly when [logged_in] is set, which is exactly when the
    session has an 'openid' key; and the identifier never contains a
    slash. *)
Theorem check_auth_identity (session : Session) auth :
  check_auth session = Ret auth →
  (b_logged_in auth = true ↔ is_Some (session !! "openid")) ∧
  (b_logged_in auth = true ↔ is_Some (b_identity auth)) ∧
  ∀ who, b_identity auth = Some who →
         "/"%char ∉ list_ascii_of_string (openid who).
Proof.
  unfold check_auth.
  destruct (bool_decide (is_Some (session !! "openid"))) eqn:E.
  - apply bool_decide_eq_true in E.
    destruct (session_get "openid" session) as [url|]; simpl; [|done].
    destruct (extract_openid_identifier url) as [o|e|c k] eqn:Ho;
      simpl; [|done..].
    intros [= <-]. simpl. split; [done|]. split; [by split; eauto|].
    intros who [= <-]. simpl.
    apply extract_openid_identifier_replaced in Ho as [x ->].
    apply replace_char. vm_compute.
    by intros [|[]%elem_of_nil]%elem_of_cons.
  - apply bool_decide_eq_false in E. intros [= <-]. simpl.
    split; [by split|]. split; [split; [done|by intros [? ?]]|done].
Qed.

Lemma check_auth_identity_witness :
  is_Some (({[ "openid" := Some "https://me.yahoo.com/a/xyz" ]} : Session)
           !! "openid").
Proof.
  apply (check_auth_identity
           {[ "openid" := Some "https://me.yahoo.com/a/xyz" ]}
           {| b_logged_in := true; b_method := Some "openid"; b_id := None;
              b_identity := Some {| openid := "xyz";
                                    openid_url := "https://me.yahoo.com/a/xyz" |};
              b_fullname := None; b_nickname := None; b_email := None |}).
  - vm_compute. reflexivity.
  - reflexivity.
Defined.

(** ** The decorators *)

(** X6. What [api_method] does to any view: it makes no call and changes
    nothing in the store; a result becomes a redirect for a browser (when
    it has a 'url') and JSON with status 200 otherwise; an [APIError]
    becomes a JSON body with the error's own status code; every other
    exception passes through unchanged, so the decorated view raises only
    what the view raised outside [APIError]. *)
Theorem api_method_outcome L env (p : Prog Result) s :
  trace L (api_method env p) s = trace L p s ∧
  (run L (api_method env p) s).2 = (run L p s).2 ∧
  (run L (api_method env p) s).1
  = match (run L p s).1 with
    | Returned result =>
        match dict_get "url" result with
        | Some url =>
            Returned (if wants_html env then redirect url
                      else jsonify result 200)
        | None => Returned (jsonify result 200)
        end
    | Raised (APIError status_code errors) =>
        Returned (jsonify_errors errors status_code)
    | Raised e => Raised e
    end ∧
  ∀ e, (run L (api_method env p) s).1 = Raised e →
       (run L p s).1 = Raised e ∧ ∀ code errors, e ≠ APIError code errors.
Proof.
  split; [apply trace_api_method|]. split; [apply store_api_method|].
  assert ((run L (api_method env p) s).1
          = match (run L p s).1 with
            | Returned result =>
                match dict_get "url" result with
                | Some url =>
                    Returned (if wants_html env then redirect url
                              else jsonify result 200)
                | None => Returned (jsonify result 200)
                end
            | Raised (APIError status_code errors) =>
                Returned (jsonify_errors errors status_code)
            | Raised e => Raised e
            end) as Hout.
  { unfold api_method. rewrite run_try_except, run_bind.
    destruct (run L p s) as [[r|e] s1]; simpl.
    - by destruct (dict_get "url" r); [destruct (wants_html env)|].
    - by destruct e. }
  split; [exact Hout|].
  intros e. rewrite Hout.
  destruct (run L p s) as [[r|e'] s1]; simpl.
  - by destruct (dict_get "url" r).
  - destruct e'; intros [= <-]; by split.
Qed.

(** X7. What [login_required] does to any view: for an anonymous caller
    the view does not run; the only call is the flash of 'Login required',
    the store is untouched and the answer is a redirect to the login page
    that carries the requested url.  For a caller who is logged in the
    view runs on the store in which the caller's User row exists. *)
Theorem login_required_outcome L env (view : Prog Response) s :
  (g_auth env = None →
   run L (login_required env view) s
   = (Returned (redirect (url_for "login" [("next", request_url env)])), s) ∧
   trace L (login_required env view) s = [flash "Login required" "errors"]) ∧
  (∀ who, g_auth env = Some who →
     let s0 := with_users s ({[openid who]} ∪ users s) in
     openid who ∈ users s0 ∧
     run L (login_required env view) s = run L view s0 ∧
     trace L (login_required env view) s
     = User_get_or_create (openid who) (openid_url who) :: trace L view s0).
Proof.
  unfold login_required, logged_in, g_auth_openid, g_auth_openid_url. split.
  - intros ->. by rewrite bool_decide_false by (by intros [? ?]).
  - intros who ->. rewrite bool_decide_true by eauto. simpl.
    split; [set_solver|done].
Qed.

Lemma login_required_outcome_witness :
  trace lib0
    (login_required
       {| g_auth := None; FMN_ADMINS := []; fmn_verify_delivery_details := None;
          request_method := "GET";
          request_url := "http://localhost:5000/confirm/accept/k";
          request_form := []; wants_html := true |}
       (handle_confirmation (env_for alice) "accept" "k"))
    store1
  = [flash "Login required" "errors"].
Proof.
  apply (login_required_outcome lib0
           {| g_auth := None; FMN_ADMINS := [];
              fmn_verify_delivery_details := None;
              request_method := "GET";
              request_url := "http://localhost:5000/confirm/accept/k";
              request_form := []; wants_html := true |}
           (handle_confirmation (env_for alice) "accept" "k") store1).
  reflexivity.
Defined.

(** ** [int_or_none] *)

Lemma lstrip_spaces a l :
  Forall (fun c => is_space c = true) a → lstrip (a ++ l) = lstrip l.
Proof. induction 1 as [|c a Hc _ IH]; simpl; [done|]. by rewrite Hc. Qed.

Lemma lstrip_head c l : is_space c = false → lstrip (c :: l) = c :: l.
Proof. intros H. simpl. by rewrite H. Qed.

Lemma lstrip_split l :
  ∃ a, l = a ++ lstrip l ∧ Forall (fun c => is_space c = true) a.
Proof.
  induction l as [|c l (a & Hl & Ha)]; simpl; [by exists []|].
  destruct (is_space c) eqn:Hc.
  - exists (c :: a). split; [simpl; congruence|by constructor].
  - by exists [].
Qed.

Lemma strip_split l :
  ∃ a b, l = a ++ strip l ++ b ∧
         Forall (fun c => is_space c = true) a ∧
         Forall (fun c => is_space c = true) b.
Proof.
  destruct (lstrip_split l) as (a & Hl & Ha).
  destruct (lstrip_split (rev (lstrip l))) as (b & Hr & Hb).
  exists a, (rev b). split; [|split; [done|by apply Forall_rev]].
  unfold strip. rewrite <- rev_app_distr, <- Hr, rev_involutive. exact Hl.
Qed.

Lemma strip_core a m b c d m' :
  Forall (fun c => is_space c = true) a →
  Forall (fun c => is_space c = true) b →
  m = c :: m' → is_space c = false →
  last m = Some d → is_space d = false →
  strip (a ++ m ++ b) = m.
Proof.
  intros Ha Hb Hm Hc Hlast Hd. unfold strip.
  rewrite lstrip_spaces by done.
  assert (lstrip (m ++ b) = m ++ b) as ->
    by (rewrite Hm; by apply lstrip_head).
  rewrite rev_app_distr, lstrip_spaces by (by apply Forall_rev).
  apply last_Some in Hlast as [m'' ->].
  rewrite rev_app_distr. simpl. rewrite Hd. simpl.
  by rewrite rev_involutive.
Qed.

Lemma digit_of_is_digit c d :
  digit_of c = Some d ↔ is_digit c = true ∧ d = Z.of_nat (nat_of_ascii c) - 48.
Proof.
  unfold digit_of, is_digit.
  destruct (Z.leb_spec 48 (Z.of_nat (nat_of_ascii c))),
    (Z.leb_spec (Z.of_nat (nat_of_ascii c)) 57),
    (Nat.leb_spec 48 (nat_of_ascii c)), (Nat.leb_spec (nat_of_ascii c) 57);
    simpl; try lia; split; try (intros [??]; congruence); try congruence.
  intros [= <-]. done.
Qed.

Lemma digits_value_spec ds : ∀ acc z,
  digits_value acc ds = Some z ↔
  Forall (fun c => is_digit c = true) ds ∧
  z = foldl (fun acc c => 10 * acc + (Z.of_nat (nat_of_ascii c) - 48)) acc ds.
Proof.
  induction ds as [|c ds IH]; intros acc z; simpl.
  - split; [by intros [= <-]|by intros [_ ->]].
  - destruct (digit_of c) as [d|] eqn:Hd.
    + apply digit_of_is_digit in Hd as [Hc ->]. rewrite IH. split.
      * intros [Hds ->]. split; [by constructor|done].
      * intros [Hds ->]. apply Forall_cons in Hds as [_ Hds]. done.
    + split; [done|]. intros [Hds _]. apply Forall_cons in Hds as [Hc _].
      assert (digit_of c = Some (Z.of_nat (nat_of_ascii c) - 48)) as E
        by (by apply digit_of_is_digit).
      congruence.
Qed.

Lemma unsigned_literal_spec ds z :
  unsigned_literal ds = Some z ↔
  ds ≠ [] ∧ Forall (fun c => is_digit c = true) ds ∧ z = decimal_value ds.
Proof.
  unfold unsigned_literal, decimal_value. destruct ds as [|c ds].
  - split; [done|by intros [? _]].
  - rewrite digits_value_spec. split; [by intros [??]|by intros (_ & ? & ?)].
Qed.

Lemma int_literal_unfold s :
  int_literal s =
    match strip (list_ascii_of_string s) with
    | c :: ds =>
        if bool_decide (c = "+"%char) then unsigned_literal ds
        else if bool_decide (c = "-"%char) then Z.opp <$> unsigned_literal ds
        else unsigned_literal (c :: ds)
    | [] => None
    end.
Proof.
  unfold int_literal. destruct (strip _) as [|c ds]; [done|].
  destruct c as [[] [] [] [] [] [] [] []]; reflexivity.
Qed.

Lemma digit_not_space c : is_digit c = true → is_space c = false.
Proof. by destruct c as [[] [] [] [] [] [] [] []]. Qed.

Lemma digit_not_sign c :
  is_digit c = true → c ≠ "+"%char ∧ c ≠ "-"%char.
Proof. by destruct c as [[] [] [] [] [] [] [] []]. Qed.

Lemma int_literal_spec t z : int_literal t = Some z ↔ decimal_literal t z.
Proof.
  rewrite int_literal_unfold. unfold decimal_literal. split.
  - destruct (strip_split (list_ascii_of_string t)) as (a & b & Hl & Ha & Hb).
    destruct (strip _) as [|c ds]; [done|].
    case_bool_decide as Hplus; [|case_bool_decide as Hminus].
    + subst c. intros Hz. apply unsigned_literal_spec in Hz as (? & ? & ->).
      exists a, ["+"%char], ds, b. auto 10.
    + subst c. intros Hz. apply fmap_Some in Hz as (z' & Hz & ->).
      apply unsigned_literal_spec in Hz as (? & ? & ->).
      exists a, ["-"%char], ds, b. auto 10.
    + intros Hz. apply unsigned_literal_spec in Hz as (? & ? & ->).
      exists a, [], (c :: ds), b. auto 10.
  - intros (a & sg & ds & b & -> & Ha & Hb & Hne & Hds & Hz).
    assert (∃ l d, ds = l ++ [d]) as (l & d & Hlast).
    { apply last_is_Some in Hne as [d Hd]. apply last_Some in Hd as [l ->].
      eauto. }
    assert (is_space d = false) as Hd.
    { apply digit_not_space. rewrite Hlast in Hds.
      apply Forall_app in Hds as [_ Hds]. by apply Forall_cons in Hds as [? _]. }
    assert (∀ c m', sg ++ ds = c :: m' → is_space c = false →
              strip (a ++ sg ++ ds ++ b) = sg ++ ds) as Hstrip.
    { intros c m' Hm Hc. rewrite (app_assoc sg ds b).
      apply (strip_core a (sg ++ ds) b c d m'); try done.
      rewrite Hlast, app_assoc. apply last_snoc. }
    destruct Hz as [[-> ->]|[[-> ->]|[-> ->]]].
    + destruct ds as [|c m']; [done|].
      pose proof (Forall_inv Hds) as Hc. simpl in Hc.
      rewrite (Hstrip c m') by (done || by apply digit_not_space).
      cbn [app].
      destruct (digit_not_sign c Hc) as [? ?].
      rewrite !bool_decide_false by done.
      by apply unsigned_literal_spec.
    + rewrite (Hstrip "+"%char ds) by done. cbn [app].
      rewrite bool_decide_true by done.
      by apply unsigned_literal_spec.
    + rewrite (Hstrip "-"%char ds) by done. cbn [app].
      rewrite bool_decide_false, bool_decide_true by done.
      apply fmap_Some. exists (decimal_value ds). split; [|done].
      by apply unsigned_literal_spec.
Qed.

(** X8. The four things [int_or_none] can do, and when.  It returns
    [None] exactly for the text "<disabled>" and raises the 400 [APIError]
    exactly for the value [None].  For text of printable characters with
    no underscore it returns the integer [z] exactly when the text reads as
    [z]: white space, an optional sign, one or more decimal digits, white
    space; and every other such text but "<disabled>", the empty string
    included, raises the [ValueError] of [int], which is no [APIError]. *)
Theorem int_or_none_cases (value : option string) :
  (int_or_none value = Ret None ↔ value = Some "<disabled>") ∧
  (int_or_none value = Raise (APIError 400 not_an_integer) ↔ value = None) ∧
  (∀ t, value = Some t → printable t = true → contains "_" t = false →
     (∀ z, int_or_none value = Ret (Some z) ↔ decimal_literal t z) ∧
     (int_or_none value
      = Raise (ValueError "invalid literal for int() with base 10") ↔
      t ≠ "<disabled>" ∧ ∀ z, ¬ decimal_literal t z)).
Proof.
  assert (int_literal "<disabled>" = None) as Hdis by reflexivity.
  unfold int_or_none, py_int.
  destruct (bool_decide (value = Some "<disabled>")) eqn:E.
  - apply bool_decide_eq_true in E as ->.
    split; [done|]. split; [done|].
    intros t [= <-] _ _. split.
    + intros z. rewrite <- int_literal_spec, Hdis. by split.
    + split; [done|]. by intros [? _].
  - apply bool_decide_eq_false in E.
    destruct value as [t|]; simpl.
    + destruct (int_literal t) as [z|] eqn:Hz; simpl.
      * split; [by split|]. split; [by split|].
        intros t' [= <-] _ _. split.
        -- intros z'. rewrite <- int_literal_spec, Hz.
           split; congruence.
        -- split; [done|]. intros [_ Hno]. destruct (Hno z).
           by apply int_literal_spec.
      * split; [by split|]. split; [by split|].
        intros t' [= <-] _ _. split.
        -- intros z'. rewrite <- int_literal_spec, Hz. by split.
        -- split; [|done]. intros _. split; [congruence|].
           intros z. rewrite <- int_literal_spec, Hz. done.
    + split; [by split|]. split; [by split|]. by intros t [=].
Qed.

Lemma int_or_none_cases_witness :
  int_or_none (Some " -42 ") = Ret (Some (-42)) ↔
  decimal_literal " -42 " (-42).
Proof.
  destruct (int_or_none_cases (Some " -42 ")) as (_ & _ & Htext).
  destruct (Htext " -42 " eq_refl eq_refl eq_refl) as [Hint _].
  apply Hint.
Defined.

(** ** More on the details update *)

Lemma change_detail_rejected L env o c value s e :
  value ≠ "" →
  current_detail s (o, c) ≠ Some value →
  detail_validator L c value = Some e →
  run L (change_detail env o c (o, c) (Some value)) s
    = (Raised (APIError 403 (reason (Lit (exn_str e)))), s) ∧
  trace L (change_detail env o c (o, c) (Some value)) s
    = [Pref_detail_value (o, c); validate_detail_value c value].
Proof.
  intros Hne Hchange Hbad. unfold change_detail.
  rewrite bool_decide_false by done. simpl.
  rewrite bool_decide_true by (by intros ?). simpl.
  rewrite Hbad. done.
Qed.

(** X9. A detail value the validator rejects stops the whole update: the
    answer is the 403 error with the validator's message, and nothing that
    was posted with it is applied; after the validator no call is made, so
    no Confirmation is created and the batch values and the enabled flag
    stay, even when the request also posted them. *)
Theorem rejected_detail_stops_update L env form s value e :
  details_ready env form s →
  df_detail_value form = Some value →
  value ≠ "" →
  current_detail s (df_openid form, df_context form) ≠ Some value →
  detail_validator L (df_context form) value = Some e →
  let o := df_openid form in
  let c := df_context form in
  run L (api_method env (handle_details env form)) s
  = (Returned (jsonify_errors (reason (Lit (exn_str e))) 403),
     preference_get_or_create L o c s) ∧
  trace L (api_method env (handle_details env form)) s
  = [User_by_openid o; Context_by_name c; Preference_get_or_create o c;
     Pref_detail_value (o, c); validate_detail_value c value] ∧
  confirmations (run L (api_method env (handle_details env form)) s).2
  = confirmations s ∧
  current_batch (run L (api_method env (handle_details env form)) s).2 (o, c)
  = current_batch s (o, c).
Proof.
  intros Hready Hvalue Hne Hchange Hbad o c.
  destruct (handle_details_ready L env form s Hready) as [Hrun Htrace].
  subst o c.
  set (o := df_openid form) in *. set (c := df_context form) in *.
  set (s0 := preference_get_or_create L o c s) in *.
  assert (current_detail s0 (o, c) ≠ Some value) as Hchange0.
  { unfold s0. by rewrite current_detail_get_or_create. }
  destruct (change_detail_rejected L env o c value s0 e Hne Hchange0 Hbad)
    as [Hd Hdt].
  assert (run L (handle_details env form) s
          = (Raised (APIError 403 (reason (Lit (exn_str e)))), s0)) as Hraised.
  { rewrite Hrun. unfold details_blocks. fold o c.
    by rewrite Hvalue, run_bind, Hd. }
  rewrite (run_api_method_raised _ _ _ _ _ _ _ Hraised).
  split; [done|]. split.
  { rewrite trace_api_method, Htrace. unfold details_blocks. fold o c.
    rewrite Hvalue, trace_bind, Hd, Hdt. done. }
  split; [apply confirmations_preference_get_or_create|].
  apply current_batch_get_or_create.
Qed.

Lemma rejected_detail_stops_update_witness :
  current_batch
    (run lib0
       (api_method (env_for alice)
          (handle_details (env_for alice)
             (details_form "alice" "email" (Some "nobody") (Some "60")
                (Some "5") (Some "on"))))
       store0).2
    ("alice", "email")
  = current_batch store0 ("alice", "email").
Proof.
  apply (rejected_detail_stops_update lib0 (env_for alice)
           (details_form "alice" "email" (Some "nobody") (Some "60")
              (Some "5") (Some "on"))
           store0 "nobody" (ValueError "Invalid detail")).
  - apply details_ready_alice.
  - reflexivity.
  - discriminate.
  - vm_compute. discriminate.
  - reflexivity.
Defined.

Lemma change_detail_direct L env o c value s :
  value ≠ "" →
  current_detail s (o, c) ≠ Some value →
  detail_validator L c value = None →
  default true (fmn_verify_delivery_details env) = false →
  run L (change_detail env o c (o, c) (Some value)) s
    = (Returned tt,
       with_preferences s
         (alter (set_detail_value (Some value)) (o, c) (preferences s))) ∧
  trace L (change_detail env o c (o, c) (Some value)) s
    = [Pref_detail_value (o, c); validate_detail_value c value;
       Pref_update_details (o, c) value].
Proof.
  intros Hne Hchange Hok Hverify. unfold change_detail.
  rewrite bool_decide_false by done. simpl.
  rewrite bool_decide_true by (by intros ?). simpl.
  rewrite Hok. simpl. rewrite Hverify. done.
Qed.

(** X10. With [fmn.verify_delivery_details] switched off a valid new detail
    value is written to the Preference at once: after the update the
    Preference shows the posted value, and no Confirmation was asked for,
    read or changed. *)
Theorem unverified_detail_written_at_once L env form s value :
  details_ready env form s →
  default true (fmn_verify_delivery_details env) = false →
  df_detail_value form = Some value →
  value ≠ "" →
  current_detail s (df_openid form, df_context form) ≠ Some value →
  detail_validator L (df_context form) value = None →
  let q := (df_openid form, df_context form) in
  let t := trace L (api_method env (handle_details env form)) s in
  let s' := (run L (api_method env (handle_details env form)) s).2 in
  current_detail s' q = Some value ∧
  Pref_update_details q value ∈ t ∧
  List.filter is_confirmation_call t = [] ∧
  confirmations s' = confirmations s.
Proof.
  intros Hready Hverify Hvalue Hne Hchange Hok q t s'.
  destruct (handle_details_ready L env form s Hready) as [Hrun Htrace].
  set (o := df_openid form) in *. set (c := df_context form) in *.
  set (s0 := preference_get_or_create L o c s) in *.
  assert (current_detail s0 (o, c) ≠ Some value) as Hchange0.
  { unfold s0. by rewrite current_detail_get_or_create. }
  destruct (change_detail_direct L env o c value s0 Hne Hchange0 Hok Hverify)
    as [Hd Hdt].
  set (s1 := with_preferences s0
               (alter (set_detail_value (Some value)) (o, c) (preferences s0)))
    in *.
  set (rest := change_batch (o, c) (df_batch_delta form) (df_batch_count form) ;;;
               change_enabled (o, c) (df_toggle_enable form) ;;;
               Ret [("message", Lit "ok");
                    ("url", url_for "context" [("openid", o); ("context", c)])]).
  assert (Forall (quiet_call (o, c)) (trace L rest s1)) as Hquiet
    by apply all_calls_trace, batch_enabled_quiet.
  assert (run L (details_blocks env form) s0 = run L rest s1) as Hblocks.
  { unfold details_blocks. fold o c. by rewrite Hvalue, run_bind, Hd. }
  assert (t = [User_by_openid o; Context_by_name c;
               Preference_get_or_create o c]
              ++ [Pref_detail_value (o, c); validate_detail_value c value;
                  Pref_update_details (o, c) value]
              ++ trace L rest s1) as Ht.
  { subst t. rewrite trace_api_method, Htrace. f_equal.
    unfold details_blocks. fold o c.
    by rewrite Hvalue, trace_bind, Hd, Hdt. }
  assert (details_frame (o, c) s1 s') as (_ & _ & _ & Hconf & Hdet & _).
  { subst s'. rewrite store_api_method, Hrun, Hblocks.
    by apply quiet_trace_frame. }
  split.
  { rewrite Hdet. unfold current_detail, s1. simpl.
    destruct (preference_created L o c s) as [r Hr]. fold s0 in Hr.
    by rewrite lookup_alter_eq, Hr. }
  split.
  { rewrite Ht. apply elem_of_app. right. apply elem_of_app. left.
    subst q. set_solver. }
  split.
  { rewrite Ht, !List.filter_app, (quiet_no_confirmation_call _ _ Hquiet).
    done. }
  rewrite Hconf. apply confirmations_preference_get_or_create.
Qed.

Lemma unverified_detail_written_at_once_witness :
  let env :=
    {| g_auth := Some alice; FMN_ADMINS := [];
       fmn_verify_delivery_details := Some false;
       request_method := "POST"; request_url := "";
       request_form := []; wants_html := false |} in
  current_detail
    (run lib0
       (api_method env
          (handle_details env
             (details_form "alice" "email" (Some "alice@example.com")
                None None None)))
       store0).2
    ("alice", "email")
  = Some "alice@example.com".
Proof.
  apply (unverified_detail_written_at_once lib0
           {| g_auth := Some alice; FMN_ADMINS := [];
              fmn_verify_delivery_details := Some false;
              request_method := "POST"; request_url := "";
              request_form := []; wants_html := false |}
           (details_form "alice" "email" (Some "alice@example.com")
              None None None)
           store0 "alice@example.com").
  - split; [done|]. split; [exists alice; split; [done|by left]|].
    split; simpl; set_solver.
  - reflexivity.
  - reflexivity.
  - discriminate.
  - vm_compute. discriminate.
  - reflexivity.
Defined.

(** X11. The update is not all-or-nothing.  When a valid new detail value
    is posted together with batch fields that [int_or_none] refuses (one of
    them left out), the answer is the 400 error, yet the pending
    Confirmation for the new value has already been written. *)
Theorem detail_kept_when_batch_refused L env form s value :
  details_ready env form s →
  default true (fmn_verify_delivery_details env) = true →
  df_detail_value form = Some value →
  value ≠ "" →
  current_detail s (df_openid form, df_context form) ≠ Some value →
  detail_validator L (df_context form) value = None →
  (df_batch_delta form = None ∧ truthy (df_batch_count form) = true) ∨
  ((∃ d, int_or_none (df_batch_delta form) = Ret d) ∧
   df_batch_count form = None) →
  let out := (run L (api_method env (handle_details env form)) s).1 in
  let s' := (run L (api_method env (handle_details env form)) s).2 in
  out = Returned (jsonify_errors not_an_integer 400) ∧
  ∃ k x, confirmations s' !! k = Some x ∧
         is_confirmation_of (df_openid form) (df_context form) x ∧
         con_detail_value x = Some value ∧ status x = pending.
Proof.
  intros Hready Hverify Hvalue Hne Hchange Hok Hbatch out s'.
  destruct (handle_details_ready L env form s Hready) as [Hrun _].
  set (o := df_openid form) in *. set (c := df_context form) in *.
  set (s0 := preference_get_or_create L o c s) in *.
  assert (current_detail s0 (o, c) ≠ Some value) as Hchange0.
  { unfold s0. by rewrite current_detail_get_or_create. }
  destruct (change_detail_confirm L env o c value s0 Hne Hchange0 Hok Hverify)
    as [Hd _].
  assert (run L (handle_details env form) s
          = (Raised (APIError 400 not_an_integer),
             request_confirmation L o c value s0)) as Hraised.
  { rewrite Hrun. unfold details_blocks. fold o c.
    rewrite Hvalue, run_bind, Hd, run_bind.
    by rewrite (change_batch_one_missing L (o, c) _ _ _ Hbatch). }
  subst out s'. rewrite (run_api_method_raised _ _ _ _ _ _ _ Hraised).
  split; [done|]. simpl.
  destruct (request_confirmation_row L o c value s0) as (x & Hx).
  eauto.
Qed.

Lemma detail_kept_when_batch_refused_witness :
  (run lib0
     (api_method (env_for alice)
        (handle_details (env_for alice)
           (details_form "alice" "email" (Some "alice@example.com")
              (Some "60") None None)))
     store0).1
  = Returned (jsonify_errors not_an_integer 400).
Proof.
  apply (detail_kept_when_batch_refused lib0 (env_for alice)
           (details_form "alice" "email" (Some "alice@example.com")
              (Some "60") None None)
           store0 "alice@example.com").
  - apply details_ready_alice.
  - reflexivity.
  - reflexivity.
  - discriminate.
  - vm_compute. discriminate.
  - reflexivity.
  - right. split; [|done]. by exists (Some 60).
Defined.

(** ** Unknown users, contexts and methods *)

Lemma may_act_passes env target :
  may_act env target →
  ∃ who, g_auth env = Some who ∧
         bool_decide (openid who ≠ target) && negb (admin env (openid who))
         = false.
Proof.
  intros Hmay. pose proof Hmay as (who & Hauth & _). exists who.
  split; [done|]. by apply (may_act_check _ _ _ Hauth).
Qed.

(** X12. A request on behalf of an openid that is no User is refused with
    403 '... is not a user' by all three API handlers, after the one call
    that looks the user up: no Preference row is created for it and the
    store is unchanged. *)
Theorem unknown_user_refused L env s :
  (∀ form,
     ff_validate form = true → may_act env (ff_openid form) →
     upper (py_or (ff_method form) (request_method env)) ∈ ["POST"; "DELETE"] →
     ff_openid form ∉ users s →
     run L (api_method env (handle_filter env form)) s
     = (Returned (jsonify_errors
                    (reason (Fmt "%r is not a user" [ff_openid form])) 403), s) ∧
     trace L (api_method env (handle_filter env form)) s
     = [User_by_openid (ff_openid form)]) ∧
  (∀ form,
     df_validate form = true → may_act env (df_openid form) →
     df_openid form ∉ users s →
     run L (api_method env (handle_details env form)) s
     = (Returned (jsonify_errors
                    (reason (Fmt "%r is not a user" [df_openid form])) 403), s) ∧
     trace L (api_method env (handle_details env form)) s
     = [User_by_openid (df_openid form)]) ∧
  (∀ form,
     rf_validate form = true → may_act env (rf_openid form) →
     upper (py_or (rf_method form) (request_method env)) ∈ ["POST"; "DELETE"] →
     rf_openid form ∉ users s →
     run L (api_method env (handle_rule env form)) s
     = (Returned (jsonify_errors
                    (reason (Fmt "%r is not a user" [rf_openid form])) 403), s) ∧
     trace L (api_method env (handle_rule env form)) s
     = [User_by_openid (rf_openid form)]).
Proof.
  split; [|split].
  - intros form Hvalid Hmay Hmethod Huser.
    destruct (may_act_passes _ _ Hmay) as (who & Hauth & Hcheck).
    rewrite trace_api_method.
    assert (run L (handle_filter env form) s
            = (Raised (APIError 403
                         (reason (Fmt "%r is not a user" [ff_openid form]))), s)
            ∧ trace L (handle_filter env form) s
              = [User_by_openid (ff_openid form)]) as [Hrun Htrace].
    { unfold handle_filter, g_auth_openid.
      rewrite Hvalid, Hauth. simpl. rewrite Hcheck. simpl.
      rewrite (bool_decide_true (_ ∈ ["POST"; "DELETE"])) by done. simpl.
      by rewrite (bool_decide_false (ff_openid form ∈ users s)) by done. }
    split; [by apply run_api_method_raised|done].
  - intros form Hvalid Hmay Huser.
    destruct (may_act_passes _ _ Hmay) as (who & Hauth & Hcheck).
    rewrite trace_api_method.
    assert (run L (handle_details env form) s
            = (Raised (APIError 403
                         (reason (Fmt "%r is not a user" [df_openid form]))), s)
            ∧ trace L (handle_details env form) s
              = [User_by_openid (df_openid form)]) as [Hrun Htrace].
    { unfold handle_details, g_auth_openid.
      rewrite Hvalid, Hauth. simpl. rewrite Hcheck. simpl.
      by rewrite (bool_decide_false (df_openid form ∈ users s)) by done. }
    split; [by apply run_api_method_raised|done].
  - intros form Hvalid Hmay Hmethod Huser.
    destruct (may_act_passes _ _ Hmay) as (who & Hauth & Hcheck).
    rewrite trace_api_method.
    assert (run L (handle_rule env form) s
            = (Raised (APIError 403
                         (reason (Fmt "%r is not a user" [rf_openid form]))), s)
            ∧ trace L (handle_rule env form) s
              = [User_by_openid (rf_openid form)]) as [Hrun Htrace].
    { unfold handle_rule, g_auth_openid.
      rewrite Hvalid, Hauth. simpl. rewrite Hcheck. simpl.
      rewrite (bool_decide_true (_ ∈ ["POST"; "DELETE"])) by done. simpl.
      by rewrite (bool_decide_false (rf_openid form ∈ users s)) by done. }
    split; [by apply run_api_method_raised|done].
Qed.

Lemma unknown_user_refused_witness :
  run lib0
    (api_method (env_for {| openid := "root"; openid_url := "" |})
       (handle_details (env_for {| openid := "root"; openid_url := "" |})
          (details_form "nobody" "email" None None None (Some "y"))))
    store0
  = (Returned (jsonify_errors (reason (Fmt "%r is not a user" ["nobody"])) 403),
     store0).
Proof.
  destruct (unknown_user_refused lib0
              (env_for {| openid := "root"; openid_url := "" |}) store0)
    as (_ & Hdetails & _).
  apply (Hdetails (details_form "nobody" "email" None None None (Some "y"))).
  - reflexivity.
  - exists {| openid := "root"; openid_url := "" |}. split; [done|].
    right. by vm_compute.
  - refine (bool_decide_unpack _ _). vm_compute. exact I.
Defined.

(** X13. A request for a context that does not exist is refused with 403
    '... is not a context' by all three API handlers, after the user and
    the context were looked up; no Preference row is created and the store
    is unchanged. *)
Theorem unknown_context_refused L env s :
  (∀ form,
     ff_validate form = true → may_act env (ff_openid form) →
     upper (py_or (ff_method form) (request_method env)) ∈ ["POST"; "DELETE"] →
     ff_openid form ∈ users s → ff_context form ∉ contexts s →
     run L (api_method env (handle_filter env form)) s
     = (Returned (jsonify_errors
                    (reason (Fmt "%r is not a context" [ff_context form])) 403),
        s) ∧
     trace L (api_method env (handle_filter env form)) s
     = [User_by_openid (ff_openid form); Context_by_name (ff_context form)]) ∧
  (∀ form,
     df_validate form = true → may_act env (df_openid form) →
     df_openid form ∈ users s → df_context form ∉ contexts s →
     run L (api_method env (handle_details env form)) s
     = (Returned (jsonify_errors
                    (reason (Fmt "%r is not a context" [df_context form])) 403),
        s) ∧
     trace L (api_method env (handle_details env form)) s
     = [User_by_openid (df_openid form); Context_by_name (df_context form)]) ∧
  (∀ form,
     rf_validate form = true → may_act env (rf_openid form) →
     upper (py_or (rf_method form) (request_method env)) ∈ ["POST"; "DELETE"] →
     rf_openid form ∈ users s → rf_context form ∉ contexts s →
     run L (api_method env (handle_rule env form)) s
     = (Returned (jsonify_errors
                    (reason (Fmt "%r is not a context" [rf_context form])) 403),
        s) ∧
     trace L (api_method env (handle_rule env form)) s
     = [User_by_openid (rf_openid form); Context_by_name (rf_context form)]).
Proof.
  split; [|split].
  - intros form Hvalid Hmay Hmethod Huser Hctx.
    destruct (may_act_passes _ _ Hmay) as (who & Hauth & Hcheck).
    rewrite trace_api_method.
    assert (run L (handle_filter env form) s
            = (Raised (APIError 403
                         (reason (Fmt "%r is not a context" [ff_context form]))),
               s)
            ∧ trace L (handle_filter env form) s
              = [User_by_openid (ff_openid form);
                 Context_by_name (ff_context form)]) as [Hrun Htrace].
    { unfold handle_filter, g_auth_openid.
      rewrite Hvalid, Hauth. simpl. rewrite Hcheck. simpl.
      rewrite (bool_decide_true (_ ∈ ["POST"; "DELETE"])) by done. simpl.
      rewrite (bool_decide_true (ff_openid form ∈ users s)) by done. simpl.
      by rewrite (bool_decide_false (ff_context form ∈ contexts s)) by done. }
    split; [by apply run_api_method_raised|done].
  - intros form Hvalid Hmay Huser Hctx.
    destruct (may_act_passes _ _ Hmay) as (who & Hauth & Hcheck).
    rewrite trace_api_method.
    assert (run L (handle_details env form) s
            = (Raised (APIError 403
                         (reason (Fmt "%r is not a context" [df_context form]))),
               s)
            ∧ trace L (handle_details env form) s
              = [User_by_openid (df_openid form);
                 Context_by_name (df_context form)]) as [Hrun Htrace].
    { unfold handle_details, g_auth_openid.
      rewrite Hvalid, Hauth. simpl. rewrite Hcheck. simpl.
      rewrite (bool_decide_true (df_openid form ∈ users s)) by done. simpl.
      by rewrite (bool_decide_false (df_context form ∈ contexts s)) by done. }
    split; [by apply run_api_method_raised|done].
  - intros form Hvalid Hmay Hmethod Huser Hctx.
    destruct (may_act_passes _ _ Hmay) as (who & Hauth & Hcheck).
    rewrite trace_api_method.
    assert (run L (handle_rule env form) s
            = (Raised (APIError 403
                         (reason (Fmt "%r is not a context" [rf_context form]))),
               s)
            ∧ trace L (handle_rule env form) s
              = [User_by_openid (rf_openid form);
                 Context_by_name (rf_context form)]) as [Hrun Htrace].
    { unfold handle_rule, g_auth_openid.
      rewrite Hvalid, Hauth. simpl. rewrite Hcheck. simpl.
      rewrite (bool_decide_true (_ ∈ ["POST"; "DELETE"])) by done. simpl.
      rewrite (bool_decide_true (rf_openid form ∈ users s)) by done. simpl.
      by rewrite (bool_decide_false (rf_context form ∈ contexts s)) by done. }
    split; [by apply run_api_method_raised|done].
Qed.

Lemma unknown_context_refused_witness :
  run lib0
    (api_method (env_for alice)
       (handle_filter (env_for alice) (filter_form "alice" "sms" "mine" None)))
    store0
  = (Returned (jsonify_errors (reason (Fmt "%r is not a context" ["sms"])) 403),
     store0).
Proof.
  destruct (unknown_context_refused lib0 (env_for alice) store0)
    as (Hfilter & _).
  apply (Hfilter (filter_form "alice" "sms" "mine" None)).
  - reflexivity.
  - exists alice. split; [done|by left].
  - refine (bool_decide_unpack _ _). vm_compute. exact I.
  - refine (bool_decide_unpack _ _). vm_compute. exact I.
  - refine (bool_decide_unpack _ _). vm_compute. exact I.
Defined.

(** X14. [handle_filter] and [handle_rule] take their method from the
    form's [method] field, or else from the request, in upper case.  When
    that method is text of characters below 128 and is, letter case aside,
    neither POST nor DELETE, the request is answered 405 before the library
    is asked anything. *)
Theorem other_method_not_allowed L env s :
  (∀ form,
     ff_validate form = true → may_act env (ff_openid form) →
     isascii (py_or (ff_method form) (request_method env)) = true →
     upper (py_or (ff_method form) (request_method env)) ∉ ["POST"; "DELETE"] →
     run L (api_method env (handle_filter env form)) s
     = (Returned (jsonify_errors
                    (reason (Lit "Only POST and DELETE accepted")) 405), s) ∧
     trace L (api_method env (handle_filter env form)) s = []) ∧
  (∀ form,
     rf_validate form = true → may_act env (rf_openid form) →
     isascii (py_or (rf_method form) (request_method env)) = true →
     upper (py_or (rf_method form) (request_method env)) ∉ ["POST"; "DELETE"] →
     run L (api_method env (handle_rule env form)) s
     = (Returned (jsonify_errors
                    (reason (Lit "Only POST and DELETE accepted")) 405), s) ∧
     trace L (api_method env (handle_rule env form)) s = []).
Proof.
  split.
  - intros form Hvalid Hmay _ Hmethod.
    destruct (may_act_passes _ _ Hmay) as (who & Hauth & Hcheck).
    apply run_api_error.
    unfold handle_filter, g_auth_openid.
    rewrite Hvalid, Hauth. simpl. rewrite Hcheck. simpl.
    by rewrite (bool_decide_false (_ ∈ ["POST"; "DELETE"])) by done.
  - intros form Hvalid Hmay _ Hmethod.
    destruct (may_act_passes _ _ Hmay) as (who & Hauth & Hcheck).
    apply run_api_error.
    unfold handle_rule, g_auth_openid.
    rewrite Hvalid, Hauth. simpl. rewrite Hcheck. simpl.
    by rewrite (bool_decide_false (_ ∈ ["POST"; "DELETE"])) by done.
Qed.

Lemma other_method_not_allowed_witness :
  run lib0
    (api_method (env_for alice)
       (handle_filter (env_for alice)
          (filter_form "alice" "email" "mine" (Some "put"))))
    store0
  = (Returned (jsonify_errors
                 (reason (Lit "Only POST and DELETE accepted")) 405), store0).
Proof.
  destruct (other_method_not_allowed lib0 (env_for alice) store0)
    as (Hfilter & _).
  apply (Hfilter (filter_form "alice" "email" "mine" (Some "put"))).
  - reflexivity.
  - exists alice. split; [done|by left].
  - reflexivity.
  - refine (bool_decide_unpack _ _). vm_compute. exact I.
Defined.

(** ** Which requests get a typed answer *)

Lemma typed_is_answered L env (p : Prog Result) s :
  is_typed (run L p s).1 →
  ∃ resp, (run L (api_method env p) s).1 = Returned resp.
Proof.
  unfold api_method. rewrite run_try_except, run_bind.
  destruct (run L p s) as [[r|e] s1]; simpl.
  - intros _. destruct (dict_get "url" r); [destruct (wants_html env)|];
      simpl; eauto.
  - destruct e; simpl; try done. eauto.
Qed.

(** X15. The API handlers are not behind [login_required]: for an
    anonymous caller, whose [flask.g.auth] has no [openid], a request with
    a valid form raises [AttributeError] in all three, before any call and
    past [api_method]. *)
Theorem anonymous_api_request_raises L env s :
  g_auth env = None →
  (∀ form, ff_validate form = true →
     run L (api_method env (handle_filter env form)) s
     = (Raised (AttributeError "openid"), s) ∧
     trace L (api_method env (handle_filter env form)) s = []) ∧
  (∀ form, df_validate form = true →
     run L (api_method env (handle_details env form)) s
     = (Raised (AttributeError "openid"), s) ∧
     trace L (api_method env (handle_details env form)) s = []) ∧
  (∀ form, rf_validate form = true →
     run L (api_method env (handle_rule env form)) s
     = (Raised (AttributeError "openid"), s) ∧
     trace L (api_method env (handle_rule env form)) s = []).
Proof.
  intros Hanon. split; [|split]; intros form Hvalid.
  - assert (handle_filter env form = Raise (AttributeError "openid")) as ->; [|done].
    unfold handle_filter, g_auth_openid. by rewrite Hvalid, Hanon.
  - assert (handle_details env form = Raise (AttributeError "openid")) as ->; [|done].
    unfold handle_details, g_auth_openid. by rewrite Hvalid, Hanon.
  - assert (handle_rule env form = Raise (AttributeError "openid")) as ->; [|done].
    unfold handle_rule, g_auth_openid. by rewrite Hvalid, Hanon.
Qed.

Lemma anonymous_api_request_raises_witness :
  let env := env_with_auth anonymous (env_for alice) in
  run lib0
    (api_method env
       (handle_details env (details_form "alice" "email" None None None None)))
    store0
  = (Raised (AttributeError "openid"), store0).
Proof.
  destruct (anonymous_api_request_raises lib0
              (env_with_auth anonymous (env_for alice)) store0 eq_refl)
    as (_ & Hdetails & _).
  apply (Hdetails (details_form "alice" "email" None None None None)).
  reflexivity.
Defined.

Lemma handle_filter_typed L env form s who :
  g_auth env = Some who → is_typed (run L (handle_filter env form) s).1.
Proof.
  intros Hauth. unfold handle_filter, g_auth_openid. rewrite Hauth.
  destruct (ff_validate form); simpl; [|done].
  destruct (bool_decide (openid who ≠ ff_openid form)
            && negb (admin env (openid who))); simpl; [done|].
  destruct (bool_decide (upper _ ∈ ["POST"; "DELETE"])) eqn:Hin; simpl;
    [|done].
  destruct (bool_decide (ff_openid form ∈ users s)); simpl; [|done].
  destruct (bool_decide (ff_context form ∈ contexts s)); simpl; [|done].
  destruct (bool_decide (upper _ = "POST")) eqn:Hpost; simpl.
  - by destruct (pref_has_filter _ _ _).
  - destruct (bool_decide (upper _ = "DELETE")) eqn:Hdelete; simpl.
    + unfold pref_get_filter.
      by destruct (list_find _ _) as [[k f]|].
    + (* the branch that raises NotImplementedError is never taken *)
      apply bool_decide_eq_true in Hin.
      apply bool_decide_eq_false in Hpost, Hdelete.
      apply elem_of_cons in Hin as [?|Hin]; [done|].
      apply elem_of_cons in Hin as [?|Hin]; [done|].
      by apply not_elem_of_nil in Hin.
Qed.

(** X16. For a caller who is logged in [handle_filter] always answers:
    whatever the form and the store, the decorated handler returns a
    response and raises nothing. *)
Theorem handle_filter_always_answers L env form s who :
  g_auth env = Some who →
  ∃ resp, (run L (api_method env (handle_filter env form)) s).1 = Returned resp.
Proof.
  intros Hauth. apply typed_is_answered. by eapply handle_filter_typed.
Qed.

Lemma handle_filter_always_answers_witness :
  ∃ resp,
    (run lib0
       (api_method (env_for mallory)
          (handle_filter (env_for mallory)
             (filter_form "alice" "email" "mine" (Some "delete"))))
       store0).1
    = Returned resp.
Proof.
  apply (handle_filter_always_answers lib0 (env_for mallory) _ store0 mallory).
  reflexivity.
Defined.

(** ** Rules *)

Lemma omap_cons {A B} (f : A → option B) x l :
  omap f (x :: l)
  = match f x with Some y => y :: omap f l | None => omap f l end.
Proof. done. Qed.

Lemma dict_get_None {V} k (d : list (string * V)) :
  dict_get k d = None ↔ k ∉ d.*1.
Proof.
  induction d as [|[k' v] d IH]; simpl.
  - split; [intros _; apply not_elem_of_nil|done].
  - rewrite not_elem_of_cons. case_bool_decide; subst.
    + split; [done|]. by intros [? _].
    + rewrite IH. split; [by split|by intros [_ ?]].
Qed.

Lemma dict_get_omap (g : string → option string) k ks :
  NoDup ks →
  dict_get k (omap (fun k' => pair k' <$> g k') ks)
  = if bool_decide (k ∈ ks) then g k else None.
Proof.
  induction 1 as [|k0 ks Hk0 Hnd IH]; [done|].
  rewrite (omap_cons (fun k' => pair k' <$> g k')).
  destruct (decide (k0 = k)) as [->|Hne].
  - rewrite (bool_decide_true (k ∈ k :: ks)) by (apply elem_of_cons; by left).
    destruct (g k) as [v|] eqn:Hg; simpl.
    + by rewrite bool_decide_true.
    + rewrite IH. by rewrite bool_decide_false.
  - assert (bool_decide (k ∈ k0 :: ks) = bool_decide (k ∈ ks)) as ->.
    { apply bool_decide_ext. rewrite elem_of_cons.
      split; [by intros [?|?]|by right]. }
    destruct (g k0) as [v|]; simpl; [|done].
    by rewrite bool_decide_false.
Qed.

Lemma keys_omap (g : string → option string) ks :
  NoDup ks → NoDup (omap (fun k' => pair k' <$> g k') ks).*1.
Proof.
  assert (∀ k l, k ∈ (omap (fun k' => pair k' <$> g k') l).*1 → k ∈ l) as Hin.
  { intros k l. induction l as [|k0 l IH]; [done|].
    rewrite (omap_cons (fun k' => pair k' <$> g k')).
    destruct (g k0); simpl; rewrite ?elem_of_cons; [|by right; apply IH].
    intros [?|?]; [by left|by right; apply IH]. }
  induction 1 as [|k0 ks Hk0 Hnd IH]; [constructor|].
  rewrite (omap_cons (fun k' => pair k' <$> g k')).
  destruct (g k0); simpl; [|done].
  constructor; [|done]. intros Hk. by apply Hk0, Hin.
Qed.

(** X17. The [arguments] that [handle_rule] passes to [add_rule] are the
    posted form without the four known fields: every other key of the form
    appears once, with the value the form has for it, and the known fields
    never appear.  A posted [method] field, which selects the method, is
    not a known field, so it is passed on as a rule argument. *)
Theorem rule_arguments_spec (form : list (string * string)) :
  NoDup (rule_arguments form).*1 ∧
  (∀ k, dict_get k (rule_arguments form)
        = if bool_decide (k ∈ known_args) then None else dict_get k form) ∧
  dict_get "method" (rule_arguments form) = dict_get "method" form.
Proof.
  set (g := fun k' : string =>
              if bool_decide (k' ∈ known_args) then None
              else dict_get k' form).
  assert (rule_arguments form
          = omap (fun k' => pair k' <$> g k') (remove_dups (form.*1))) as ->.
  { unfold rule_arguments, g.
    induction (remove_dups (form.*1)) as [|k0 ks IH]; [done|].
    rewrite !omap_cons, IH. by destruct (bool_decide (k0 ∈ known_args)). }
  assert (∀ k, dict_get k (omap (fun k' => pair k' <$> g k')
                             (remove_dups (form.*1)))
               = if bool_decide (k ∈ known_args) then None
                 else dict_get k form) as Hget.
  { intros k. rewrite dict_get_omap by apply NoDup_remove_dups.
    unfold g. case_bool_decide as Hk; [done|].
    case_bool_decide; [done|].
    symmetry. apply dict_get_None. by rewrite elem_of_remove_dups in Hk. }
  split; [|split; [exact Hget|by rewrite Hget]].
  apply keys_omap, NoDup_remove_dups.
Qed.

Lemma get_filter_found q n s k :
  pref_get_filter q n s = inr k → pref_has_filter q n s = true.
Proof.
  unfold pref_get_filter, pref_has_filter.
  destruct (list_find _ _) as [[i x]|] eqn:E; [|done]. intros _.
  apply list_find_Some in E as (Hx & Hof & _).
  apply bool_decide_eq_true, Exists_exists. exists x.
  split; [by eapply list_elem_of_lookup_2|done].
Qed.

Lemma get_filter_missing q n s :
  pref_has_filter q n s = false →
  pref_get_filter q n s = inl (ValueError "No such filter").
Proof.
  unfold pref_get_filter, pref_has_filter. intros Hno.
  apply bool_decide_eq_false in Hno.
  destruct (list_find _ _) as [[i x]|] eqn:E; [|done].
  apply list_find_Some in E as (Hx & Hof & _).
  exfalso. apply Hno, Exists_exists. exists x.
  split; [by eapply list_elem_of_lookup_2|done].
Qed.

Lemma pref_get_filter_get_or_create L o c q n s :
  pref_get_filter q n (preference_get_or_create L o c s) = pref_get_filter q n s.
Proof.
  unfold pref_get_filter. by rewrite filters_preference_get_or_create.
Qed.

(** [handle_rule] up to the point where it has the Filter in hand. *)
Lemma handle_rule_prefix env form s :
  rule_ready env form s →
  upper (py_or (rf_method form) (request_method env)) ∈ ["POST"; "DELETE"] →
  ∃ who, g_auth env = Some who ∧
  handle_rule env form
  = (user <- ask (User_by_openid (rf_openid form)) ;;
     if negb (bool_decide (is_Some user)) then
       Raise (APIError 403
                (reason (Fmt "%r is not a user" [rf_openid form])))
     else
       ctx <- ask (Context_by_name (rf_context form)) ;;
       match ctx with
       | None =>
           Raise (APIError 403
                    (reason (Fmt "%r is not a context" [rf_context form])))
       | Some ctx =>
           pref <- ask (Preference_get_or_create (rf_openid form) ctx) ;;
           has <- ask (Pref_has_filter pref (rf_filter_name form)) ;;
           if negb has then
             Raise (APIError 403
                      (reason (Fmt "%r is not a filter" [rf_filter_name form])))
           else
             filter <-
               ask_raising (Pref_get_filter pref (rf_filter_name form)) id ;;
             try_except
               (if bool_decide
                     (upper (py_or (rf_method form) (request_method env))
                      = "POST")
                then ask_raising
                       (Filter_add_rule filter (rf_rule_name form)
                          (rule_arguments (request_form env))) id
                else if bool_decide
                          (upper (py_or (rf_method form) (request_method env))
                           = "DELETE")
                then ask_raising
                       (Filter_remove_filter filter (rf_rule_name form)) id
                else Raise (NotImplementedError "This is impossible."))
               except_value_key_error ;;;
             Ret [("message", Lit "ok");
                  ("url", url_for "filter"
                            [("openid", rf_openid form);
                             ("context", rf_context form);
                             ("filter_name", rf_filter_name form)])]
       end).
Proof.
  intros (Hvalid & Hmay & _ & _) Hmethod.
  destruct (may_act_passes _ _ Hmay) as (who & Hauth & Hcheck).
  exists who. split; [done|].
  unfold handle_rule, g_auth_openid.
  rewrite Hvalid, Hauth. simpl. rewrite Hcheck. simpl.
  by rewrite (bool_decide_true (_ ∈ ["POST"; "DELETE"])) by done.
Qed.

(** X18. Attaching or detaching a rule on a Filter the Preference does not
    have is refused with 403 '... is not a filter': [add_rule] and
    [remove_filter] are not called and the Filter rows stay as they
    were. *)
Theorem rule_on_missing_filter_refused L env form s :
  rule_ready env form s →
  upper (py_or (rf_method form) (request_method env)) ∈ ["POST"; "DELETE"] →
  pref_has_filter (rf_openid form, rf_context form) (rf_filter_name form) s
  = false →
  let call := api_method env (handle_rule env form) in
  (run L call s).1
  = Returned (jsonify_errors
                (reason (Fmt "%r is not a filter" [rf_filter_name form])) 403) ∧
  trace L call s
  = [User_by_openid (rf_openid form); Context_by_name (rf_context form);
     Preference_get_or_create (rf_openid form) (rf_context form);
     Pref_has_filter (rf_openid form, rf_context form) (rf_filter_name form)] ∧
  filters (run L call s).2 = filters s.
Proof.
  intros Hready Hmethod Hhas call.
  destruct (handle_rule_prefix env form s Hready Hmethod) as (who & _ & Heq).
  destruct Hready as (_ & _ & Huser & Hctx).
  assert (run L (handle_rule env form) s
          = (Raised (APIError 403
                       (reason (Fmt "%r is not a filter" [rf_filter_name form]))),
             preference_get_or_create L (rf_openid form) (rf_context form) s)
          ∧ trace L (handle_rule env form) s
            = [User_by_openid (rf_openid form);
               Context_by_name (rf_context form);
               Preference_get_or_create (rf_openid form) (rf_context form);
               Pref_has_filter (rf_openid form, rf_context form)
                 (rf_filter_name form)]) as [Hrun Htrace].
  { rewrite Heq. simpl.
    rewrite (bool_decide_true (rf_openid form ∈ users s)) by done. simpl.
    rewrite (bool_decide_true (rf_context form ∈ contexts s)) by done. simpl.
    by rewrite pref_has_filter_get_or_create, Hhas. }
  subst call. rewrite trace_api_method.
  rewrite (run_api_method_raised _ _ _ _ _ _ _ Hrun).
  split; [done|]. split; [done|]. apply filters_preference_get_or_create.
Qed.

Lemma rule_on_missing_filter_refused_witness :
  (run lib0
     (api_method (env_for alice)
        (handle_rule (env_for alice)
           (rule_form "alice" "email" "other" "fmn.rules:user_filter" None)))
     store0).1
  = Returned (jsonify_errors (reason (Fmt "%r is not a filter" ["other"])) 403).
Proof.
  apply (rule_on_missing_filter_refused lib0 (env_for alice)
           (rule_form "alice" "email" "other" "fmn.rules:user_filter" None)
           store0).
  - split; [done|]. split; [exists alice; split; [done|by left]|].
    split; simpl; set_solver.
  - refine (bool_decide_unpack _ _). vm_compute. exact I.
  - vm_compute. reflexivity.
Defined.

(** X19. Attaching a rule to an existing Filter.  [handle_rule] calls
    [add_rule] with the posted code path and [rule_arguments] of the posted
    form.  When the catalog accepts, the rule is appended after the rules
    the Filter has and the other rows stay; a [ValueError] or [KeyError]
    becomes the 403 error with its message and the rows stay; any other
    exception raised by [add_rule] leaves [handle_rule] as it is. *)
Theorem attach_rule_outcome L env form s k f :
  rule_ready env form s →
  upper (py_or (rf_method form) (request_method env)) = "POST" →
  pref_get_filter (rf_openid form, rf_context form) (rf_filter_name form) s
  = inr k →
  filters s !! k = Some (Some f) →
  let cp := rf_rule_name form in
  let args := rule_arguments (request_form env) in
  let s0 := preference_get_or_create L (rf_openid form) (rf_context form) s in
  Filter_add_rule k cp args ∈ trace L (handle_rule env form) s ∧
  (rule_catalog L cp args = None →
   (∃ r, (run L (handle_rule env form) s).1 = Returned r) ∧
   filters (run L (handle_rule env form) s).2 !! k
   = Some (Some (set_rules
                   (rules f ++ [{| code_path := cp; arguments := args |}]) f)) ∧
   ∀ j, j ≠ k →
        filters (run L (handle_rule env form) s).2 !! j = filters s !! j) ∧
  (∀ e, rule_catalog L cp args = Some e →
        run L (handle_rule env form) s
        = (match e with
           | ValueError _ | KeyError _ =>
               Raised (APIError 403 (reason (Lit (exn_str e))))
           | _ => Raised e
           end, s0)).
Proof.
  intros Hready Hpost Hget Hrow. cbv zeta.
  assert (upper (py_or (rf_method form) (request_method env))
          ∈ ["POST"; "DELETE"]) as Hmethod.
  { rewrite Hpost. apply elem_of_cons. by left. }
  destruct (handle_rule_prefix env form s Hready Hmethod) as (who & _ & Heq).
  destruct Hready as (_ & _ & Huser & Hctx).
  pose proof (get_filter_found _ _ _ _ Hget) as Hhas.
  pose proof (filters_preference_get_or_create L (rf_openid form)
                (rf_context form) s) as Hf0.
  rewrite Heq, Hpost. simpl.
  rewrite (bool_decide_true (rf_openid form ∈ users s)) by done. simpl.
  rewrite (bool_decide_true (rf_context form ∈ contexts s)) by done. simpl.
  rewrite !pref_has_filter_get_or_create, Hhas. simpl.
  rewrite !pref_get_filter_get_or_create, Hget. simpl.
  set (s0 := preference_get_or_create L (rf_openid form) (rf_context form) s)
    in *.
  split.
  { do 5 (apply elem_of_cons; right). apply elem_of_cons. by left. }
  unfold filter_add_rule. split.
  - intros Hok. rewrite Hok. simpl. split; [eauto|]. split.
    + by rewrite list_lookup_alter_eq, Hf0, Hrow.
    + intros j Hj. by rewrite list_lookup_alter_ne, Hf0.
  - intros e He. rewrite He. simpl. by destruct e.
Qed.

Lemma attach_rule_outcome_witness :
  filters
    (run lib0
       (handle_rule (env_for alice)
          (rule_form "alice" "email" "mine" "fmn.rules:user_filter" None))
       store0).2 !! 0%nat
  = Some (Some {| name := "mine"; preference := Some ("alice", "email");
                  rules := [{| code_path := "fmn.rules:user_filter";
                               arguments := [] |}] |}).
Proof.
  assert (rule_ready (env_for alice)
            (rule_form "alice" "email" "mine" "fmn.rules:user_filter" None)
            store0) as Hready.
  { split; [done|]. split; [exists alice; split; [done|by left]|].
    split; simpl; set_solver. }
  destruct (attach_rule_outcome lib0 (env_for alice)
              (rule_form "alice" "email" "mine" "fmn.rules:user_filter" None)
              store0 0%nat
              {| name := "mine"; preference := Some ("alice", "email");
                 rules := [] |}
              Hready eq_refl eq_refl eq_refl) as (_ & Hok & _).
  by destruct (Hok eq_refl) as (_ & Hrow & _).
Defined.

(** X20. Detaching ignores the posted arguments: for the DELETE method
    [handle_rule] passes only the code path to [remove_filter], so two
    requests that differ only in the other posted fields do the same. *)
Theorem detach_ignores_arguments L env form s posted :
  upper (py_or (rf_method form) (request_method env)) = "DELETE" →
  run L (handle_rule (with_request_form posted env) form) s
  = run L (handle_rule env form) s ∧
  trace L (handle_rule (with_request_form posted env) form) s
  = trace L (handle_rule env form) s.
Proof.
  intros Hdelete.
  assert (handle_rule (with_request_form posted env) form
          = handle_rule env form) as ->; [|done].
  unfold handle_rule, g_auth_openid, admin. simpl. rewrite Hdelete. simpl.
  done.
Qed.

Lemma detach_ignores_arguments_witness :
  run lib0
    (handle_rule (with_request_form [("fasnick", "bob")] (env_for alice))
       (rule_form "alice" "email" "mine" "fmn.rules:user_filter"
          (Some "delete")))
    store0
  = run lib0
      (handle_rule (env_for alice)
         (rule_form "alice" "email" "mine" "fmn.rules:user_filter"
            (Some "delete")))
      store0.
Proof.
  apply (detach_ignores_arguments lib0 (env_for alice)
           (rule_form "alice" "email" "mine" "fmn.rules:user_filter"
              (Some "delete"))
           store0 [("fasnick", "bob")]).
  reflexivity.
Defined.

(** ** Deleting a Filter, resolving a Confirmation *)

Lemma get_filter_row q n s k :
  pref_get_filter q n s = inr k →
  ∃ f, filters s !! k = Some (Some f) ∧ preference f = Some q ∧ name f = n.
Proof.
  unfold pref_get_filter.
  destruct (list_find _ _) as [[i x]|] eqn:E; [|done]. intros [= <-].
  apply list_find_Some in E as (Hx & Hof & _).
  destruct x as [f|]; [|done]. destruct Hof. eauto.
Qed.

(** X21. Deleting a Filter.  A DELETE for a name the Preference does not
    have is answered 403 with the message of the [ValueError] that
    [get_filter] raised, and the Filter rows stay.  A DELETE for a name it
    has deletes the row [get_filter] found and no other; when names are
    unique the Preference has no Filter of that name afterwards. *)
Theorem delete_filter_outcome L env form s :
  filter_ready env form s →
  upper (py_or (ff_method form) (request_method env)) = "DELETE" →
  let q := (ff_openid form, ff_context form) in
  let n := ff_filter_name form in
  let s' := (run L (api_method env (handle_filter env form)) s).2 in
  (pref_has_filter q n s = false →
   (run L (api_method env (handle_filter env form)) s).1
   = Returned (jsonify_errors (reason (Lit "No such filter")) 403) ∧
   filters s' = filters s) ∧
  (∀ k, pref_get_filter q n s = inr k →
        (∃ r, (run L (handle_filter env form) s).1 = Returned r) ∧
        filters s' = <[k := None]> (filters s) ∧
        (unique_filter_names s → pref_has_filter q n s' = false)).
Proof.
  intros (Hvalid & Hmay & Huser & Hctx) Hdelete. cbv zeta.
  destruct (may_act_passes _ _ Hmay) as (who & Hauth & Hcheck).
  rewrite store_api_method.
  pose proof (filters_preference_get_or_create L (ff_openid form)
                (ff_context form) s) as Hf0.
  assert (run L (handle_filter env form) s
          = match pref_get_filter (ff_openid form, ff_context form)
                    (ff_filter_name form) s with
            | inl e =>
                (match e with
                 | ValueError _ | KeyError _ =>
                     Raised (APIError 403 (reason (Lit (exn_str e))))
                 | _ => Raised e
                 end,
                 preference_get_or_create L (ff_openid form) (ff_context form) s)
            | inr k =>
                (Returned
                   [("message", Lit "ok");
                    ("url", url_for "context"
                              [("openid", ff_openid form);
                               ("context", ff_context form)])],
                 session_delete k
                   (preference_get_or_create L (ff_openid form)
                      (ff_context form) s))
            end) as Hrun.
  { unfold handle_filter, g_auth_openid.
    rewrite Hvalid, Hauth, Hdelete. simpl. rewrite Hcheck. simpl.
    rewrite (bool_decide_true (ff_openid form ∈ users s)) by done. simpl.
    rewrite (bool_decide_true (ff_context form ∈ contexts s)) by done. simpl.
    rewrite pref_get_filter_get_or_create.
    destruct (pref_get_filter _ _ s) as [e|k]; simpl; [|done].
    by destruct e. }
  split.
  - intros Hno. rewrite (get_filter_missing _ _ _ Hno) in Hrun. simpl in Hrun.
    rewrite (run_api_method_raised _ _ _ _ _ _ _ Hrun), Hrun. done.
  - intros k Hk. pose proof (get_filter_row _ _ _ _ Hk) as (f & Hrow & Hfp & Hfn).
    rewrite Hk in Hrun. rewrite Hrun. simpl.
    split; [eauto|]. split; [by rewrite Hf0|].
    intros Hu. apply bool_decide_eq_false. unfold session_delete. simpl.
    rewrite Hf0. intros Hex. apply Exists_exists in Hex as (row & Hin & Hof).
    apply list_elem_of_lookup in Hin as [j Hj].
    destruct (decide (k = j)) as [->|Hne].
    + rewrite list_lookup_insert_eq in Hj by (by eapply lookup_lt_Some).
      by simplify_eq.
    + rewrite list_lookup_insert_ne in Hj by done.
      destruct row as [g|]; [|done]. destruct Hof as [Hgp Hgn].
      apply Hne. apply (Hu k j f g (ff_openid form, ff_context form));
        congruence.
Qed.

Lemma delete_filter_outcome_witness :
  filters
    (run lib0
       (api_method (env_for alice)
          (handle_filter (env_for alice)
             (filter_form "alice" "email" "mine" (Some "delete"))))
       store0).2
  = <[0%nat := None]> (filters store0).
Proof.
  assert (filter_ready (env_for alice)
            (filter_form "alice" "email" "mine" (Some "delete")) store0)
    as Hready.
  { split; [done|]. split; [exists alice; split; [done|by left]|].
    split; simpl; set_solver. }
  destruct (delete_filter_outcome lib0 (env_for alice)
              (filter_form "alice" "email" "mine" (Some "delete")) store0
              Hready eq_refl) as [_ Hfound].
  by destruct (Hfound 0%nat eq_refl) as (_ & Hrows & _).
Defined.

(** X22. Resolving a pending Confirmation by its owner.  "accept" sets
    the status to accepted and "reject" to rejected; either way the answer
    is a redirect to the owner's page for the Confirmation's context.  A
    rejection leaves every Preference as it was; an acceptance makes the
    proposed value the detail value of the owner's Preference. *)
Theorem resolve_by_owner L env sec s who k x :
  g_auth env = Some who →
  confirmation_by_secret sec s = Some k →
  confirmations s !! k = Some x →
  con_openid x = openid who →
  let page :=
    redirect (url_for "context" [("openid", con_openid x);
                                 ("context", con_context_name x)]) in
  let accept := run L (handle_confirmation env "accept" sec) s in
  let reject := run L (handle_confirmation env "reject" sec) s in
  accept.1 = Returned page ∧
  status <$> confirmations accept.2 !! k = Some accepted ∧
  (is_Some (preferences s !! (con_openid x, con_context_name x)) →
   current_detail accept.2 (con_openid x, con_context_name x)
   = con_detail_value x) ∧
  reject.1 = Returned page ∧
  status <$> confirmations reject.2 !! k = Some rejected ∧
  preferences reject.2 = preferences s.
Proof.
  intros Hauth Hfound Hrow Howner. cbv zeta.
  assert (∀ st,
            confirmations (con_set_status k st s) !! k
            = Some (set_con_status st x)) as Hst.
  { intros st. by rewrite confirmations_con_set_status,
                          list_lookup_alter_eq, Hrow. }
  assert (run L (handle_confirmation env "accept" sec) s
          = (Returned (redirect (url_for "context"
                                   [("openid", con_openid x);
                                    ("context", con_context_name x)])),
             con_set_status k accepted s)) as ->.
  { unfold handle_confirmation, g_auth_openid. rewrite Hauth. simpl.
    rewrite Hfound. simpl. rewrite Hrow. simpl.
    rewrite bool_decide_false by (by intros ?). simpl.
    by rewrite ?Hst, ?list_lookup_alter_eq, ?Hrow. }
  assert (run L (handle_confirmation env "reject" sec) s
          = (Returned (redirect (url_for "context"
                                   [("openid", con_openid x);
                                    ("context", con_context_name x)])),
             con_set_status k rejected s)) as ->.
  { unfold handle_confirmation, g_auth_openid. rewrite Hauth. simpl.
    rewrite Hfound. simpl. rewrite Hrow. simpl.
    rewrite bool_decide_false by (by intros ?). simpl.
    by rewrite ?Hst, ?list_lookup_alter_eq, ?Hrow. }
  cbn [fst snd]. rewrite !Hst. simpl.
  split; [done|]. split; [done|]. split; [|done].
  intros [r Hr]. unfold con_set_status, current_detail. rewrite Hrow. simpl.
  by rewrite lookup_alter_eq, Hr.
Qed.

Lemma resolve_by_owner_witness :
  current_detail
    (run lib0 (handle_confirmation (env_for alice) "accept" "k") store1).2
    ("alice", "email")
  = Some "alice@example.com".
Proof.
  destruct (resolve_by_owner lib0 (env_for alice) "k" store1 alice 0%nat
              {| secret := "k"; con_openid := "alice";
                 con_context_name := "email";
                 con_detail_value := Some "alice@example.com";
                 status := pending |})
    as (_ & _ & Hdetail & _).
  - reflexivity.
  - vm_compute. reflexivity.
  - vm_compute. reflexivity.
  - reflexivity.
  - apply Hdetail. vm_compute. eauto.
Defined.

(** ** One request or two *)

Lemma details_ready_same_target env form form' s s' :
  details_ready env form s →
  df_openid form' = df_openid form → df_context form' = df_context form →
  df_validate form' = true →
  users s' = users s → contexts s' = contexts s →
  details_ready env form' s'.
Proof.
  intros (Hv & Hm & Hu & Hc) Ho Hx Hv' Hus Hcs.
  unfold details_ready. by rewrite Ho, Hx, Hus, Hcs.
Qed.

(** X23. Batch values and the enable toggle can be posted together or one
    after the other.  When both batch fields are read by [int_or_none], a
    request that posts them with the toggle leaves the store that a
    request with the batch fields alone, followed by one with the toggle
    alone, leaves. *)
Theorem batch_and_toggle_compose L env form s d c :
  details_ready env form s →
  truthy (df_detail_value form) = false →
  int_or_none (df_batch_delta form) = Ret d →
  int_or_none (df_batch_count form) = Ret c →
  truthy (df_toggle_enable form) = true →
  (run L (handle_details env form) s).2
  = (run L (handle_details env (toggle_only form))
       (run L (handle_details env (batch_only form)) s).2).2.
Proof.
  intros Hready Hdv Hd Hc Hte.
  set (o := df_openid form). set (x := df_context form).
  set (s0 := preference_get_or_create L o x s).
  set (sb := with_preferences s0 (alter (set_batch d c) (o, x) (preferences s0))).
  assert (is_Some (preferences s0 !! (o, x))) as Hq0 by apply preference_created.
  assert (is_Some (preferences sb !! (o, x))) as Hqb.
  { unfold sb. simpl. by apply is_Some_alter. }
  (* the request that posts both *)
  assert ((run L (handle_details env form) s).2 = toggled (o, x) sb) as ->.
  { destruct (handle_details_ready L env form s Hready) as [-> _].
    fold o x s0. unfold details_blocks. fold o x. rewrite run_bind.
    destruct (change_detail_noop L env o x (df_detail_value form) s0)
      as [-> _]; [by left|].
    rewrite run_bind, (change_batch_both L (o, x) _ _ d c s0 Hd Hc).
    fold sb. rewrite run_bind.
    by destruct (change_enabled_toggles L (o, x) _ sb Hte) as [-> _]. }
  (* the request with the batch fields alone *)
  assert (details_ready env (batch_only form) s) as Hready1
    by (by eapply details_ready_same_target).
  assert ((run L (handle_details env (batch_only form)) s).2 = sb) as ->.
  { destruct (handle_details_ready L env (batch_only form) s Hready1) as [-> _].
    simpl. fold o x s0. unfold details_blocks. simpl. fold o x.
    rewrite run_bind, (change_batch_both L (o, x) _ _ d c s0 Hd Hc).
    done. }
  (* the request with the toggle alone *)
  assert (details_ready env (toggle_only form) sb) as Hready2.
  { eapply details_ready_same_target; try done; simpl;
      unfold s0, preference_get_or_create;
      by destruct (preferences s !! _). }
  destruct (handle_details_ready L env (toggle_only form) sb Hready2) as [-> _].
  simpl. fold o x. rewrite (preference_get_or_create_id L o x sb Hqb).
  rewrite (toggle_only_blocks L env (toggle_only form) sb); done.
Qed.

Lemma batch_and_toggle_compose_witness :
  let form :=
    details_form "alice" "email" None (Some "60") (Some "<disabled>")
      (Some "y") in
  (run lib0 (handle_details (env_for alice) form) store0).2
  = (run lib0 (handle_details (env_for alice) (toggle_only form))
       (run lib0 (handle_details (env_for alice) (batch_only form)) store0).2).2.
Proof.
  apply (batch_and_toggle_compose lib0 (env_for alice)
           (details_form "alice" "email" None (Some "60") (Some "<disabled>")
              (Some "y"))
           store0 (Some 60) None).
  - apply details_ready_alice.
  - reflexivity.
  - reflexivity.
  - reflexivity.
  - reflexivity.
Defined.
